(** * The Emu Pages: navigation core and boot renderer

    A shallow embedding of [src/emu_pages.c] (libretro entry points, the
    three-screen state machine, input auto-repeat) and of [src/renderer.c]
    (framebuffer primitives and the three screen renderers), followed by
    the properties of the navigation and boot behaviour.

    Conventions of the embedding.
    - A C [int] is a [Z]; [/] and [%] are C's truncating [Z.quot] and
      [Z.rem].  Computing in [Z] is exact as long as no value leaves the
      range of [int]: the navigation fields stay inside the catalog bounds
      ([nav_bounds_invariant]) and the boot timer stops at [BOOT_FRAMES].
      The held-frame counter of a button that stays down does leave it,
      after [INT_MAX] frames: its increment is wrapped around
      ([wrap_int]) as the build does, where C leaves the overflow
      undefined.
    - The globals of [emu_pages.c] are the fields of the record [core];
      the code that mutates them runs in a state monad over [core].
    - The framebuffer is a pixel store [Z -> Z] indexed like the C array
      [framebuffer[SCREEN_W * SCREEN_H]]; a drawing routine is a
      framebuffer transformer.
    - A C string is the [string] of its characters before the NUL.
    - The host callbacks are a per-frame joypad reading (what
      [input_state_cb] answers for each button id during the frame) and a
      trace of the calls made to the host. *)

From Stdlib Require Import ZArith Bool List String Ascii Lia.
From Stdlib Require Import DecimalString.
From stdpp Require Import base list.
Import ListNotations.
Local Open Scope Z_scope.

(* ================================================================== *)
(** * renderer.h: screen geometry and palette *)

Definition SCREEN_W : Z := 640.
Definition SCREEN_H : Z := 480.
Definition GLYPH_W : Z := 8.
Definition GLYPH_H : Z := 16.
Definition TERM_COLS : Z := 80.
Definition TERM_ROWS : Z := 30.
Definition BORDER_COLS : Z := 2.
Definition BORDER_ROWS : Z := 1.
Definition TEXT_COLS : Z := 76.
Definition TEXT_ROWS : Z := 28.
Definition HEADER_ROW : Z := 0.
Definition CONTENT_START : Z := 2.
Definition FOOTER_ROW : Z := 27.
Definition CONTENT_ROWS : Z := 25.

Definition COL_BORDER : Z := 0xFF6C5EB5.
Definition COL_BG : Z := 0xFF4039A4.
Definition COL_FG : Z := 0xFFA0A0E0.
Definition COL_TITLE : Z := 0xFFFFFFFF.
Definition COL_HIGHLIGHT : Z := 0xFF70E070.
Definition COL_H2 : Z := 0xFFE0E050.
Definition COL_H3 : Z := 0xFFC8C8E0.
Definition COL_DIM : Z := 0xFF7070C0.
Definition COL_CURSOR_FG : Z := 0xFF2020A0.
Definition BAR_COLOR : Z := 0xFF924A40.

(* ================================================================== *)
(** * wiki_data.h: the baked catalog

    The header is generated at build time and is not part of the sources;
    its types are the ones the code reads through. *)

(** Modelled from the spec: the line tag of the generated [wiki_data.h]
    ("tagged variant {Body, Heading2, Heading3}"); the code names only
    [LINE_H2] and [LINE_H3] and treats every other tag as body text. *)
Inductive line_type_t : Type := LINE_BODY | LINE_H2 | LINE_H3.

(** Modelled from the spec: a line of the generated [wiki_data.h], with the
    two fields [type] and [text] that [render_page] reads. *)
Record wiki_line_t : Type := WikiLine {
  type : line_type_t;
  text : string
}.

(** Modelled from the spec: a document of the generated [wiki_data.h], with
    the fields [title], [lines] and [line_count] that the code reads. *)
Record wiki_page_t : Type := WikiPage {
  title : string;
  lines : list wiki_line_t;
  line_count : Z
}.

Definition empty_line : wiki_line_t := WikiLine LINE_BODY EmptyString.
Definition empty_page : wiki_page_t := WikiPage EmptyString [] 0.

(* ================================================================== *)
(** * C idioms *)

(** The pixel store behind [uint32_t framebuffer[SCREEN_W * SCREEN_H]]. *)
Definition fbuf : Type := Z -> Z.

(** [fb[i] = c]. *)
Definition fb_store (fb : fbuf) (i c : Z) : fbuf :=
  fun j => if j =? i then c else fb j.

(** [for (i = i0; i < i0 + n && cond(i); i++) body(i)]: at most [n] rounds,
    left at the first index where the extra condition fails. *)
Fixpoint for_loop {St : Type} (n : nat) (i : Z) (cond : Z -> bool)
    (body : Z -> St -> St) (s : St) : St :=
  match n with
  | O => s
  | S n' => if cond i then for_loop n' (i + 1) cond body (body i s) else s
  end.

(** [for (i = lo; i < hi; i++) body(i)]. *)
Definition for_range {St : Type} (lo hi : Z) (body : Z -> St -> St) (s : St) : St :=
  for_loop (Z.to_nat (hi - lo)) lo (fun _ => true) body s.

(** [(unsigned char)c] of a character of a string. *)
Definition char_code (c : ascii) : Z := Z.of_nat (nat_of_ascii c).

(** [(int)strlen(s)]. *)
Definition strlen (s : string) : Z := Z.of_nat (String.length s).

(** Conversion to [unsigned] (32 bits). *)
Definition to_u32 (x : Z) : Z := x mod 2 ^ 32.

(** The range of [int] (32 bits), and what the build leaves in an [int]
    for a result [x] of [int] arithmetic: the value itself within the
    range, wrapped around in two's complement outside of it (ISO C leaves
    a signed overflow undefined). *)
Definition INT_MAX : Z := 2147483647.
Definition INT_MIN : Z := -2147483648.
Definition wrap_int (x : Z) : Z := (x + 2 ^ 31) mod 2 ^ 32 - 2 ^ 31.

(** The one-character string holding a double quote. *)
Definition dquote : string := String (ascii_of_nat 34) EmptyString.

(** [%d] of an [int]. *)
Definition fmt_d (n : Z) : string := NilZero.string_of_int (Z.to_int n).

(** [%-Ns]: the string, then blanks up to width [w]. *)
Definition fmt_s_left (w : nat) (s : string) : string :=
  String.append s (string_of_list_ascii (repeat " "%char (w - String.length s)%nat)).

(** [snprintf(buf, size, ...)]: what ends up in [buf] is the formatted
    text cut to [size - 1] characters. *)
Definition snprintf (size : nat) (formatted : string) : string :=
  String.substring 0 (size - 1) formatted.

(** Size of the line buffers, [char buf[TEXT_COLS + 1]]. *)
Definition LINE_BUF : nat := 77.

(* ================================================================== *)
(** * renderer.c *)

Section Renderer.

(** [font8x8_basic.h] (vendored) and [mascot_data.h] (generated) are not
    part of the sources: the glyph table, the sprite size and the sprite
    pixels are parameters of the renderer. *)
Variable font8x8_basic : Z -> Z -> Z.
Variable MASCOT_W MASCOT_H : Z.
Variable mascot_pixels : Z -> Z.

(** [WIKI_PAGE_COUNT] and [wiki_pages] of the generated [wiki_data.h]. *)
Variable WIKI_PAGE_COUNT : Z.
Variable wiki_pages : list wiki_page_t.

(** [wiki_pages[i]]. *)
Definition wiki_page (i : Z) : wiki_page_t :=
  nth (Z.to_nat i) wiki_pages empty_page.

(** ** Primitives *)

Definition render_glyph (px py ch color : Z) (fb : fbuf) : fbuf :=
  let ch := if 128 <=? ch then char_code "?" else ch in
  for_range 0 8 (fun row fb =>
    let bits := font8x8_basic ch row mod 256 in
    let sy0 := py + row * 2 in
    let sy1 := sy0 + 1 in
    for_range 0 8 (fun col fb =>
      if negb (Z.land bits (Z.shiftl 1 col) =? 0) then
        let sx := px + col in
        if (0 <=? sx) && (sx <? SCREEN_W) then
          let fb :=
            if (0 <=? sy0) && (sy0 <? SCREEN_H)
            then fb_store fb (sy0 * SCREEN_W + sx) color else fb in
          if (0 <=? sy1) && (sy1 <? SCREEN_H)
          then fb_store fb (sy1 * SCREEN_W + sx) color else fb
        else fb
      else fb) fb) fb.

Definition fill_rect (x0 y0 x1 y1 color : Z) (fb : fbuf) : fbuf :=
  let x0 := if x0 <? 0 then 0 else x0 in
  let y0 := if y0 <? 0 then 0 else y0 in
  let x1 := if SCREEN_W <? x1 then SCREEN_W else x1 in
  let y1 := if SCREEN_H <? y1 then SCREEN_H else y1 in
  for_range y0 y1 (fun y fb =>
    for_range x0 x1 (fun x fb => fb_store fb (y * SCREEN_W + x) color) fb) fb.

Definition render_clear (fb : fbuf) : fbuf :=
  let fb := for_range 0 (SCREEN_W * SCREEN_H)
              (fun i fb => fb_store fb i COL_BORDER) fb in
  let x0 := BORDER_COLS * GLYPH_W in
  let y0 := BORDER_ROWS * GLYPH_H in
  let x1 := (TERM_COLS - BORDER_COLS) * GLYPH_W in
  let y1 := (TERM_ROWS - BORDER_ROWS) * GLYPH_H in
  fill_rect x0 y0 x1 y1 COL_BG fb.

(** ** Text drawing *)

(** The glyph loop shared by [render_text] and [render_text_inv]:
    [for (i = 0; str[i] && (col + i) < TEXT_COLS; i++)], entered at
    index [i] with [str] the characters from [i] on. *)
Fixpoint text_loop (i scol py col : Z) (str : string) (color : Z)
    (fb : fbuf) : fbuf :=
  match str with
  | EmptyString => fb
  | String ch rest =>
      if col + i <? TEXT_COLS then
        let px := (scol + i) * GLYPH_W in
        text_loop (i + 1) scol py col rest color
          (render_glyph px py (char_code ch) color fb)
      else fb
  end.

Definition render_text (col row : Z) (str : string) (color : Z)
    (fb : fbuf) : fbuf :=
  let scol := col + BORDER_COLS in
  let srow := row + BORDER_ROWS in
  text_loop 0 scol (srow * GLYPH_H) col str color fb.

Definition render_text_inv (col row : Z) (str : string) (fg bg : Z)
    (fb : fbuf) : fbuf :=
  let scol := col + BORDER_COLS in
  let srow := row + BORDER_ROWS in
  let px0 := scol * GLYPH_W in
  let py0 := srow * GLYPH_H in
  let fb := fill_rect px0 py0 (px0 + TEXT_COLS * GLYPH_W) (py0 + GLYPH_H) bg fb in
  text_loop 0 scol py0 col str fg fb.

Definition render_hline (row : Z) (ch : ascii) (color : Z) (fb : fbuf) : fbuf :=
  let scol := BORDER_COLS in
  let srow := row + BORDER_ROWS in
  let py := srow * GLYPH_H in
  for_range 0 TEXT_COLS (fun i fb =>
    let px := (scol + i) * GLYPH_W in
    render_glyph px py (char_code ch) color fb) fb.

(** ** Boot screen *)

(** Types the first [avail] characters of [str]; returns [strlen(str)]
    next to the framebuffer. *)
Definition type_line (str : string) (col row avail color : Z)
    (fb : fbuf) : Z * fbuf :=
  let len := strlen str in
  let fb :=
    if 0 <? avail then
      let n := if avail <? len then avail else len in
      let buf := String.substring 0 (Z.to_nat n) str in
      render_text col row buf color fb
    else fb in
  (len, fb).

Definition blink_cursor (col row frame : Z) (fb : fbuf) : fbuf :=
  if Z.rem (Z.quot frame 30) 2 =? 0 then
    let scol := col + BORDER_COLS in
    let srow := row + BORDER_ROWS in
    let px := scol * GLYPH_W in
    let py := srow * GLYPH_H in
    fill_rect px py (px + GLYPH_W) (py + GLYPH_H) COL_FG fb
  else fb.

Definition render_mascot (cx cy alpha : Z) (fb : fbuf) : fbuf :=
  let x0 := cx - Z.quot MASCOT_W 2 in
  let y0 := cy - Z.quot MASCOT_H 2 in
  for_range 0 MASCOT_H (fun y fb =>
    let sy := y0 + y in
    if (sy <? 0) || (SCREEN_H <=? sy) then fb else
    for_range 0 MASCOT_W (fun x fb =>
      let sx := x0 + x in
      if (sx <? 0) || (SCREEN_W <=? sx) then fb else
      let px := mascot_pixels (y * MASCOT_W + x) in
      if Z.shiftr px 24 =? 0 then fb else
      if 255 <=? alpha then
        fb_store fb (sy * SCREEN_W + sx) (Z.lor px 0xFF000000)
      else
        let sr := Z.land (Z.shiftr px 16) 0xFF in
        let sg := Z.land (Z.shiftr px 8) 0xFF in
        let sb := Z.land px 0xFF in
        let br := Z.land (Z.shiftr COL_BG 16) 0xFF in
        let bgc := Z.land (Z.shiftr COL_BG 8) 0xFF in
        let bb := Z.land COL_BG 0xFF in
        let r := br + Z.quot ((sr - br) * alpha) 255 in
        let g := bgc + Z.quot ((sg - bgc) * alpha) 255 in
        let b := bb + Z.quot ((sb - bb) * alpha) 255 in
        fb_store fb (sy * SCREEN_W + sx)
          (Z.lor (Z.lor (Z.lor 0xFF000000
             (to_u32 (Z.shiftl (to_u32 r) 16)))
             (to_u32 (Z.shiftl (to_u32 g) 8)))
             (to_u32 b))) fb) fb.

Definition render_loading_bar (cy progress : Z) (fb : fbuf) : fbuf :=
  let bar_w := 320 in
  let bar_h := 12 in
  let x0 := Z.quot (SCREEN_W - bar_w) 2 in
  let y0 := cy - Z.quot bar_h 2 in
  let fb := fill_rect (x0 - 2) (y0 - 2) (x0 + bar_w + 2) (y0 + bar_h + 2) COL_DIM fb in
  let fb := fill_rect x0 y0 (x0 + bar_w) (y0 + bar_h) COL_BG fb in
  let filled := Z.quot (bar_w * progress) 256 in
  let seg_w := Z.quot bar_w 20 in
  for_loop 20 0 (fun i => i * seg_w <? filled) (fun i fb =>
    let sx := x0 + i * seg_w in
    let sw := seg_w - 1 in
    let sw := if x0 + filled <? sx + sw then x0 + filled - sx else sw in
    if 0 <? sw
    then fill_rect sx (y0 + 1) (sx + sw) (y0 + bar_h - 1) BAR_COLOR fb
    else fb) fb.

Definition render_boot (frame : Z) (fb : fbuf) : fbuf :=
  let fb := render_clear fb in
  if frame <? 360 then
    (* Phase 1: C64 BASIC prompt *)
    let banner := "**** COMMODORE 64 BASIC V2 ****"%string in
    let ram := "64K RAM SYSTEM  38911 BASIC BYTES FREE"%string in
    let load_cmd :=
      String.append "LOAD "
        (String.append dquote
           (String.append "EMUVR" (String.append dquote ",8,1"))) in
    let load_len := strlen load_cmd in
    let fb :=
      if 0 <=? frame then
        let ctr := Z.quot (TEXT_COLS - strlen banner) 2 in
        render_text ctr 1 banner COL_TITLE fb
      else fb in
    let fb :=
      if 2 <=? frame then
        let ctr2 := Z.quot (TEXT_COLS - strlen ram) 2 in
        render_text ctr2 3 ram COL_FG fb
      else fb in
    let fb := if 10 <=? frame then render_text 0 5 "READY." COL_FG fb else fb in
    let fb :=
      if 20 <=? frame then
        let chars := Z.quot (frame - 20) 4 in
        let chars := if load_len <? chars then load_len else chars in
        let fb := snd (type_line load_cmd 0 6 chars COL_FG fb) in
        if chars <? load_len then blink_cursor chars 6 frame fb
        else if frame <? 100 then blink_cursor load_len 6 frame fb
        else fb
      else fb in
    let fb :=
      if 110 <=? frame then render_text 0 8 "SEARCHING FOR EMUVR" COL_FG fb else fb in
    let fb := if 230 <=? frame then render_text 0 9 "LOADING" COL_FG fb else fb in
    let fb := if 340 <=? frame then render_text 0 11 "READY." COL_FG fb else fb in
    if 345 <=? frame then
      let run := "RUN"%string in
      let run_len := 3 in
      let chars := Z.quot (frame - 345) 4 in
      let chars := if run_len <? chars then run_len else chars in
      let fb := snd (type_line run 0 12 chars COL_FG fb) in
      blink_cursor (if chars <? run_len then chars else run_len) 12 frame fb
    else fb
  else if frame <? 560 then
    (* Phase 2: mascot and loading bar *)
    let pf := frame - 360 in
    let fade := Z.quot (pf * 255) 60 in
    let fade := if 255 <? fade then 255 else fade in
    let mascot_cy := Z.quot SCREEN_H 2 - 40 in
    let fb := render_mascot (Z.quot SCREEN_W 2) mascot_cy fade fb in
    let bar_cy := mascot_cy + Z.quot MASCOT_H 2 + 55 in
    let progress := Z.quot ((pf - 30) * 256) 150 in
    let progress := if progress <? 0 then 0 else progress in
    let progress := if 256 <? progress then 256 else progress in
    let fb := render_loading_bar bar_cy progress fb in
    if 20 <? pf then
      let msg := "LOADING EMUVR WIKI..."%string in
      let mx := Z.quot (TEXT_COLS - strlen msg) 2 in
      let msg_row := Z.quot (bar_cy - 20) GLYPH_H - BORDER_ROWS in
      if (0 <=? msg_row) && (msg_row <? TEXT_ROWS)
      then render_text mx msg_row msg COL_DIM fb
      else fb
    else fb
  else
    (* Phase 3: hold complete *)
    let mascot_cy := Z.quot SCREEN_H 2 - 40 in
    let fb := render_mascot (Z.quot SCREEN_W 2) mascot_cy 255 fb in
    let bar_cy := mascot_cy + Z.quot MASCOT_H 2 + 55 in
    let fb := render_loading_bar bar_cy 256 fb in
    let msg := "LOADING EMUVR WIKI..."%string in
    let mx := Z.quot (TEXT_COLS - strlen msg) 2 in
    let msg_row := Z.quot (bar_cy - 20) GLYPH_H - BORDER_ROWS in
    if (0 <=? msg_row) && (msg_row <? TEXT_ROWS)
    then render_text mx msg_row msg COL_DIM fb
    else fb.

(** ** Table of contents *)

Definition render_toc (cursor scroll : Z) (fb : fbuf) : fbuf :=
  let fb := render_clear fb in
  let title_s := "**** THE EMU PAGES ****"%string in
  let cx := Z.quot (TEXT_COLS - strlen title_s) 2 in
  let fb := render_text cx 0 title_s COL_TITLE fb in
  let info :=
    snprintf LINE_BUF
      (String.append (fmt_d WIKI_PAGE_COUNT) " WIKI PAGES LOADED. READY.") in
  let fb := render_text 1 2 info COL_FG fb in
  let fb := render_hline 3 "-" COL_DIM fb in
  let list_rows := CONTENT_ROWS - 3 in
  let fb :=
    for_loop (Z.to_nat list_rows) 0 (fun i => scroll + i <? WIKI_PAGE_COUNT)
      (fun i fb =>
         let page_idx := scroll + i in
         let row := 4 + i in
         let selected := page_idx =? cursor in
         if selected then
           let line :=
             snprintf LINE_BUF
               (String.append " > " (fmt_s_left 73 (title (wiki_page page_idx)))) in
           render_text_inv 0 row line COL_CURSOR_FG COL_HIGHLIGHT fb
         else
           let line :=
             snprintf LINE_BUF
               (String.append "   " (title (wiki_page page_idx))) in
           render_text 0 row line COL_FG fb) fb in
  let fb := if 0 <? scroll then render_text (TEXT_COLS - 3) 3 "[^]" COL_DIM fb else fb in
  let fb :=
    if scroll + list_rows <? WIKI_PAGE_COUNT
    then render_text (TEXT_COLS - 3) (FOOTER_ROW - 1) "[v]" COL_DIM fb
    else fb in
  let fb := render_hline (FOOTER_ROW - 1) "-" COL_DIM fb in
  render_text 1 FOOTER_ROW
    "[UP/DN] SELECT  [A] OPEN  [LEFT/RIGHT] PREV/NEXT" COL_DIM fb.

(** ** Page viewer *)

Definition render_page (page_idx scroll : Z) (fb : fbuf) : fbuf :=
  let fb := render_clear fb in
  let page := wiki_page page_idx in
  let header :=
    snprintf LINE_BUF
      (String.append "<< "
         (String.append (fmt_s_left 60 (title page))
            (String.append " ["
               (String.append (fmt_d (page_idx + 1))
                  (String.append "/"
                     (String.append (fmt_d WIKI_PAGE_COUNT) "]")))))) in
  let fb := render_text 0 HEADER_ROW header COL_TITLE fb in
  let fb := render_hline 1 "=" COL_DIM fb in
  let max_scroll := line_count page - CONTENT_ROWS in
  let max_scroll := if max_scroll <? 0 then 0 else max_scroll in
  let fb :=
    for_loop (Z.to_nat CONTENT_ROWS) 0
      (fun i => negb (line_count page <=? scroll + i))
      (fun i fb =>
         let line_idx := scroll + i in
         let line := nth (Z.to_nat line_idx) (lines page) empty_line in
         let color :=
           match type line with
           | LINE_H2 => COL_H2
           | LINE_H3 => COL_H3
           | _ => COL_FG
           end in
         match type line with
         | LINE_H2 =>
             let buf :=
               snprintf LINE_BUF
                 (String.append "== " (String.append (text line) " ==")) in
             render_text 0 (CONTENT_START + i) buf color fb
         | LINE_H3 =>
             let buf :=
               snprintf LINE_BUF
                 (String.append "--- " (String.append (text line) " ---")) in
             render_text 0 (CONTENT_START + i) buf color fb
         | _ => render_text 1 (CONTENT_START + i) (text line) color fb
         end) fb in
  let fb := if 0 <? scroll then render_text (TEXT_COLS - 3) 1 "[^]" COL_DIM fb else fb in
  let fb :=
    if scroll <? max_scroll
    then render_text (TEXT_COLS - 3) (FOOTER_ROW - 1) "[v]" COL_DIM fb
    else fb in
  let fb := render_hline (FOOTER_ROW - 1) "-" COL_DIM fb in
  render_text 1 FOOTER_ROW
    "[UP/DN] SCROLL  [B] BACK  [L/R] PG UP/DN  [<//>] PREV/NEXT" COL_DIM fb.

End Renderer.

(* ================================================================== *)
(** * emu_pages.c: state *)

Inductive core_state_t : Type := STATE_BOOT | STATE_TOC | STATE_PAGE.

Definition BOOT_FRAMES : Z := 600.
Definition AUDIO_RATE : Z := 44100.
Definition AUDIO_FRAMES : Z := 735.
Definition REPEAT_DELAY : Z := 24.
Definition REPEAT_RATE : Z := 4.
Definition BTN_COUNT : Z := 16.

(** The joypad button ids of [libretro.h] (RetroArch v1.7.5), which the
    build fetches. *)
Definition RETRO_DEVICE_ID_JOYPAD_B : Z := 0.
Definition RETRO_DEVICE_ID_JOYPAD_Y : Z := 1.
Definition RETRO_DEVICE_ID_JOYPAD_SELECT : Z := 2.
Definition RETRO_DEVICE_ID_JOYPAD_START : Z := 3.
Definition RETRO_DEVICE_ID_JOYPAD_UP : Z := 4.
Definition RETRO_DEVICE_ID_JOYPAD_DOWN : Z := 5.
Definition RETRO_DEVICE_ID_JOYPAD_LEFT : Z := 6.
Definition RETRO_DEVICE_ID_JOYPAD_RIGHT : Z := 7.
Definition RETRO_DEVICE_ID_JOYPAD_A : Z := 8.
Definition RETRO_DEVICE_ID_JOYPAD_X : Z := 9.
Definition RETRO_DEVICE_ID_JOYPAD_L : Z := 10.
Definition RETRO_DEVICE_ID_JOYPAD_R : Z := 11.

(** The file-scope variables of [emu_pages.c].  [held_frames] is the array
    [int held_frames[BTN_COUNT]]; the silent audio block is written once by
    [retro_init] and only read afterwards, so it is not a field. *)
Record core : Type := Core {
  framebuffer : fbuf;
  state : core_state_t;
  game_loaded : bool;
  boot_timer : Z;
  toc_cursor : Z;
  toc_scroll : Z;
  current_page : Z;
  page_scroll : Z;
  held_frames : list Z
}.

Definition set_framebuffer (v : fbuf) (s : core) : core :=
  Core v (state s) (game_loaded s) (boot_timer s) (toc_cursor s)
    (toc_scroll s) (current_page s) (page_scroll s) (held_frames s).
Definition set_state (v : core_state_t) (s : core) : core :=
  Core (framebuffer s) v (game_loaded s) (boot_timer s) (toc_cursor s)
    (toc_scroll s) (current_page s) (page_scroll s) (held_frames s).
Definition set_game_loaded (v : bool) (s : core) : core :=
  Core (framebuffer s) (state s) v (boot_timer s) (toc_cursor s)
    (toc_scroll s) (current_page s) (page_scroll s) (held_frames s).
Definition set_boot_timer (v : Z) (s : core) : core :=
  Core (framebuffer s) (state s) (game_loaded s) v (toc_cursor s)
    (toc_scroll s) (current_page s) (page_scroll s) (held_frames s).
Definition set_toc_cursor (v : Z) (s : core) : core :=
  Core (framebuffer s) (state s) (game_loaded s) (boot_timer s) v
    (toc_scroll s) (current_page s) (page_scroll s) (held_frames s).
Definition set_toc_scroll (v : Z) (s : core) : core :=
  Core (framebuffer s) (state s) (game_loaded s) (boot_timer s) (toc_cursor s)
    v (current_page s) (page_scroll s) (held_frames s).
Definition set_current_page (v : Z) (s : core) : core :=
  Core (framebuffer s) (state s) (game_loaded s) (boot_timer s) (toc_cursor s)
    (toc_scroll s) v (page_scroll s) (held_frames s).
Definition set_page_scroll (v : Z) (s : core) : core :=
  Core (framebuffer s) (state s) (game_loaded s) (boot_timer s) (toc_cursor s)
    (toc_scroll s) (current_page s) v (held_frames s).
Definition set_held_frames (v : list Z) (s : core) : core :=
  Core (framebuffer s) (state s) (game_loaded s) (boot_timer s) (toc_cursor s)
    (toc_scroll s) (current_page s) (page_scroll s) v.

(** [held_frames[btn]] and [held_frames[btn] = v]. *)
Definition held (s : core) (btn : Z) : Z := held_frames s !!! Z.to_nat btn.
Definition set_held (btn v : Z) (s : core) : core :=
  set_held_frames (<[Z.to_nat btn := v]> (held_frames s)) s.

(** [memset(held_frames, 0, sizeof(held_frames))]. *)
Definition clear_held_frames (s : core) : core :=
  set_held_frames (replicate (Z.to_nat BTN_COUNT) 0) s.

(** ** The host *)

(** What [input_state_cb(0, RETRO_DEVICE_JOYPAD, 0, id)] answers during one
    frame, per button id (an [int16_t]). *)
Definition joypad : Type := Z -> Z.

(** The calls a frame makes to the host, in order. *)
Inductive host_call : Type :=
| InputPoll
| VideoRefresh (data : fbuf) (width height pitch : Z)
| AudioSampleBatch (frames : Z).

(** ** State monad over the globals *)

Definition M (A : Type) : Type := core -> A * core.

Definition ret {A : Type} (a : A) : M A := fun s => (a, s).

Definition bind {A B : Type} (m : M A) (k : A -> M B) : M B :=
  fun s => let (a, s') := m s in k a s'.

Definition modify (f : core -> core) : M unit := fun s => (tt, f s).

(** [if (c) { m }]. *)
Definition when (c : bool) (m : M unit) : M unit := if c then m else ret tt.

(** [a || b] on calls with effects: [b] runs only when [a] answers false. *)
Definition orelse (a b : M bool) : M bool :=
  bind a (fun x => if x then ret true else b).

Declare Scope core_scope.
Delimit Scope core_scope with core.
Notation "'do' x <- m 'in' k" := (bind m (fun x => k))
  (at level 10, x name, m at level 100, k at level 200) : core_scope.
Notation "m >> k" := (bind m (fun _ => k))
  (at level 90, right associativity) : core_scope.

Local Open Scope core_scope.

(* ================================================================== *)
(** * emu_pages.c: input and the three screens *)

(** ** Input handling with auto-repeat *)

(** [held_frames[btn]++] counts in an [int]: one frame after [INT_MAX]
    the counter is [INT_MIN]. *)
Definition btn_pressed (pad : joypad) (btn : Z) : M bool :=
  fun s =>
    let sv := pad btn in
    if negb (sv =? 0) then
      let s := set_held btn (wrap_int (held s btn + 1)) s in
      if held s btn =? 1 then (true, s)
      else if (REPEAT_DELAY <=? held s btn)
              && (Z.rem (held s btn - REPEAT_DELAY) REPEAT_RATE =? 0)
      then (true, s)
      else (false, s)
    else (false, set_held btn 0 s).

Fixpoint any_btn_from (n : nat) (i : Z) (pad : joypad) : bool :=
  match n with
  | O => false
  | S n' => if negb (pad i =? 0) then true else any_btn_from n' (i + 1) pad
  end.

(** [for (i = 0; i < BTN_COUNT; i++) if (input_state_cb(.., i)) return true;
    return false;] *)
Definition any_btn_pressed (pad : joypad) : bool :=
  any_btn_from (Z.to_nat BTN_COUNT) 0 pad.

Section Core.

Variable font8x8_basic : Z -> Z -> Z.
Variable MASCOT_W MASCOT_H : Z.
Variable mascot_pixels : Z -> Z.
Variable WIKI_PAGE_COUNT : Z.
Variable wiki_pages : list wiki_page_t.

(** ** Table of contents: the bodies of the six [if]s *)

(** Up: single step back, scroll follows. *)
Definition toc_step_up (s : core) : core :=
  let s := if 0 <? toc_cursor s then set_toc_cursor (toc_cursor s - 1) s else s in
  if toc_cursor s <? toc_scroll s then set_toc_scroll (toc_cursor s) s else s.

(** Down: single step forward, scroll follows. *)
Definition toc_step_down (list_rows : Z) (s : core) : core :=
  let s :=
    if toc_cursor s <? WIKI_PAGE_COUNT - 1
    then set_toc_cursor (toc_cursor s + 1) s else s in
  if toc_scroll s + list_rows <=? toc_cursor s
  then set_toc_scroll (toc_cursor s - list_rows + 1) s else s.

(** L shoulder: page up. *)
Definition toc_page_up (list_rows : Z) (s : core) : core :=
  let s := set_toc_cursor (toc_cursor s - list_rows) s in
  let s := if toc_cursor s <? 0 then set_toc_cursor 0 s else s in
  set_toc_scroll (toc_cursor s) s.

(** R shoulder: page down. *)
Definition toc_page_down (list_rows : Z) (s : core) : core :=
  let s := set_toc_cursor (toc_cursor s + list_rows) s in
  let s :=
    if WIKI_PAGE_COUNT <=? toc_cursor s
    then set_toc_cursor (WIKI_PAGE_COUNT - 1) s else s in
  if toc_scroll s + list_rows <=? toc_cursor s
  then set_toc_scroll (toc_cursor s - list_rows + 1) s else s.

(** A or Right: open the page under the cursor. *)
Definition toc_open (s : core) : core :=
  let s := set_current_page (toc_cursor s) s in
  let s := set_page_scroll 0 s in
  set_state STATE_PAGE s.

(** Left: step back, then open. *)
Definition toc_left_open (s : core) : core :=
  let s := if 0 <? toc_cursor s then set_toc_cursor (toc_cursor s - 1) s else s in
  let s := if toc_cursor s <? toc_scroll s then set_toc_scroll (toc_cursor s) s else s in
  let s := set_current_page (toc_cursor s) s in
  let s := set_page_scroll 0 s in
  set_state STATE_PAGE s.

Definition handle_toc_input (pad : joypad) : M unit :=
  let list_rows := CONTENT_ROWS - 3 in
  do up <- btn_pressed pad RETRO_DEVICE_ID_JOYPAD_UP in
  when up (modify toc_step_up) >>
  do down <- btn_pressed pad RETRO_DEVICE_ID_JOYPAD_DOWN in
  when down (modify (toc_step_down list_rows)) >>
  do l <- btn_pressed pad RETRO_DEVICE_ID_JOYPAD_L in
  when l (modify (toc_page_up list_rows)) >>
  do r <- btn_pressed pad RETRO_DEVICE_ID_JOYPAD_R in
  when r (modify (toc_page_down list_rows)) >>
  do a <- orelse (btn_pressed pad RETRO_DEVICE_ID_JOYPAD_A)
                 (btn_pressed pad RETRO_DEVICE_ID_JOYPAD_RIGHT) in
  when a (modify toc_open) >>
  do left <- btn_pressed pad RETRO_DEVICE_ID_JOYPAD_LEFT in
  when left (modify toc_left_open).

(** ** Page viewer: the bodies of the seven [if]s *)

Definition page_line_up (s : core) : core :=
  if 0 <? page_scroll s then set_page_scroll (page_scroll s - 1) s else s.

Definition page_line_down (max_scroll : Z) (s : core) : core :=
  if page_scroll s <? max_scroll then set_page_scroll (page_scroll s + 1) s else s.

Definition page_page_up (s : core) : core :=
  let s := set_page_scroll (page_scroll s - CONTENT_ROWS) s in
  if page_scroll s <? 0 then set_page_scroll 0 s else s.

Definition page_page_down (max_scroll : Z) (s : core) : core :=
  let s := set_page_scroll (page_scroll s + CONTENT_ROWS) s in
  if max_scroll <? page_scroll s then set_page_scroll max_scroll s else s.

Definition page_prev (s : core) : core :=
  let s := set_current_page (current_page s - 1) s in
  let s :=
    if current_page s <? 0
    then set_current_page (WIKI_PAGE_COUNT - 1) s else s in
  set_page_scroll 0 s.

Definition page_next (s : core) : core :=
  let s := set_current_page (current_page s + 1) s in
  let s :=
    if WIKI_PAGE_COUNT <=? current_page s
    then set_current_page 0 s else s in
  set_page_scroll 0 s.

(** B or Start: back to the table of contents. *)
Definition page_back (s : core) : core :=
  let s := set_toc_cursor (current_page s) s in
  let s := set_state STATE_TOC s in
  let list_rows := CONTENT_ROWS - 3 in
  let s := if toc_cursor s <? toc_scroll s then set_toc_scroll (toc_cursor s) s else s in
  if toc_scroll s + list_rows <=? toc_cursor s
  then set_toc_scroll (toc_cursor s - list_rows + 1) s else s.

(** [max_scroll] as [handle_page_input] computes it on entry. *)
Definition page_max_scroll (s : core) : Z :=
  let max_scroll := line_count (wiki_page wiki_pages (current_page s)) - CONTENT_ROWS in
  if max_scroll <? 0 then 0 else max_scroll.

Definition handle_page_input (pad : joypad) : M unit :=
  fun s0 =>
  let max_scroll := page_max_scroll s0 in
  (do up <- btn_pressed pad RETRO_DEVICE_ID_JOYPAD_UP in
   when up (modify page_line_up) >>
   do down <- btn_pressed pad RETRO_DEVICE_ID_JOYPAD_DOWN in
   when down (modify (page_line_down max_scroll)) >>
   do l <- btn_pressed pad RETRO_DEVICE_ID_JOYPAD_L in
   when l (modify page_page_up) >>
   do r <- btn_pressed pad RETRO_DEVICE_ID_JOYPAD_R in
   when r (modify (page_page_down max_scroll)) >>
   do left <- btn_pressed pad RETRO_DEVICE_ID_JOYPAD_LEFT in
   when left (modify page_prev) >>
   do right <- btn_pressed pad RETRO_DEVICE_ID_JOYPAD_RIGHT in
   when right (modify page_next) >>
   do b <- orelse (btn_pressed pad RETRO_DEVICE_ID_JOYPAD_B)
                  (btn_pressed pad RETRO_DEVICE_ID_JOYPAD_START) in
   when b (modify page_back)) s0.

(** ** Libretro API *)

(** [retro_init]: the three [memset]s (the audio block is not a field). *)
Definition retro_init (s : core) : core :=
  let s :=
    set_framebuffer
      (fun i => if (0 <=? i) && (i <? SCREEN_W * SCREEN_H) then 0
                else framebuffer s i) s in
  clear_held_frames s.

(** [retro_load_game]: [info_ok] says that [info] and [info->path] are
    non-null, [fmt_ok] is the host's answer to
    [RETRO_ENVIRONMENT_SET_PIXEL_FORMAT]; the log calls are left out.
    [render_init] points the renderer at [framebuffer], which is the
    field the render calls of [retro_run] work on. *)
Definition retro_load_game (info_ok fmt_ok : bool) (s : core) : bool * core :=
  if negb info_ok then (false, s)
  else if negb fmt_ok then (false, s)
  else
    let s := set_state STATE_BOOT s in
    let s := set_boot_timer 0 s in
    let s := set_toc_cursor 0 s in
    let s := set_toc_scroll 0 s in
    let s := set_current_page 0 s in
    let s := set_page_scroll 0 s in
    let s := clear_held_frames s in
    let s := set_game_loaded true s in
    (true, s).

Definition retro_unload_game (s : core) : core := set_game_loaded false s.

Definition retro_reset (s : core) : core :=
  let s := set_state STATE_BOOT s in
  let s := set_boot_timer 0 s in
  let s := set_toc_cursor 0 s in
  let s := set_toc_scroll 0 s in
  let s := set_current_page 0 s in
  set_page_scroll 0 s.

(** The [STATE_BOOT] case of [retro_run]. *)
Definition run_boot (pad : joypad) (s : core) : core :=
  let s := set_boot_timer (boot_timer s + 1) s in
  let s :=
    if (BOOT_FRAMES <=? boot_timer s) || any_btn_pressed pad
    then clear_held_frames (set_state STATE_TOC s)
    else s in
  set_framebuffer
    (render_boot font8x8_basic MASCOT_W MASCOT_H mascot_pixels
       (boot_timer s) (framebuffer s)) s.

(** The [STATE_TOC] case of [retro_run]. *)
Definition run_toc (pad : joypad) (s : core) : core :=
  let s := snd (handle_toc_input pad s) in
  set_framebuffer
    (render_toc font8x8_basic WIKI_PAGE_COUNT wiki_pages
       (toc_cursor s) (toc_scroll s) (framebuffer s)) s.

(** The [STATE_PAGE] case of [retro_run]. *)
Definition run_page (pad : joypad) (s : core) : core :=
  let s := snd (handle_page_input pad s) in
  set_framebuffer
    (render_page font8x8_basic WIKI_PAGE_COUNT wiki_pages
       (current_page s) (page_scroll s) (framebuffer s)) s.

(** [retro_run]: the new globals and the host calls of the frame, in
    order; [pad] is what the host answers to [input_state_cb] after the
    frame's [input_poll_cb]. *)
Definition retro_run (pad : joypad) (s : core) : core * list host_call :=
  if negb (game_loaded s) then (s, [])
  else
    let s :=
      match state s with
      | STATE_BOOT => run_boot pad s
      | STATE_TOC => run_toc pad s
      | STATE_PAGE => run_page pad s
      end in
    (s, [InputPoll;
         VideoRefresh (framebuffer s) SCREEN_W SCREEN_H (SCREEN_W * 4);
         AudioSampleBatch AUDIO_FRAMES]).

(** The globals after a run of frames, one joypad reading per frame. *)
Definition run_frames (pads : list joypad) (s : core) : core :=
  fold_left (fun s pad => fst (retro_run pad s)) pads s.

End Core.

(** The globals as the C initialisers leave them when the core is loaded. *)
Definition core_initial : core :=
  Core (fun _ => 0) STATE_BOOT false 0 0 0 0 0 (replicate (Z.to_nat BTN_COUNT) 0).

(* ================================================================== *)
(** * Vocabulary of the properties *)

(** Whether [btn_pressed(btn)] answers true when called in state [s] under
    the reading [pad], and the globals it leaves. *)
Definition fires (pad : joypad) (btn : Z) (s : core) : bool :=
  fst (btn_pressed pad btn s).

Definition sampled (pad : joypad) (btn : Z) (s : core) : core :=
  snd (btn_pressed pad btn s).

(** The press rule in the words of the specification, on the value of the
    held-frame counter: [counter == 1 || (counter >= 24 && (counter - 24) % 4 == 0)]. *)
Definition press_rule (counter : Z) : bool :=
  (counter =? 1) || ((24 <=? counter) && ((counter - 24) mod 4 =? 0)).

(** Number of frames among those of [pads] in which [btn_pressed(btn)],
    called once per frame, answers true. *)
Fixpoint press_events (btn : Z) (pads : list joypad) (s : core) : nat :=
  match pads with
  | [] => O
  | pad :: rest =>
      let (p, s') := btn_pressed pad btn s in
      ((if p then 1 else 0) + press_events btn rest s')%nat
  end.

(** How many of the counter values [c + 1 .. c + n] satisfy the press rule. *)
Fixpoint rule_count (c : Z) (n : nat) : nat :=
  match n with
  | O => O
  | S n' => ((if press_rule (c + 1) then 1 else 0) + rule_count (c + 1) n')%nat
  end.

(** The navigation moves of the two screens, one per [if] of the handlers. *)
Inductive nav_op : Type :=
| TocUp | TocDown | TocPageUp | TocPageDown | TocOpen | TocLeftOpen
| PageLineUp | PageLineDown | PagePageUp | PagePageDown
| PagePrev | PageNext | PageBack.

Section Properties.

Variable WIKI_PAGE_COUNT : Z.
Variable wiki_pages : list wiki_page_t.

(** The move as the handlers run it: [list_rows] is [CONTENT_ROWS - 3]
    and [max_scroll] is the one of the document being viewed. *)
Definition apply_op (op : nav_op) (s : core) : core :=
  match op with
  | TocUp => toc_step_up s
  | TocDown => toc_step_down WIKI_PAGE_COUNT (CONTENT_ROWS - 3) s
  | TocPageUp => toc_page_up (CONTENT_ROWS - 3) s
  | TocPageDown => toc_page_down WIKI_PAGE_COUNT (CONTENT_ROWS - 3) s
  | TocOpen => toc_open s
  | TocLeftOpen => toc_left_open s
  | PageLineUp => page_line_up s
  | PageLineDown => page_line_down (page_max_scroll wiki_pages s) s
  | PagePageUp => page_page_up s
  | PagePageDown => page_page_down (page_max_scroll wiki_pages s) s
  | PagePrev => page_prev WIKI_PAGE_COUNT s
  | PageNext => page_next WIKI_PAGE_COUNT s
  | PageBack => page_back s
  end.

(** The bounds on the four navigation fields. *)
Definition nav_inv (s : core) : Prop :=
  0 <= toc_cursor s <= WIKI_PAGE_COUNT - 1 /\
  0 <= toc_scroll s <= Z.max 0 (WIKI_PAGE_COUNT - (CONTENT_ROWS - 3)) /\
  0 <= page_scroll s <=
    Z.max 0 (line_count (wiki_page wiki_pages (current_page s)) - CONTENT_ROWS) /\
  0 <= current_page s <= WIKI_PAGE_COUNT - 1.

(** The table-of-contents frame on the navigation fields: the moves whose
    button fires, in the order of [handle_toc_input]. *)
Definition toc_moves (pad : joypad) (s : core) : core :=
  let list_rows := CONTENT_ROWS - 3 in
  let s1 := if fires pad RETRO_DEVICE_ID_JOYPAD_UP s then toc_step_up s else s in
  let s2 :=
    if fires pad RETRO_DEVICE_ID_JOYPAD_DOWN s
    then toc_step_down WIKI_PAGE_COUNT list_rows s1 else s1 in
  let s3 :=
    if fires pad RETRO_DEVICE_ID_JOYPAD_L s then toc_page_up list_rows s2 else s2 in
  if fires pad RETRO_DEVICE_ID_JOYPAD_R s
  then toc_page_down WIKI_PAGE_COUNT list_rows s3 else s3.

Definition toc_frame (pad : joypad) (s : core) : core :=
  let s4 := toc_moves pad s in
  let s5 :=
    if fires pad RETRO_DEVICE_ID_JOYPAD_A s
       || fires pad RETRO_DEVICE_ID_JOYPAD_RIGHT s
    then toc_open s4 else s4 in
  if fires pad RETRO_DEVICE_ID_JOYPAD_LEFT s then toc_left_open s5 else s5.

(** The viewer frame on the navigation fields, in the order of
    [handle_page_input]. *)
Definition page_scrolls (pad : joypad) (s : core) : core :=
  let max_scroll := page_max_scroll wiki_pages s in
  let s1 := if fires pad RETRO_DEVICE_ID_JOYPAD_UP s then page_line_up s else s in
  let s2 :=
    if fires pad RETRO_DEVICE_ID_JOYPAD_DOWN s
    then page_line_down max_scroll s1 else s1 in
  let s3 := if fires pad RETRO_DEVICE_ID_JOYPAD_L s then page_page_up s2 else s2 in
  if fires pad RETRO_DEVICE_ID_JOYPAD_R s
  then page_page_down max_scroll s3 else s3.

Definition page_switches (pad : joypad) (s : core) : core :=
  let s4 := page_scrolls pad s in
  let s5 :=
    if fires pad RETRO_DEVICE_ID_JOYPAD_LEFT s
    then page_prev WIKI_PAGE_COUNT s4 else s4 in
  if fires pad RETRO_DEVICE_ID_JOYPAD_RIGHT s
  then page_next WIKI_PAGE_COUNT s5 else s5.

Definition page_frame (pad : joypad) (s : core) : core :=
  let s6 := page_switches pad s in
  if fires pad RETRO_DEVICE_ID_JOYPAD_B s
     || fires pad RETRO_DEVICE_ID_JOYPAD_START s
  then page_back s6 else s6.

End Properties.

Section Sessions.

Variable font8x8_basic : Z -> Z -> Z.
Variable MASCOT_W MASCOT_H : Z.
Variable mascot_pixels : Z -> Z.
Variable WIKI_PAGE_COUNT : Z.
Variable wiki_pages : list wiki_page_t.

(** The globals a host can bring about once a game has been loaded:
    frames, resets and unloads after a successful [retro_load_game]. *)
Inductive reachable : core -> Prop :=
| reach_load s s' :
    retro_load_game true true s = (true, s') -> reachable s'
| reach_run pad s :
    reachable s ->
    reachable (fst (retro_run font8x8_basic MASCOT_W MASCOT_H mascot_pixels
                      WIKI_PAGE_COUNT wiki_pages pad s))
| reach_reset s : reachable s -> reachable (retro_reset s)
| reach_unload s : reachable s -> reachable (retro_unload_game s).

End Sessions.

(** ** Frames of the handlers *)

(** A move that reads and writes navigation fields only: it commutes with
    any rewrite of the counter array. *)
Definition nav_only (f : core -> core) : Prop :=
  forall h s, f (set_held_frames h s) = set_held_frames h (f s).

(** [s'] is [t] up to the counters of the buttons [bs]. *)
Definition touched (bs : list Z) (t s' : core) : Prop :=
  (exists h, s' = set_held_frames h t) /\
  length (held_frames s') = length (held_frames t) /\
  forall b, ~ In (Z.to_nat b) (map Z.to_nat bs) -> held s' b = held t b.

(** The globals after one [if (btn_pressed(btn)) { f }] of a handler. *)
Definition after_block (pad : joypad) (btn : Z) (f : core -> core) (s : core) : core :=
  if fires pad btn s then f (sampled pad btn s) else sampled pad btn s.

(** The globals after one [if (btn_pressed(a) || btn_pressed(b)) { f }]. *)
Definition after_either (pad : joypad) (a b : Z) (f : core -> core) (s : core) : core :=
  if fires pad a s then f (sampled pad a s)
  else if fires pad b (sampled pad a s)
       then f (sampled pad b (sampled pad a s))
       else sampled pad b (sampled pad a s).

(** The buttons [handle_toc_input] and [handle_page_input] sample. *)
Definition toc_buttons : list Z :=
  [RETRO_DEVICE_ID_JOYPAD_LEFT; RETRO_DEVICE_ID_JOYPAD_RIGHT;
   RETRO_DEVICE_ID_JOYPAD_A; RETRO_DEVICE_ID_JOYPAD_R;
   RETRO_DEVICE_ID_JOYPAD_L; RETRO_DEVICE_ID_JOYPAD_DOWN;
   RETRO_DEVICE_ID_JOYPAD_UP].

Definition page_buttons : list Z :=
  [RETRO_DEVICE_ID_JOYPAD_START; RETRO_DEVICE_ID_JOYPAD_B;
   RETRO_DEVICE_ID_JOYPAD_RIGHT; RETRO_DEVICE_ID_JOYPAD_LEFT;
   RETRO_DEVICE_ID_JOYPAD_R; RETRO_DEVICE_ID_JOYPAD_L;
   RETRO_DEVICE_ID_JOYPAD_DOWN; RETRO_DEVICE_ID_JOYPAD_UP].

(** Two framebuffers with the same pixels over the array's extent. *)
Definition same_pixels (fb1 fb2 : fbuf) : Prop :=
  forall i, 0 <= i < SCREEN_W * SCREEN_H -> fb1 i = fb2 i.

(** ** Sample data *)

(** A reading with every button up, and one with a single button down. *)
Definition pad_none : joypad := fun _ => 0.
Definition pad_only (btn : Z) : joypad := fun i => if i =? btn then 1 else 0.

Definition sample_page (name : string) (n : nat) : wiki_page_t :=
  WikiPage name (repeat (WikiLine LINE_BODY "lorem ipsum") n) (Z.of_nat n).

(** A catalog of three documents of 3, 40 and 60 lines. *)
Definition three_pages : list wiki_page_t :=
  [sample_page "Alpha" 3; sample_page "Beta" 40; sample_page "Gamma" 60].

(** A catalog of thirty documents of 40 lines. *)
Definition thirty_pages : list wiki_page_t := repeat (sample_page "Page" 40) 30.

(** A glyph table with every bit set on even rows, and a 2x2 opaque sprite. *)
Definition sample_font : Z -> Z -> Z := fun _ row => if Z.even row then 255 else 0.
Definition sample_mascot : Z -> Z := fun _ => 0xFF102030.

(** Globals in the table of contents and in the viewer, for a loaded game. *)
Definition toc_at (cursor scroll : Z) : core :=
  Core (fun _ => 0) STATE_TOC true 1 cursor scroll 0 0 (replicate 16 0).
Definition page_at (page scroll toc_c toc_s : Z) : core :=
  Core (fun _ => 0) STATE_PAGE true 1 toc_c toc_s page scroll (replicate 16 0).

(** ** Vocabulary of the further properties *)

(** The counter array has its [BTN_COUNT] entries, and every counter
    lies between 0 and [k]. *)
Definition counters_upto (k : Z) (s : core) : Prop :=
  length (held_frames s) = Z.to_nat BTN_COUNT /\
  Forall (fun c => 0 <= c <= k) (held_frames s).

(** The cursor row lies in the window of [CONTENT_ROWS - 3] rows that
    [render_toc] draws from the scroll offset. *)
Definition cursor_visible (s : core) : Prop :=
  toc_scroll s <= toc_cursor s < toc_scroll s + (CONTENT_ROWS - 3).

(** No joypad button reads down. *)
Definition pad_idle (pad : joypad) : Prop :=
  forall i, 0 <= i < BTN_COUNT -> pad i = 0.

(** What one call of [btn_pressed] leaves in the button's counter. *)
Definition next_count (pad : joypad) (btn : Z) (s : core) : Z :=
  if pad btn =? 0 then 0 else wrap_int (held s btn + 1).

(** Presses reported over [n] frames of holding a released button:
    one at once, one more at frame 24, then one every 4 frames. *)
Definition hold_presses (n : Z) : Z :=
  if n <=? 0 then 0 else if n <? 24 then 1 else 2 + (n - 24) / 4.

(** [fb] is [fb0] on every index outside the framebuffer array. *)
Definition untouched_outside (fb0 fb : fbuf) : Prop :=
  forall i, ~ (0 <= i < SCREEN_W * SCREEN_H) -> fb i = fb0 i.

(** The bit [render_glyph] tests for column [col] of row [row] of the
    glyph of [ch]: codes from 128 on take the glyph of the question mark. *)
Definition glyph_bit (font8x8_basic : Z -> Z -> Z) (ch row col : Z) : bool :=
  let ch := if 128 <=? ch then char_code "?" else ch in
  negb (Z.land (font8x8_basic ch row mod 256) (Z.shiftl 1 col) =? 0).

(* ================================================================== *)
(** * Input auto-repeat *)

Section InputFacts.

Implicit Types (pad : joypad) (s : core) (btn : Z).

Lemma held_set_held_same s btn v :
  (Z.to_nat btn < length (held_frames s))%nat ->
  held (set_held btn v s) btn = v.
Proof.
  intros Hlen. unfold held, set_held. simpl.
  now apply list_lookup_total_insert_eq.
Qed.

Lemma held_set_held_other s btn btn' v :
  Z.to_nat btn <> Z.to_nat btn' ->
  held (set_held btn v s) btn' = held s btn'.
Proof.
  intros Hne. unfold held, set_held. simpl.
  now apply list_lookup_total_insert_ne.
Qed.

Lemma length_set_held s btn v :
  length (held_frames (set_held btn v s)) = length (held_frames s).
Proof. unfold set_held. simpl. apply length_insert. Qed.

(** Whatever it answers, [btn_pressed] leaves the globals with only the
    button's own counter rewritten: one more when the button reads down,
    zero when it reads up. *)
Lemma wrap_int_small x : INT_MIN <= x <= INT_MAX -> wrap_int x = x.
Proof.
  unfold INT_MIN, INT_MAX, wrap_int. intros H.
  change (2 ^ 31) with 2147483648. change (2 ^ 32) with 4294967296.
  rewrite Z.mod_small; lia.
Qed.

Lemma wrap_int_range x : INT_MIN <= wrap_int x <= INT_MAX.
Proof.
  unfold INT_MIN, INT_MAX, wrap_int.
  change (2 ^ 31) with 2147483648. change (2 ^ 32) with 4294967296.
  pose proof (Z.mod_pos_bound (x + 2147483648) 4294967296). lia.
Qed.

Lemma sampled_eq pad btn s :
  sampled pad btn s =
  set_held btn (if pad btn =? 0 then 0 else wrap_int (held s btn + 1)) s.
Proof.
  unfold sampled, btn_pressed.
  destruct (pad btn =? 0); simpl; [reflexivity |].
  destruct (held _ btn =? 1); [reflexivity |].
  destruct (_ && _); reflexivity.
Qed.

Lemma btn_pressed_eq pad btn s :
  btn_pressed pad btn s = (fires pad btn s, sampled pad btn s).
Proof. unfold fires, sampled. now destruct (btn_pressed pad btn s). Qed.

(** The code's test on the incremented counter is the press rule. *)
Lemma code_test_is_press_rule c :
  (c =? 1) || ((REPEAT_DELAY <=? c) && (Z.rem (c - REPEAT_DELAY) REPEAT_RATE =? 0))
  = press_rule c.
Proof.
  unfold press_rule, REPEAT_DELAY, REPEAT_RATE.
  destruct (c =? 1); simpl; [reflexivity |].
  destruct (Z.leb_spec 24 c) as [Hc | Hc]; simpl; [| reflexivity].
  rewrite Z.rem_mod_nonneg by lia. reflexivity.
Qed.

Lemma fires_eq pad btn s :
  (Z.to_nat btn < length (held_frames s))%nat ->
  fires pad btn s
  = negb (pad btn =? 0) && press_rule (wrap_int (held s btn + 1)).
Proof.
  intros Hlen. unfold fires, btn_pressed.
  destruct (pad btn =? 0); simpl; [reflexivity |].
  rewrite held_set_held_same by assumption.
  rewrite <- code_test_is_press_rule.
  destruct (wrap_int (held s btn + 1) =? 1); [reflexivity |]. simpl.
  destruct (_ && _); reflexivity.
Qed.

Lemma press_rule_iff c :
  press_rule c = true <-> c = 1 \/ (24 <= c /\ (c - 24) mod 4 = 0).
Proof.
  unfold press_rule.
  rewrite orb_true_iff, andb_true_iff, !Z.eqb_eq, Z.leb_le. tauto.
Qed.

(** Frames that all read the button down count the press rule over the
    counter values they go through, as long as the counter stays an
    [int]. *)
Lemma press_events_rule_count btn pads : forall s,
  (Z.to_nat btn < length (held_frames s))%nat ->
  Forall (fun pad : joypad => pad btn <> 0) pads ->
  INT_MIN <= held s btn + 1 ->
  held s btn + Z.of_nat (length pads) <= INT_MAX ->
  press_events btn pads s = rule_count (held s btn) (length pads).
Proof.
  induction pads as [| pad rest IH]; intros s Hlen Hdown Hlo Hhi;
    [reflexivity |].
  inversion Hdown as [| ? ? Hpad Hrest]; subst.
  cbn [press_events rule_count].
  change (length (pad :: rest)) with (S (length rest)) in Hhi |- *.
  cbn [rule_count].
  rewrite btn_pressed_eq, fires_eq, sampled_eq by assumption.
  apply Z.eqb_neq in Hpad. rewrite Hpad. cbn [negb andb].
  rewrite wrap_int_small by lia.
  rewrite IH.
  - now rewrite held_set_held_same.
  - now rewrite length_set_held.
  - assumption.
  - rewrite held_set_held_same by assumption. lia.
  - rewrite held_set_held_same by assumption. lia.
Qed.

(** C2.  For every button id below [BTN_COUNT] and globals with the
    16-entry counter array: one call of [btn_pressed] adds one to the
    button's counter when it reads down and zeroes it when it reads up,
    and it answers true exactly when the new counter is 1, or is at
    least 24 with [counter - 24] divisible by 4.  The counter is an
    [int]: the new counter is the old one plus one whenever that is an
    [int], that is from every counter but [INT_MAX], where the build
    wraps to [INT_MIN] and the call answers false.  Hence, starting from
    a released button (counter 0), frames that all read it down give 1
    press over 23 frames, 2 over 24 and 3 over 28. *)
Theorem btn_pressed_repeat_rule btn :
  0 <= btn < BTN_COUNT ->
  (forall pad s,
      length (held_frames s) = Z.to_nat BTN_COUNT ->
      let c := held (sampled pad btn s) btn in
      (pad btn <> 0 -> c = wrap_int (held s btn + 1)) /\
      (pad btn <> 0 -> INT_MIN <= held s btn < INT_MAX ->
       c = held s btn + 1) /\
      (pad btn <> 0 -> held s btn = INT_MAX ->
       c = INT_MIN /\ fires pad btn s = false) /\
      (pad btn = 0 -> c = 0) /\
      (fires pad btn s = true <->
       c = 1 \/ (24 <= c /\ (c - 24) mod 4 = 0))) /\
  (forall pads s,
      length (held_frames s) = Z.to_nat BTN_COUNT ->
      held s btn = 0 ->
      Forall (fun pad : joypad => pad btn <> 0) pads ->
      (length pads = 23%nat -> press_events btn pads s = 1%nat) /\
      (length pads = 24%nat -> press_events btn pads s = 2%nat) /\
      (length pads = 28%nat -> press_events btn pads s = 3%nat)).
Proof.
  intros Hbtn.
  assert (Hin : forall s, length (held_frames s) = Z.to_nat BTN_COUNT ->
                          (Z.to_nat btn < length (held_frames s))%nat).
  { intros s ->. unfold BTN_COUNT in *. lia. }
  split.
  - intros pad s Hlen c. subst c. specialize (Hin s Hlen).
    rewrite sampled_eq, held_set_held_same, fires_eq by assumption.
    destruct (Z.eqb_spec (pad btn) 0) as [Hz | Hnz]; cbn [negb andb].
    + repeat split; try congruence; try discriminate.
      intros [H | [H _]]; lia.
    + rewrite press_rule_iff.
      split; [reflexivity |].
      split; [intros _ Hc; apply wrap_int_small; unfold INT_MIN, INT_MAX in *; lia |].
      split; [intros _ ->; split; reflexivity |].
      split; [congruence | reflexivity].
  - intros pads s Hlen Hzero Hdown.
    assert (Hcount : (length pads <= 28)%nat ->
                     press_events btn pads s = rule_count 0 (length pads)).
    { intros Hn. rewrite <- Hzero.
      apply press_events_rule_count; auto; rewrite Hzero;
        unfold INT_MIN, INT_MAX; lia. }
    repeat split; intros Hn; rewrite Hcount by lia; rewrite Hn; reflexivity.
Qed.

End InputFacts.

Lemma btn_pressed_repeat_rule_witness :
  fires (pad_only RETRO_DEVICE_ID_JOYPAD_A) RETRO_DEVICE_ID_JOYPAD_A core_initial = true /\
  press_events RETRO_DEVICE_ID_JOYPAD_A
    (repeat (pad_only RETRO_DEVICE_ID_JOYPAD_A) 28) core_initial = 3%nat.
Proof.
  assert (Hbtn : 0 <= RETRO_DEVICE_ID_JOYPAD_A < BTN_COUNT)
    by (unfold RETRO_DEVICE_ID_JOYPAD_A, BTN_COUNT; lia).
  destruct (btn_pressed_repeat_rule RETRO_DEVICE_ID_JOYPAD_A Hbtn) as [Hone Hmany].
  split.
  - apply (Hone (pad_only RETRO_DEVICE_ID_JOYPAD_A) core_initial eq_refl).
    left. reflexivity.
  - apply (Hmany (repeat (pad_only RETRO_DEVICE_ID_JOYPAD_A) 28) core_initial
             eq_refl eq_refl).
    + repeat constructor; discriminate.
    + reflexivity.
Defined.

(* ================================================================== *)
(** * A frame of a handler, move by move *)

Section FrameFacts.

Variable WIKI_PAGE_COUNT : Z.
Variable wiki_pages : list wiki_page_t.

Implicit Types (pad : joypad) (s t : core) (btn : Z) (f : core -> core).

Ltac nav_only_tac :=
  intros h [fb st gl bt tc ts cp ps hf];
  unfold toc_step_up, toc_step_down, toc_page_up, toc_page_down, toc_open,
    toc_left_open, page_line_up, page_line_down, page_page_up,
    page_page_down, page_prev, page_next, page_back;
  unfold set_framebuffer, set_state, set_game_loaded, set_boot_timer,
    set_toc_cursor, set_toc_scroll, set_current_page, set_page_scroll,
    set_held_frames;
  cbn;
  repeat match goal with
         | |- context [if ?c then _ else _] =>
             lazymatch c with
             | context [if _ then _ else _] => fail
             | _ => destruct c; cbn
             end
         end; reflexivity.

Lemma nav_only_toc_step_up : nav_only toc_step_up.
Proof. nav_only_tac. Qed.
Lemma nav_only_toc_step_down r : nav_only (toc_step_down WIKI_PAGE_COUNT r).
Proof. nav_only_tac. Qed.
Lemma nav_only_toc_page_up r : nav_only (toc_page_up r).
Proof. nav_only_tac. Qed.
Lemma nav_only_toc_page_down r : nav_only (toc_page_down WIKI_PAGE_COUNT r).
Proof. nav_only_tac. Qed.
Lemma nav_only_toc_open : nav_only toc_open.
Proof. nav_only_tac. Qed.
Lemma nav_only_toc_left_open : nav_only toc_left_open.
Proof. nav_only_tac. Qed.
Lemma nav_only_page_line_up : nav_only page_line_up.
Proof. nav_only_tac. Qed.
Lemma nav_only_page_line_down m : nav_only (page_line_down m).
Proof. nav_only_tac. Qed.
Lemma nav_only_page_page_up : nav_only page_page_up.
Proof. nav_only_tac. Qed.
Lemma nav_only_page_page_down m : nav_only (page_page_down m).
Proof. nav_only_tac. Qed.
Lemma nav_only_page_prev : nav_only (page_prev WIKI_PAGE_COUNT).
Proof. nav_only_tac. Qed.
Lemma nav_only_page_next : nav_only (page_next WIKI_PAGE_COUNT).
Proof. nav_only_tac. Qed.
Lemma nav_only_page_back : nav_only page_back.
Proof. nav_only_tac. Qed.

Lemma nav_only_held_frames f s : nav_only f -> held_frames (f s) = held_frames s.
Proof.
  intros Hf. specialize (Hf (held_frames s) s).
  destruct s as [fb st gl bt tc ts cp ps hf]. cbn in Hf.
  unfold set_held_frames in Hf at 1. cbn in Hf. rewrite Hf. reflexivity.
Qed.

(** [btn_pressed]'s answer reads nothing but the counter array. *)
Lemma fires_held_frames pad btn s s' :
  held_frames s = held_frames s' -> fires pad btn s = fires pad btn s'.
Proof.
  intros H. unfold fires, btn_pressed, held, set_held.
  destruct (pad btn =? 0); cbn; [reflexivity |].
  rewrite H.
  repeat match goal with
         | |- context [if ?c then _ else _] => destruct c; cbn
         end; reflexivity.
Qed.

Lemma fires_nav_only pad btn f s : nav_only f -> fires pad btn (f s) = fires pad btn s.
Proof. intros Hf. apply fires_held_frames, nav_only_held_frames, Hf. Qed.

Lemma fires_index pad btn s s' :
  length (held_frames s') = length (held_frames s) ->
  held s' btn = held s btn ->
  fires pad btn s' = fires pad btn s.
Proof.
  intros Hlen Hh. unfold fires, btn_pressed.
  destruct (pad btn =? 0); cbn; [reflexivity |].
  assert (Heq : forall v, held (set_held btn v s') btn = held (set_held btn v s) btn).
  { intros v. unfold held, set_held. cbn.
    destruct (Nat.lt_ge_cases (Z.to_nat btn) (length (held_frames s))) as [Hlt | Hge].
    - rewrite !list_lookup_total_insert_eq by lia. reflexivity.
    - rewrite !list_insert_ge by lia. exact Hh. }
  rewrite Hh, !Heq.
  repeat match goal with
         | |- context [if ?c then _ else _] => destruct c; cbn
         end; reflexivity.
Qed.

Lemma touched_refl s : touched [] s s.
Proof.
  split; [| split; [reflexivity | reflexivity]].
  exists (held_frames s). now destruct s.
Qed.

Lemma touched_fires pad btn bs t s' :
  touched bs t s' ->
  ~ In (Z.to_nat btn) (map Z.to_nat bs) ->
  fires pad btn s' = fires pad btn t.
Proof.
  intros (_ & Hlen & Hh) Hnot. apply fires_index; auto.
Qed.

Lemma touched_sampled pad btn bs t s' :
  touched bs t s' -> touched (btn :: bs) t (sampled pad btn s').
Proof.
  intros ([h ->] & Hlen & Hh). rewrite sampled_eq.
  split; [| split].
  - eexists. unfold set_held. now destruct t.
  - now rewrite length_set_held.
  - intros b Hb. cbn in Hb.
    rewrite held_set_held_other by tauto. apply Hh. tauto.
Qed.

Lemma touched_nav_only f bs t s' :
  nav_only f -> touched bs t s' -> touched bs (f t) (f s').
Proof.
  intros Hf ([h ->] & Hlen & Hh).
  split; [| split].
  - exists h. apply Hf.
  - rewrite (nav_only_held_frames f (set_held_frames h t)),
      (nav_only_held_frames f t) by assumption.
    exact Hlen.
  - intros b Hb. unfold held.
    rewrite (nav_only_held_frames f (set_held_frames h t)),
      (nav_only_held_frames f t) by assumption.
    apply Hh, Hb.
Qed.

Lemma touched_more bs bs' t s' :
  (forall i, In i (map Z.to_nat bs) -> In i (map Z.to_nat bs')) ->
  touched bs t s' -> touched bs' t s'.
Proof.
  intros Hsub (Hex & Hlen & Hh). split; [exact Hex | split; [exact Hlen |]].
  intros b Hb. apply Hh. intros Hin. apply Hb, Hsub, Hin.
Qed.


Lemma run_block pad btn f (rest : M unit) s :
  (do x <- btn_pressed pad btn in (when x (modify f) >> rest)) s
  = rest (after_block pad btn f s).
Proof.
  unfold bind, after_block. rewrite btn_pressed_eq.
  destruct (fires pad btn s); reflexivity.
Qed.

Lemma run_last_block pad btn f s :
  snd ((do x <- btn_pressed pad btn in when x (modify f)) s)
  = after_block pad btn f s.
Proof.
  unfold bind, after_block. rewrite btn_pressed_eq.
  destruct (fires pad btn s); reflexivity.
Qed.

Lemma run_either pad a b f (rest : M unit) s :
  (do x <- orelse (btn_pressed pad a) (btn_pressed pad b) in
   (when x (modify f) >> rest)) s
  = rest (after_either pad a b f s).
Proof.
  unfold bind, orelse, bind, after_either. rewrite (btn_pressed_eq pad a).
  destruct (fires pad a s); [reflexivity |].
  rewrite (btn_pressed_eq pad b).
  destruct (fires pad b _); reflexivity.
Qed.

Lemma run_last_either pad a b f s :
  snd ((do x <- orelse (btn_pressed pad a) (btn_pressed pad b) in
        when x (modify f)) s)
  = after_either pad a b f s.
Proof.
  unfold bind, orelse, bind, after_either. rewrite (btn_pressed_eq pad a).
  destruct (fires pad a s); [reflexivity |].
  rewrite (btn_pressed_eq pad b).
  destruct (fires pad b _); reflexivity.
Qed.

Lemma touched_block pad btn f bs t s' :
  nav_only f ->
  ~ In (Z.to_nat btn) (map Z.to_nat bs) ->
  touched bs t s' ->
  touched (btn :: bs) (if fires pad btn t then f t else t)
    (after_block pad btn f s').
Proof.
  intros Hf Hnot Ht. unfold after_block.
  rewrite (touched_fires pad btn bs t s') by assumption.
  destruct (fires pad btn t).
  - apply touched_nav_only; [assumption |]. now apply touched_sampled.
  - now apply touched_sampled.
Qed.

Lemma touched_either pad a b f bs t s' :
  nav_only f ->
  ~ In (Z.to_nat a) (map Z.to_nat bs) ->
  ~ In (Z.to_nat b) (map Z.to_nat bs) ->
  Z.to_nat a <> Z.to_nat b ->
  touched bs t s' ->
  touched (b :: a :: bs) (if fires pad a t || fires pad b t then f t else t)
    (after_either pad a b f s').
Proof.
  intros Hf Ha Hb Hab Ht. unfold after_either.
  rewrite (touched_fires pad a bs t s') by assumption.
  assert (Hta : touched (a :: bs) t (sampled pad a s'))
    by now apply touched_sampled.
  destruct (fires pad a t); cbn [orb].
  - apply touched_nav_only; [assumption |].
    apply touched_more with (bs := a :: bs); [| assumption].
    intros i Hi. cbn in *. tauto.
  - rewrite (touched_fires pad b (a :: bs) t (sampled pad a s'));
      [| assumption | cbn; tauto].
    destruct (fires pad b t).
    + apply touched_nav_only; [assumption |]. now apply touched_sampled.
    + now apply touched_sampled.
Qed.

Lemma fires_if pad btn (c : bool) f s :
  nav_only f -> fires pad btn (if c then f s else s) = fires pad btn s.
Proof. intros Hf. destruct c; [now apply fires_nav_only | reflexivity]. Qed.

Ltac not_in_ids := cbn; unfold RETRO_DEVICE_ID_JOYPAD_B,
  RETRO_DEVICE_ID_JOYPAD_START, RETRO_DEVICE_ID_JOYPAD_UP,
  RETRO_DEVICE_ID_JOYPAD_DOWN, RETRO_DEVICE_ID_JOYPAD_LEFT,
  RETRO_DEVICE_ID_JOYPAD_RIGHT, RETRO_DEVICE_ID_JOYPAD_A,
  RETRO_DEVICE_ID_JOYPAD_L, RETRO_DEVICE_ID_JOYPAD_R; lia.

(** [handle_toc_input] is [toc_frame] on the navigation fields: the
    globals it leaves are those of [toc_frame], up to the counters of
    the buttons it samples. *)
Lemma handle_toc_input_frame pad s :
  touched toc_buttons (toc_frame WIKI_PAGE_COUNT pad s)
    (snd (handle_toc_input WIKI_PAGE_COUNT pad s)).
Proof.
  unfold handle_toc_input. cbv zeta.
  rewrite !run_block, run_either, run_last_block.
  unfold toc_frame, toc_moves. cbv zeta.
  pose proof (touched_refl s) as H.
  apply (touched_block pad RETRO_DEVICE_ID_JOYPAD_UP toc_step_up) in H;
    [| apply nav_only_toc_step_up | not_in_ids].
  apply (touched_block pad RETRO_DEVICE_ID_JOYPAD_DOWN
           (toc_step_down WIKI_PAGE_COUNT (CONTENT_ROWS - 3))) in H;
    [| apply nav_only_toc_step_down | not_in_ids].
  apply (touched_block pad RETRO_DEVICE_ID_JOYPAD_L
           (toc_page_up (CONTENT_ROWS - 3))) in H;
    [| apply nav_only_toc_page_up | not_in_ids].
  apply (touched_block pad RETRO_DEVICE_ID_JOYPAD_R
           (toc_page_down WIKI_PAGE_COUNT (CONTENT_ROWS - 3))) in H;
    [| apply nav_only_toc_page_down | not_in_ids].
  apply (touched_either pad RETRO_DEVICE_ID_JOYPAD_A
           RETRO_DEVICE_ID_JOYPAD_RIGHT toc_open) in H;
    [| apply nav_only_toc_open | not_in_ids | not_in_ids | not_in_ids].
  apply (touched_block pad RETRO_DEVICE_ID_JOYPAD_LEFT toc_left_open) in H;
    [| apply nav_only_toc_left_open | not_in_ids].
  repeat rewrite fires_if in H
    by first [ apply nav_only_toc_step_up | apply nav_only_toc_step_down
             | apply nav_only_toc_page_up | apply nav_only_toc_page_down
             | apply nav_only_toc_open ].
  exact H.
Qed.


(** [handle_page_input] is [page_frame] on the navigation fields. *)
Lemma handle_page_input_frame pad s :
  touched page_buttons (page_frame WIKI_PAGE_COUNT wiki_pages pad s)
    (snd (handle_page_input WIKI_PAGE_COUNT wiki_pages pad s)).
Proof.
  unfold handle_page_input. cbv zeta.
  rewrite !run_block, run_last_either.
  unfold page_frame, page_switches, page_scrolls. cbv zeta.
  pose proof (touched_refl s) as H.
  apply (touched_block pad RETRO_DEVICE_ID_JOYPAD_UP page_line_up) in H;
    [| apply nav_only_page_line_up | not_in_ids].
  apply (touched_block pad RETRO_DEVICE_ID_JOYPAD_DOWN
           (page_line_down (page_max_scroll wiki_pages s))) in H;
    [| apply nav_only_page_line_down | not_in_ids].
  apply (touched_block pad RETRO_DEVICE_ID_JOYPAD_L page_page_up) in H;
    [| apply nav_only_page_page_up | not_in_ids].
  apply (touched_block pad RETRO_DEVICE_ID_JOYPAD_R
           (page_page_down (page_max_scroll wiki_pages s))) in H;
    [| apply nav_only_page_page_down | not_in_ids].
  apply (touched_block pad RETRO_DEVICE_ID_JOYPAD_LEFT
           (page_prev WIKI_PAGE_COUNT)) in H;
    [| apply nav_only_page_prev | not_in_ids].
  apply (touched_block pad RETRO_DEVICE_ID_JOYPAD_RIGHT
           (page_next WIKI_PAGE_COUNT)) in H;
    [| apply nav_only_page_next | not_in_ids].
  apply (touched_either pad RETRO_DEVICE_ID_JOYPAD_B
           RETRO_DEVICE_ID_JOYPAD_START page_back) in H;
    [| apply nav_only_page_back | not_in_ids | not_in_ids | not_in_ids].
  repeat rewrite fires_if in H
    by first [ apply nav_only_page_line_up | apply nav_only_page_line_down
             | apply nav_only_page_page_up | apply nav_only_page_page_down
             | apply nav_only_page_prev | apply nav_only_page_next ].
  exact H.
Qed.

End FrameFacts.

(* ================================================================== *)
(** * Bounds of the navigation fields *)

Ltac split_tests :=
  repeat match goal with
         | |- context [?a <? ?b] =>
             lazymatch a with context [if _ then _ else _] => fail | _ =>
             lazymatch b with context [if _ then _ else _] => fail | _ =>
             destruct (Z.ltb_spec a b); cbn in * end end
         | |- context [?a <=? ?b] =>
             lazymatch a with context [if _ then _ else _] => fail | _ =>
             lazymatch b with context [if _ then _ else _] => fail | _ =>
             destruct (Z.leb_spec a b); cbn in * end end
         end.

Ltac nav_bounds :=
  unfold nav_inv, page_max_scroll, toc_step_up, toc_step_down, toc_page_up,
    toc_page_down, toc_open, toc_left_open, page_line_up, page_line_down,
    page_page_up, page_page_down, page_prev, page_next, page_back,
    set_state, set_toc_cursor, set_toc_scroll, set_current_page,
    set_page_scroll, CONTENT_ROWS in *;
  cbn in *; split_tests; lia.

Section NavBounds.

Variable font8x8_basic : Z -> Z -> Z.
Variable MASCOT_W MASCOT_H : Z.
Variable mascot_pixels : Z -> Z.
Variable WIKI_PAGE_COUNT : Z.
Variable wiki_pages : list wiki_page_t.

Local Abbreviation inv := (nav_inv WIKI_PAGE_COUNT wiki_pages).
Local Abbreviation run :=
  (retro_run font8x8_basic MASCOT_W MASCOT_H mascot_pixels
     WIKI_PAGE_COUNT wiki_pages).

Hypothesis catalog_nonempty : 1 <= WIKI_PAGE_COUNT.

Lemma apply_op_inv op s : inv s -> inv (apply_op WIKI_PAGE_COUNT wiki_pages op s).
Proof.
  destruct s as [fb st gl bt tc ts cp ps hf].
  intros H; destruct op; unfold apply_op; nav_bounds.
Qed.

Lemma inv_set_held_frames h s : inv s -> inv (set_held_frames h s).
Proof. intros H. exact H. Qed.

Lemma inv_touched bs t s' : touched bs t s' -> inv t -> inv s'.
Proof. intros ([h ->] & _) H. exact H. Qed.

Lemma inv_if (c : bool) (f : core -> core) s :
  (forall s, inv s -> inv (f s)) -> inv s -> inv (if c then f s else s).
Proof. intros Hf H. destruct c; auto. Qed.

Lemma toc_frame_inv pad s : inv s -> inv (toc_frame WIKI_PAGE_COUNT pad s).
Proof.
  intros H. unfold toc_frame, toc_moves. cbv zeta.
  apply inv_if; [exact (apply_op_inv TocLeftOpen) |].
  apply inv_if; [exact (apply_op_inv TocOpen) |].
  apply inv_if; [exact (apply_op_inv TocPageDown) |].
  apply inv_if; [exact (apply_op_inv TocPageUp) |].
  apply inv_if; [exact (apply_op_inv TocDown) |].
  apply inv_if; [exact (apply_op_inv TocUp) |].
  exact H.
Qed.

(** The viewer's scroll moves run with the [max_scroll] computed on entry;
    they leave the document in place, so it stays the right one. *)
Local Abbreviation scroll_ok m s :=
  (inv s /\ page_max_scroll wiki_pages s = m).

Lemma scroll_ok_if m (c : bool) (f : core -> core) s :
  (forall s, scroll_ok m s -> scroll_ok m (f s)) ->
  scroll_ok m s -> scroll_ok m (if c then f s else s).
Proof. intros Hf H. destruct c; auto. Qed.

Lemma page_max_scroll_same s s' :
  current_page s' = current_page s ->
  page_max_scroll wiki_pages s' = page_max_scroll wiki_pages s.
Proof. intros H. unfold page_max_scroll. now rewrite H. Qed.

Ltac same_document :=
  apply page_max_scroll_same;
  unfold page_line_up, page_line_down, page_page_up, page_page_down; cbn;
  repeat match goal with
         | |- context [if ?c then _ else _] =>
             lazymatch c with
             | context [if _ then _ else _] => fail
             | _ => destruct c; cbn
             end
         end; reflexivity.

Lemma page_line_up_ok m s : scroll_ok m s -> scroll_ok m (page_line_up s).
Proof.
  destruct s as [fb st gl bt tc ts cp ps hf]. intros [H <-].
  split; [exact (apply_op_inv PageLineUp _ H) | same_document].
Qed.

Lemma page_line_down_ok m s : scroll_ok m s -> scroll_ok m (page_line_down m s).
Proof.
  destruct s as [fb st gl bt tc ts cp ps hf]. intros [H <-].
  split; [exact (apply_op_inv PageLineDown _ H) | same_document].
Qed.

Lemma page_page_up_ok m s : scroll_ok m s -> scroll_ok m (page_page_up s).
Proof.
  destruct s as [fb st gl bt tc ts cp ps hf]. intros [H <-].
  split; [exact (apply_op_inv PagePageUp _ H) | same_document].
Qed.

Lemma page_page_down_ok m s : scroll_ok m s -> scroll_ok m (page_page_down m s).
Proof.
  destruct s as [fb st gl bt tc ts cp ps hf]. intros [H <-].
  split; [exact (apply_op_inv PagePageDown _ H) | same_document].
Qed.

Lemma page_scrolls_inv pad s :
  inv s -> inv (page_scrolls wiki_pages pad s).
Proof.
  intros H. unfold page_scrolls. cbv zeta.
  refine (proj1 (_ : scroll_ok (page_max_scroll wiki_pages s) _)).
  apply scroll_ok_if; [apply page_page_down_ok |].
  apply scroll_ok_if; [apply page_page_up_ok |].
  apply scroll_ok_if; [apply page_line_down_ok |].
  apply scroll_ok_if; [apply page_line_up_ok |].
  split; [exact H | reflexivity].
Qed.

Lemma page_frame_inv pad s :
  inv s -> inv (page_frame WIKI_PAGE_COUNT wiki_pages pad s).
Proof.
  intros H. unfold page_frame, page_switches. cbv zeta.
  apply inv_if; [exact (apply_op_inv PageBack) |].
  apply inv_if; [exact (apply_op_inv PageNext) |].
  apply inv_if; [exact (apply_op_inv PagePrev) |].
  now apply page_scrolls_inv.
Qed.

Lemma retro_run_inv pad s : inv s -> inv (fst (run pad s)).
Proof.
  intros H. unfold retro_run.
  destruct (game_loaded s); cbn [negb fst]; [| exact H].
  destruct (state s).
  - unfold run_boot. cbv zeta.
    destruct (_ || _); exact H.
  - unfold run_toc. cbv zeta.
    change (inv (snd (handle_toc_input WIKI_PAGE_COUNT pad s))).
    eapply inv_touched; [apply handle_toc_input_frame |].
    now apply toc_frame_inv.
  - unfold run_page. cbv zeta.
    change (inv (snd (handle_page_input WIKI_PAGE_COUNT wiki_pages pad s))).
    eapply inv_touched; [apply handle_page_input_frame |].
    now apply page_frame_inv.
Qed.

Lemma retro_load_game_inv s s' :
  retro_load_game true true s = (true, s') -> inv s'.
Proof.
  unfold retro_load_game. cbn. intros [= <-].
  unfold nav_inv. cbn. unfold CONTENT_ROWS. lia.
Qed.

Lemma retro_reset_inv s : inv (retro_reset s).
Proof. unfold nav_inv. cbn. unfold CONTENT_ROWS. lia. Qed.

(** C1.  With a catalog of at least one document, after a successful
    load the table-of-contents cursor stays in [0, N-1], the
    table-of-contents scroll in [0, max(0, N - (CONTENT_ROWS - 3))], the
    viewer scroll in [0, max(0, line_count - CONTENT_ROWS)] of the
    current document, and the current document in [0, N-1]: in every
    state a host can reach by frames, resets and unloads, across every
    frame whatever the joypad reads, and across every single move (step,
    page step, open, previous/next, back). *)
Theorem nav_bounds_invariant :
  (forall s,
      reachable font8x8_basic MASCOT_W MASCOT_H mascot_pixels
        WIKI_PAGE_COUNT wiki_pages s -> inv s) /\
  (forall pad s, inv s -> inv (fst (run pad s))) /\
  (forall op s, inv s -> inv (apply_op WIKI_PAGE_COUNT wiki_pages op s)).
Proof.
  split; [| split].
  - intros s Hr. induction Hr as [s s' Hload | pad s _ IH | s _ _ | s _ IH].
    + eapply retro_load_game_inv, Hload.
    + now apply retro_run_inv.
    + apply retro_reset_inv.
    + exact IH.
  - intros pad s. apply retro_run_inv.
  - intros op s. apply apply_op_inv.
Qed.

End NavBounds.

Lemma nav_bounds_invariant_witness :
  nav_inv 3 three_pages
    (run_frames sample_font 2 2 sample_mascot 3 three_pages
       [pad_only RETRO_DEVICE_ID_JOYPAD_SELECT;
        pad_only RETRO_DEVICE_ID_JOYPAD_DOWN;
        pad_only RETRO_DEVICE_ID_JOYPAD_A]
       (snd (retro_load_game true true core_initial))).
Proof.
  assert (Hn : 1 <= 3) by lia.
  apply (proj1 (nav_bounds_invariant sample_font 2 2 sample_mascot 3 three_pages Hn)).
  unfold run_frames. cbn [fold_left].
  do 3 apply reach_run.
  apply reach_load with (s := core_initial). reflexivity.
Defined.

(* ================================================================== *)
(** * The moves of the two screens *)

Section NavMoves.

Variable WIKI_PAGE_COUNT : Z.
Variable wiki_pages : list wiki_page_t.

Local Abbreviation toc_input := (handle_toc_input WIKI_PAGE_COUNT).
Local Abbreviation page_input := (handle_page_input WIKI_PAGE_COUNT wiki_pages).
Local Abbreviation list_rows := (CONTENT_ROWS - 3).

Implicit Types (pad : joypad) (s t : core).

(** Globals that differ in button counters only agree on every other field. *)
Lemma touched_fields bs t s' :
  touched bs t s' ->
  state s' = state t /\ toc_cursor s' = toc_cursor t /\
  toc_scroll s' = toc_scroll t /\ current_page s' = current_page t /\
  page_scroll s' = page_scroll t.
Proof. intros ([h ->] & _). repeat split. Qed.

Ltac move_facts :=
  unfold nav_inv, page_max_scroll, toc_step_up, toc_step_down, toc_page_up,
    toc_page_down, toc_open, toc_left_open, page_line_up, page_line_down,
    page_page_up, page_page_down, page_prev, page_next, page_back,
    set_state, set_toc_cursor, set_toc_scroll, set_current_page,
    set_page_scroll, CONTENT_ROWS in *;
  cbn in *; split_tests; repeat split; try reflexivity; try lia.

(** What each move does to the fields it writes. *)
Lemma toc_page_up_fields s :
  let u := toc_page_up list_rows s in
  toc_cursor u = Z.max 0 (toc_cursor s - list_rows) /\
  toc_scroll u = toc_cursor u.
Proof. destruct s as [fb st gl bt tc ts cp ps hf]. move_facts. Qed.

Lemma toc_page_down_fields s :
  let d := toc_page_down WIKI_PAGE_COUNT list_rows s in
  toc_cursor d = Z.min (WIKI_PAGE_COUNT - 1) (toc_cursor s + list_rows) /\
  toc_scroll d =
    (if toc_scroll s + list_rows <=? toc_cursor d
     then toc_cursor d - list_rows + 1 else toc_scroll s).
Proof. destruct s as [fb st gl bt tc ts cp ps hf]. move_facts. Qed.


Lemma toc_moves_idle pad s :
  fires pad RETRO_DEVICE_ID_JOYPAD_UP s = false ->
  fires pad RETRO_DEVICE_ID_JOYPAD_DOWN s = false ->
  fires pad RETRO_DEVICE_ID_JOYPAD_L s = false ->
  fires pad RETRO_DEVICE_ID_JOYPAD_R s = false ->
  toc_moves WIKI_PAGE_COUNT pad s = s.
Proof. intros Hu Hd Hl Hr. unfold toc_moves. now rewrite Hu, Hd, Hl, Hr. Qed.

Lemma page_scrolls_document pad s :
  current_page (page_scrolls wiki_pages pad s) = current_page s /\
  toc_cursor (page_scrolls wiki_pages pad s) = toc_cursor s /\
  toc_scroll (page_scrolls wiki_pages pad s) = toc_scroll s /\
  state (page_scrolls wiki_pages pad s) = state s.
Proof.
  unfold page_scrolls. cbv zeta.
  generalize (page_max_scroll wiki_pages s). intros m.
  destruct s as [fb st gl bt tc ts cp ps hf].
  destruct (fires pad RETRO_DEVICE_ID_JOYPAD_UP _),
    (fires pad RETRO_DEVICE_ID_JOYPAD_DOWN _),
    (fires pad RETRO_DEVICE_ID_JOYPAD_L _),
    (fires pad RETRO_DEVICE_ID_JOYPAD_R _);
    unfold page_line_up, page_line_down, page_page_up, page_page_down; cbn;
    repeat match goal with
           | |- context [if ?c then _ else _] =>
               lazymatch c with
               | context [if _ then _ else _] => fail
               | _ => destruct c; cbn
               end
           end; repeat split.
Qed.

(** C3 (as amended).  In the table of contents, the L shoulder button
    moves the cursor back by a full page ([CONTENT_ROWS - 3] rows), stops
    it at 0 and sets the scroll offset to the new cursor; the R shoulder
    button moves the cursor forward by a full page, stops it at [N - 1],
    and lets the scroll offset follow: it becomes [cursor - rows + 1]
    when the cursor is at or past [scroll + rows] and is unchanged
    otherwise.  From fields within their bounds both moves leave the
    cursor in [0, N-1] and the scroll offset in [0, max(0, N - rows)];
    and a frame in which only that shoulder button fires leaves exactly
    that move on the navigation fields. *)
Theorem toc_page_step_moves s :
  nav_inv WIKI_PAGE_COUNT wiki_pages s ->
  let u := toc_page_up list_rows s in
  let d := toc_page_down WIKI_PAGE_COUNT list_rows s in
  (toc_cursor u = Z.max 0 (toc_cursor s - list_rows) /\
   toc_scroll u = toc_cursor u) /\
  (toc_cursor d = Z.min (WIKI_PAGE_COUNT - 1) (toc_cursor s + list_rows) /\
   toc_scroll d =
     (if toc_scroll s + list_rows <=? toc_cursor d
      then toc_cursor d - list_rows + 1 else toc_scroll s)) /\
  (0 <= toc_cursor u <= WIKI_PAGE_COUNT - 1 /\
   0 <= toc_scroll u <= Z.max 0 (WIKI_PAGE_COUNT - list_rows)) /\
  (0 <= toc_cursor d <= WIKI_PAGE_COUNT - 1 /\
   0 <= toc_scroll d <= Z.max 0 (WIKI_PAGE_COUNT - list_rows)) /\
  (forall pad,
      fires pad RETRO_DEVICE_ID_JOYPAD_UP s = false ->
      fires pad RETRO_DEVICE_ID_JOYPAD_DOWN s = false ->
      fires pad RETRO_DEVICE_ID_JOYPAD_A s = false ->
      fires pad RETRO_DEVICE_ID_JOYPAD_RIGHT s = false ->
      fires pad RETRO_DEVICE_ID_JOYPAD_LEFT s = false ->
      (fires pad RETRO_DEVICE_ID_JOYPAD_L s = true ->
       fires pad RETRO_DEVICE_ID_JOYPAD_R s = false ->
       touched toc_buttons u (snd (toc_input pad s))) /\
      (fires pad RETRO_DEVICE_ID_JOYPAD_L s = false ->
       fires pad RETRO_DEVICE_ID_JOYPAD_R s = true ->
       touched toc_buttons d (snd (toc_input pad s)))).
Proof.
  intros Hinv u d.
  split; [apply toc_page_up_fields |].
  split; [apply toc_page_down_fields |].
  split; [| split].
  - subst u. destruct s as [fb st gl bt tc ts cp ps hf]. move_facts.
  - subst d. destruct s as [fb st gl bt tc ts cp ps hf]. move_facts.
  - intros pad Hu Hd Ha Hr Hl.
    pose proof (handle_toc_input_frame WIKI_PAGE_COUNT pad s) as H.
    unfold toc_frame, toc_moves in H. cbv zeta in H.
    rewrite Hu, Hd, Ha, Hr, Hl in H. cbn [orb] in H.
    split; intros HL HR; rewrite HL, HR in H; exact H.
Qed.

(** C4.  [Back] in the viewer: the move leaves the state at the table of
    contents, the cursor on the current document, and a scroll offset
    that shows the cursor, set by the follow rule of the single steps and
    not by a snap to the cursor: to the cursor when the cursor was above
    the window, to [cursor - rows + 1] when it was below, and unchanged
    when it was already visible.  A frame of the viewer in which B or
    Start fires ends in that state; when neither Left nor Right fires in
    it, the document is the one of the frame's start. *)
Theorem page_back_shows_cursor :
  (forall s,
      let s' := page_back s in
      state s' = STATE_TOC /\
      toc_cursor s' = current_page s /\
      current_page s' = current_page s /\
      toc_scroll s' =
        (if current_page s <? toc_scroll s then current_page s
         else if toc_scroll s + list_rows <=? current_page s
              then current_page s - list_rows + 1
              else toc_scroll s) /\
      toc_scroll s' <= toc_cursor s' < toc_scroll s' + list_rows) /\
  (forall pad s,
      fires pad RETRO_DEVICE_ID_JOYPAD_B s
      || fires pad RETRO_DEVICE_ID_JOYPAD_START s = true ->
      let s' := snd (page_input pad s) in
      state s' = STATE_TOC /\
      toc_cursor s' = current_page s' /\
      toc_scroll s' <= toc_cursor s' < toc_scroll s' + list_rows /\
      (fires pad RETRO_DEVICE_ID_JOYPAD_LEFT s = false ->
       fires pad RETRO_DEVICE_ID_JOYPAD_RIGHT s = false ->
       current_page s' = current_page s /\
       toc_scroll s' = toc_scroll (page_back s))).
Proof.
  assert (Hop : forall s,
      let s' := page_back s in
      state s' = STATE_TOC /\
      toc_cursor s' = current_page s /\
      current_page s' = current_page s /\
      toc_scroll s' =
        (if current_page s <? toc_scroll s then current_page s
         else if toc_scroll s + list_rows <=? current_page s
              then current_page s - list_rows + 1
              else toc_scroll s) /\
      toc_scroll s' <= toc_cursor s' < toc_scroll s' + list_rows).
  { intros [fb st gl bt tc ts cp ps hf]. move_facts. }
  split; [exact Hop |].
  intros pad s Hb s'.
  destruct (touched_fields _ _ _ (handle_page_input_frame WIKI_PAGE_COUNT wiki_pages pad s))
    as (Hst & Htc & Hts & Hcp & _).
  fold s' in Hst, Htc, Hts, Hcp.
  unfold page_frame in Hst, Htc, Hts, Hcp. cbv zeta in Hst, Htc, Hts, Hcp.
  rewrite Hb in Hst, Htc, Hts, Hcp.
  set (s6 := page_switches WIKI_PAGE_COUNT wiki_pages pad s) in *.
  destruct (Hop s6) as (H1 & H2 & H3 & H4 & H5).
  rewrite Hst, Htc, Hts, Hcp.
  split; [exact H1 |]. split; [congruence |]. split; [exact H5 |].
  intros HL HR.
  assert (E6 : s6 = page_scrolls wiki_pages pad s).
  { subst s6. unfold page_switches. cbv zeta. now rewrite HL, HR. }
  destruct (page_scrolls_document pad s) as (Ecp & Etc & Ets & Est).
  split.
  - rewrite H3, E6. exact Ecp.
  - rewrite H4. destruct (Hop s) as (_ & _ & _ & -> & _).
    rewrite E6, Ecp, Ets. reflexivity.
Qed.


(** C5.  [Left] in the table of contents steps the cursor back by one
    (not below 0), lets the scroll offset follow it, and opens the
    document it lands on: the state is the viewer, the current document
    is the new cursor and the viewer scroll is 0.  A frame of the table
    of contents in which Left fires ends in the viewer on the document
    under the cursor with scroll 0; when no other cursor move fires in
    it, the cursor is the one of the frame's start stepped back. *)
Theorem toc_left_steps_back_and_opens :
  (forall s,
      let s' := toc_left_open s in
      state s' = STATE_PAGE /\
      current_page s' = toc_cursor s' /\
      page_scroll s' = 0 /\
      toc_cursor s' =
        (if 0 <? toc_cursor s then toc_cursor s - 1 else toc_cursor s) /\
      toc_scroll s' =
        (if toc_cursor s' <? toc_scroll s then toc_cursor s' else toc_scroll s)) /\
  (forall pad s,
      fires pad RETRO_DEVICE_ID_JOYPAD_LEFT s = true ->
      let s' := snd (toc_input pad s) in
      state s' = STATE_PAGE /\
      current_page s' = toc_cursor s' /\
      page_scroll s' = 0 /\
      (fires pad RETRO_DEVICE_ID_JOYPAD_UP s = false ->
       fires pad RETRO_DEVICE_ID_JOYPAD_DOWN s = false ->
       fires pad RETRO_DEVICE_ID_JOYPAD_L s = false ->
       fires pad RETRO_DEVICE_ID_JOYPAD_R s = false ->
       toc_cursor s' = toc_cursor (toc_left_open s) /\
       toc_scroll s' = toc_scroll (toc_left_open s))).
Proof.
  assert (Hop : forall s,
      let s' := toc_left_open s in
      state s' = STATE_PAGE /\
      current_page s' = toc_cursor s' /\
      page_scroll s' = 0 /\
      toc_cursor s' =
        (if 0 <? toc_cursor s then toc_cursor s - 1 else toc_cursor s) /\
      toc_scroll s' =
        (if toc_cursor s' <? toc_scroll s then toc_cursor s' else toc_scroll s)).
  { intros [fb st gl bt tc ts cp ps hf]. move_facts. }
  split; [exact Hop |].
  intros pad s Hleft s'.
  destruct (touched_fields _ _ _ (handle_toc_input_frame WIKI_PAGE_COUNT pad s))
    as (Hst & Htc & Hts & Hcp & Hps).
  fold s' in Hst, Htc, Hts, Hcp, Hps.
  unfold toc_frame in Hst, Htc, Hts, Hcp, Hps.
  cbv zeta in Hst, Htc, Hts, Hcp, Hps.
  rewrite Hleft in Hst, Htc, Hts, Hcp, Hps.
  set (s4 := toc_moves WIKI_PAGE_COUNT pad s) in *.
  set (s5 := if fires pad RETRO_DEVICE_ID_JOYPAD_A s
                || fires pad RETRO_DEVICE_ID_JOYPAD_RIGHT s
             then toc_open s4 else s4) in *.
  destruct (Hop s5) as (H1 & H2 & H3 & H4 & H5).
  rewrite Hst, Htc, Hts, Hcp, Hps.
  split; [exact H1 |]. split; [exact H2 |]. split; [exact H3 |].
  intros HU HD HL HR.
  assert (E4 : s4 = s) by (subst s4; now apply toc_moves_idle).
  assert (E5 : toc_cursor s5 = toc_cursor s /\ toc_scroll s5 = toc_scroll s).
  { subst s5. rewrite E4. destruct (_ || _); split; reflexivity. }
  destruct E5 as [E5c E5s].
  destruct (Hop s) as (_ & _ & _ & G4 & G5).
  split.
  - rewrite H4, G4, E5c. reflexivity.
  - rewrite H5, G5, H4, G4, E5c, E5s. reflexivity.
Qed.

(** C6.  [A] or [Right] in the table of contents: the move leaves the
    state at the viewer, the viewer scroll at 0 and the current document
    at the cursor, which it does not move.  A frame of the table of
    contents in which A or Right fires ends in the viewer with scroll 0
    on the document under the cursor; when Left does not fire in it, that
    document is the cursor as the press found it (after the frame's
    Up/Down/L/R moves), and when no cursor move fires at all it is the
    cursor of the frame's start. *)
Theorem toc_accept_opens_cursor :
  (forall s,
      let s' := toc_open s in
      state s' = STATE_PAGE /\
      page_scroll s' = 0 /\
      current_page s' = toc_cursor s /\
      toc_cursor s' = toc_cursor s /\
      toc_scroll s' = toc_scroll s) /\
  (forall pad s,
      fires pad RETRO_DEVICE_ID_JOYPAD_A s
      || fires pad RETRO_DEVICE_ID_JOYPAD_RIGHT s = true ->
      let s' := snd (toc_input pad s) in
      state s' = STATE_PAGE /\
      page_scroll s' = 0 /\
      current_page s' = toc_cursor s' /\
      (fires pad RETRO_DEVICE_ID_JOYPAD_LEFT s = false ->
       current_page s' = toc_cursor (toc_moves WIKI_PAGE_COUNT pad s) /\
       (fires pad RETRO_DEVICE_ID_JOYPAD_UP s = false ->
        fires pad RETRO_DEVICE_ID_JOYPAD_DOWN s = false ->
        fires pad RETRO_DEVICE_ID_JOYPAD_L s = false ->
        fires pad RETRO_DEVICE_ID_JOYPAD_R s = false ->
        current_page s' = toc_cursor s))).
Proof.
  split.
  { intros [fb st gl bt tc ts cp ps hf]. move_facts. }
  intros pad s Hopen s'.
  destruct (touched_fields _ _ _ (handle_toc_input_frame WIKI_PAGE_COUNT pad s))
    as (Hst & Htc & Hts & Hcp & Hps).
  fold s' in Hst, Htc, Hts, Hcp, Hps.
  unfold toc_frame in Hst, Htc, Hts, Hcp, Hps.
  cbv zeta in Hst, Htc, Hts, Hcp, Hps.
  rewrite Hopen in Hst, Htc, Hts, Hcp, Hps.
  set (s4 := toc_moves WIKI_PAGE_COUNT pad s) in *.
  rewrite Hst, Htc, Hcp, Hps.
  destruct (fires pad RETRO_DEVICE_ID_JOYPAD_LEFT s).
  - destruct s4 as [fb st gl bt tc ts cp ps hf].
    repeat split; try discriminate; move_facts.
  - repeat split; intros; subst s4;
      try (rewrite toc_moves_idle by assumption); reflexivity.
Qed.

(** C7.  [Left]/[Right] in the viewer: the previous document of
    document 0 is document [N - 1], the next document of document
    [N - 1] is document 0, elsewhere they are the neighbours, and both
    moves set the viewer scroll to 0.  A frame of the viewer in which
    Left or Right fires ends with scroll 0; when only one of the two
    fires, the document is the previous, respectively the next, of the
    one of the frame's start. *)
Theorem page_prev_next_wraps :
  (forall s,
      let p := page_prev WIKI_PAGE_COUNT s in
      let n := page_next WIKI_PAGE_COUNT s in
      page_scroll p = 0 /\ page_scroll n = 0 /\
      (current_page s = 0 -> current_page p = WIKI_PAGE_COUNT - 1) /\
      (0 < current_page s -> current_page p = current_page s - 1) /\
      (current_page s = WIKI_PAGE_COUNT - 1 -> current_page n = 0) /\
      (current_page s < WIKI_PAGE_COUNT - 1 ->
       current_page n = current_page s + 1)) /\
  (forall pad s,
      let s' := snd (page_input pad s) in
      (fires pad RETRO_DEVICE_ID_JOYPAD_LEFT s
       || fires pad RETRO_DEVICE_ID_JOYPAD_RIGHT s = true ->
       page_scroll s' = 0) /\
      (fires pad RETRO_DEVICE_ID_JOYPAD_LEFT s = true ->
       fires pad RETRO_DEVICE_ID_JOYPAD_RIGHT s = false ->
       current_page s' = current_page (page_prev WIKI_PAGE_COUNT s)) /\
      (fires pad RETRO_DEVICE_ID_JOYPAD_LEFT s = false ->
       fires pad RETRO_DEVICE_ID_JOYPAD_RIGHT s = true ->
       current_page s' = current_page (page_next WIKI_PAGE_COUNT s))).
Proof.
  assert (Hop : forall s,
      let p := page_prev WIKI_PAGE_COUNT s in
      let n := page_next WIKI_PAGE_COUNT s in
      page_scroll p = 0 /\ page_scroll n = 0 /\
      (current_page s = 0 -> current_page p = WIKI_PAGE_COUNT - 1) /\
      (0 < current_page s -> current_page p = current_page s - 1) /\
      (current_page s = WIKI_PAGE_COUNT - 1 -> current_page n = 0) /\
      (current_page s < WIKI_PAGE_COUNT - 1 ->
       current_page n = current_page s + 1)).
  { intros [fb st gl bt tc ts cp ps hf]. move_facts. }
  split; [exact Hop |].
  intros pad s s'.
  destruct (touched_fields _ _ _ (handle_page_input_frame WIKI_PAGE_COUNT wiki_pages pad s))
    as (_ & _ & _ & Hcp & Hps).
  fold s' in Hcp, Hps. rewrite Hcp, Hps. clear Hcp Hps.
  unfold page_frame, page_switches. cbv zeta.
  destruct (page_scrolls_document pad s) as (Ecp & _).
  set (s4 := page_scrolls wiki_pages pad s) in *. clearbody s4.
  assert (Eprev : current_page (page_prev WIKI_PAGE_COUNT s4)
                  = current_page (page_prev WIKI_PAGE_COUNT s)).
  { destruct s4, s. cbn in Ecp. subst.
    unfold page_prev. cbn. destruct (_ <? 0); reflexivity. }
  assert (Enext : current_page (page_next WIKI_PAGE_COUNT s4)
                  = current_page (page_next WIKI_PAGE_COUNT s)).
  { destruct s4, s. cbn in Ecp. subst.
    unfold page_next. cbn. destruct (WIKI_PAGE_COUNT <=? _); reflexivity. }
  assert (Hback : forall t, current_page (page_back t) = current_page t /\
                            page_scroll (page_back t) = page_scroll t).
  { intros [fb st gl bt tc ts cp ps hf]. move_facts. }
  assert (Hkeep : forall (c : bool) t,
             current_page (if c then page_back t else t) = current_page t /\
             page_scroll (if c then page_back t else t) = page_scroll t).
  { intros [] t; [apply Hback | split; reflexivity]. }
  match goal with
  | |- context [if ?c then page_back ?t else ?t] =>
      destruct (Hkeep c t) as [-> ->]
  end.
  destruct (fires pad RETRO_DEVICE_ID_JOYPAD_LEFT s),
    (fires pad RETRO_DEVICE_ID_JOYPAD_RIGHT s); cbn [orb];
    (split; [| split]); try discriminate; intros.
  - apply (Hop (page_prev WIKI_PAGE_COUNT s4)).
  - apply (Hop s4).
  - exact Eprev.
  - apply (Hop s4).
  - exact Enext.
Qed.

End NavMoves.

(* ================================================================== *)
(** * The moves on sample catalogs *)

Lemma toc_page_step_moves_witness :
  let s := toc_at 29 8 in
  toc_scroll (toc_page_up (CONTENT_ROWS - 3) s)
  = toc_cursor (toc_page_up (CONTENT_ROWS - 3) s) /\
  toc_cursor (toc_page_down 30 (CONTENT_ROWS - 3) s) = Z.min (30 - 1) (29 + (CONTENT_ROWS - 3)).
Proof.
  assert (Hinv : nav_inv 30 thirty_pages (toc_at 29 8)).
  { unfold nav_inv, CONTENT_ROWS. cbn. lia. }
  pose proof (toc_page_step_moves 30 thirty_pages (toc_at 29 8) Hinv) as H.
  cbv zeta in H. destruct H as ((_ & Hu) & (Hd & _) & _).
  split; [exact Hu | exact Hd].
Defined.

(** C3 as first stated fails: on a 30-document catalog, with cursor and
    scroll offset at 0, a frame in which only the R shoulder button is down
    moves the cursor to 22 and the scroll offset to 1, not to the cursor. *)
Lemma toc_page_down_does_not_snap :
  let s' := snd (handle_toc_input 30 (pad_only RETRO_DEVICE_ID_JOYPAD_R) (toc_at 0 0)) in
  toc_cursor s' = 22 /\ toc_scroll s' = 1 /\ toc_scroll s' <> toc_cursor s'.
Proof. vm_compute. repeat split; discriminate. Qed.

Lemma page_back_shows_cursor_witness :
  let s' := snd (handle_page_input 30 thirty_pages
                   (pad_only RETRO_DEVICE_ID_JOYPAD_B) (page_at 27 3 0 0)) in
  state s' = STATE_TOC /\ toc_cursor s' = current_page s' /\
  toc_scroll s' <= toc_cursor s' < toc_scroll s' + (CONTENT_ROWS - 3).
Proof.
  pose proof (proj2 (page_back_shows_cursor 30 thirty_pages)
                (pad_only RETRO_DEVICE_ID_JOYPAD_B) (page_at 27 3 0 0) eq_refl) as H.
  cbv zeta in H |- *. destruct H as (H1 & H2 & H3 & _).
  exact (conj H1 (conj H2 H3)).
Defined.

(** C4 as first stated fails: [Back] does not snap the scroll offset to
    the cursor.  On a 30-document catalog, in the viewer on document 27
    with the scroll offset of the table of contents at 0, a frame in which
    only B is down enters the table of contents with the cursor at 27 and
    the scroll offset at 6: the offset of the follow rule
    [cursor - rows + 1], neither the cursor nor the cursor clamped to the
    largest offset [30 - rows = 8]. *)
Lemma page_back_does_not_snap :
  let s' := snd (handle_page_input 30 thirty_pages
                   (pad_only RETRO_DEVICE_ID_JOYPAD_B) (page_at 27 3 0 0)) in
  state s' = STATE_TOC /\ toc_cursor s' = 27 /\ toc_scroll s' = 6 /\
  toc_scroll s' <> toc_cursor s' /\
  toc_scroll s' <> Z.min (toc_cursor s') (30 - (CONTENT_ROWS - 3)).
Proof. vm_compute. repeat split; discriminate. Qed.

Lemma toc_left_steps_back_and_opens_witness :
  let s' := snd (handle_toc_input 3 (pad_only RETRO_DEVICE_ID_JOYPAD_LEFT) (toc_at 2 0)) in
  state s' = STATE_PAGE /\ current_page s' = toc_cursor s' /\ page_scroll s' = 0 /\
  toc_cursor s' = toc_cursor (toc_left_open (toc_at 2 0)).
Proof.
  pose proof (proj2 (toc_left_steps_back_and_opens 3)
                (pad_only RETRO_DEVICE_ID_JOYPAD_LEFT) (toc_at 2 0) eq_refl) as H.
  cbv zeta in H |- *. destruct H as (H1 & H2 & H3 & H4).
  exact (conj H1 (conj H2 (conj H3 (proj1 (H4 eq_refl eq_refl eq_refl eq_refl))))).
Defined.

Lemma toc_accept_opens_cursor_witness :
  let s' := snd (handle_toc_input 3 (pad_only RETRO_DEVICE_ID_JOYPAD_A) (toc_at 2 0)) in
  state s' = STATE_PAGE /\ page_scroll s' = 0 /\ current_page s' = 2.
Proof.
  pose proof (proj2 (toc_accept_opens_cursor 3)
                (pad_only RETRO_DEVICE_ID_JOYPAD_A) (toc_at 2 0) eq_refl) as H.
  cbv zeta in H |- *. destruct H as (H1 & H2 & _ & H4).
  exact (conj H1 (conj H2 (proj2 (H4 eq_refl) eq_refl eq_refl eq_refl eq_refl))).
Defined.

Lemma page_prev_next_wraps_witness :
  current_page (page_prev 3 (page_at 0 5 0 0)) = 3 - 1 /\
  current_page (page_next 3 (page_at 2 5 0 0)) = 0 /\
  page_scroll (snd (handle_page_input 3 three_pages
                      (pad_only RETRO_DEVICE_ID_JOYPAD_LEFT) (page_at 0 5 0 0))) = 0.
Proof.
  destruct (page_prev_next_wraps 3 three_pages) as [Hop Hframe].
  split; [| split].
  - apply (Hop (page_at 0 5 0 0)). reflexivity.
  - apply (Hop (page_at 2 5 0 0)). reflexivity.
  - apply (Hframe (pad_only RETRO_DEVICE_ID_JOYPAD_LEFT) (page_at 0 5 0 0)).
    reflexivity.
Defined.

(* ================================================================== *)
(** * The boot renderer reads nothing but the frame counter *)

Lemma fb_store_same fb1 fb2 i c :
  same_pixels fb1 fb2 -> same_pixels (fb_store fb1 i c) (fb_store fb2 i c).
Proof.
  intros H j Hj. unfold fb_store. destruct (j =? i); [reflexivity | now apply H].
Qed.

Lemma for_loop_same (cond : Z -> bool) (body : Z -> fbuf -> fbuf) :
  (forall j a b, same_pixels a b -> same_pixels (body j a) (body j b)) ->
  forall n i fb1 fb2,
    same_pixels fb1 fb2 ->
    same_pixels (for_loop n i cond body fb1) (for_loop n i cond body fb2).
Proof.
  intros Hbody. induction n as [| n IH]; intros i fb1 fb2 H; cbn [for_loop].
  - exact H.
  - destruct (cond i); [| exact H]. apply IH, Hbody, H.
Qed.

Lemma for_range_same (body : Z -> fbuf -> fbuf) lo hi fb1 fb2 :
  (forall j a b, same_pixels a b -> same_pixels (body j a) (body j b)) ->
  same_pixels fb1 fb2 ->
  same_pixels (for_range lo hi body fb1) (for_range lo hi body fb2).
Proof. intros Hbody H. unfold for_range. now apply for_loop_same. Qed.

(** One step through a drawing routine run on two framebuffers: name a
    [let], split a test, or go through a store or a loop. *)
Ltac same_let_inline :=
  lazymatch goal with
  | |- same_pixels (let x := ?u in @?B x) (let y := ?v in @?B' y) =>
      change (same_pixels (B u) (B' v)); cbv beta
  end.

Ltac same_let :=
  lazymatch goal with
  | |- same_pixels (let x := ?u in _) (let y := ?v in _) =>
      lazymatch type of u with
      | fbuf =>
          let H := fresh "Hpx" in
          assert (H : same_pixels u v);
          [ | revert H; generalize u, v; intros ? ? H; same_let_inline ]
      | _ => same_let_inline
      end
  end.

Ltac same_if :=
  lazymatch goal with
  | |- same_pixels (if ?c then _ else _) (if ?c then _ else _) => destruct c
  | |- same_pixels (match ?c with _ => _ end) (match ?c with _ => _ end) =>
      destruct c
  end.

(** The stores and loops, matched by their head; [prims] applies the
    lemmas of the routines already gone through. *)
Ltac same_px prims :=
  repeat first
    [ assumption
    | same_let
    | same_if
    | lazymatch goal with
      | |- same_pixels (fb_store _ _ _) (fb_store _ _ _) =>
          apply fb_store_same
      | |- same_pixels (for_range _ _ _ _) (for_range _ _ _ _) =>
          apply for_range_same; [intros ? ? ? ? |]
      | |- same_pixels (for_loop _ _ _ _ _) (for_loop _ _ _ _ _) =>
          apply for_loop_same; [intros ? ? ? ? |]
      end
    | prims ].

Section BootPurity.

Variable font8x8_basic : Z -> Z -> Z.
Variable MASCOT_W MASCOT_H : Z.
Variable mascot_pixels : Z -> Z.

Local Abbreviation glyph := (render_glyph font8x8_basic).
Local Abbreviation draw_text := (render_text font8x8_basic).
Local Abbreviation boot :=
  (render_boot font8x8_basic MASCOT_W MASCOT_H mascot_pixels).

Lemma render_glyph_same px py ch color fb1 fb2 :
  same_pixels fb1 fb2 ->
  same_pixels (glyph px py ch color fb1) (glyph px py ch color fb2).
Proof. intros H. unfold render_glyph. same_px fail. Qed.

Lemma fill_rect_same x0 y0 x1 y1 color fb1 fb2 :
  same_pixels fb1 fb2 ->
  same_pixels (fill_rect x0 y0 x1 y1 color fb1) (fill_rect x0 y0 x1 y1 color fb2).
Proof. intros H. unfold fill_rect. same_px fail. Qed.

Lemma text_loop_same scol py col color str : forall i fb1 fb2,
  same_pixels fb1 fb2 ->
  same_pixels (text_loop font8x8_basic i scol py col str color fb1)
    (text_loop font8x8_basic i scol py col str color fb2).
Proof.
  induction str as [| ch rest IH]; intros i fb1 fb2 H; cbn [text_loop].
  - exact H.
  - destruct (col + i <? TEXT_COLS); [| exact H].
    cbv zeta. apply IH. now apply render_glyph_same.
Qed.

Lemma render_text_same col row str color fb1 fb2 :
  same_pixels fb1 fb2 ->
  same_pixels (draw_text col row str color fb1) (draw_text col row str color fb2).
Proof. intros H. unfold render_text. cbv zeta. now apply text_loop_same. Qed.

Lemma type_line_same str col row avail color fb1 fb2 :
  same_pixels fb1 fb2 ->
  same_pixels (snd (type_line font8x8_basic str col row avail color fb1))
    (snd (type_line font8x8_basic str col row avail color fb2)).
Proof.
  intros H. unfold type_line. cbv zeta. cbn [snd].
  destruct (0 <? avail); [| exact H]. now apply render_text_same.
Qed.

Lemma blink_cursor_same col row frame fb1 fb2 :
  same_pixels fb1 fb2 ->
  same_pixels (blink_cursor col row frame fb1) (blink_cursor col row frame fb2).
Proof.
  intros H. unfold blink_cursor. same_px ltac:(idtac; lazymatch goal with
    | |- same_pixels (fill_rect _ _ _ _ _ _) (fill_rect _ _ _ _ _ _) =>
        apply fill_rect_same
    end).
Qed.

Lemma render_mascot_same cx cy alpha fb1 fb2 :
  same_pixels fb1 fb2 ->
  same_pixels (render_mascot MASCOT_W MASCOT_H mascot_pixels cx cy alpha fb1)
    (render_mascot MASCOT_W MASCOT_H mascot_pixels cx cy alpha fb2).
Proof. intros H. unfold render_mascot. same_px fail. Qed.

Lemma render_loading_bar_same cy progress fb1 fb2 :
  same_pixels fb1 fb2 ->
  same_pixels (render_loading_bar cy progress fb1)
    (render_loading_bar cy progress fb2).
Proof.
  intros H. unfold render_loading_bar. same_px ltac:(idtac; lazymatch goal with
    | |- same_pixels (fill_rect _ _ _ _ _ _) (fill_rect _ _ _ _ _ _) =>
        apply fill_rect_same
    end).
Qed.

(** The clearing loop writes every pixel of the array. *)
Lemma clear_loop_pixel c : forall n i0 fb j,
  for_loop n i0 (fun _ => true) (fun i fb => fb_store fb i c) fb j
  = if (i0 <=? j) && (j <? i0 + Z.of_nat n) then c else fb j.
Proof.
  induction n as [| n IH]; intros i0 fb j; cbn [for_loop].
  - destruct (Z.leb_spec i0 j), (Z.ltb_spec j (i0 + Z.of_nat 0)); cbn; lia || reflexivity.
  - rewrite IH. unfold fb_store.
    destruct (Z.leb_spec (i0 + 1) j), (Z.ltb_spec j (i0 + 1 + Z.of_nat n)),
      (Z.leb_spec i0 j), (Z.ltb_spec j (i0 + Z.of_nat (S n))),
      (Z.eqb_spec j i0); cbn; lia || reflexivity.
Qed.

(** [render_clear] forgets the framebuffer it is given. *)
Lemma render_clear_same fb1 fb2 :
  same_pixels (render_clear fb1) (render_clear fb2).
Proof.
  unfold render_clear. cbv zeta. apply fill_rect_same.
  intros j Hj. unfold for_range. rewrite !clear_loop_pixel.
  rewrite Z2Nat.id by (unfold SCREEN_W, SCREEN_H; lia).
  destruct (Z.leb_spec 0 j), (Z.ltb_spec j (0 + (SCREEN_W * SCREEN_H - 0)));
    cbn; lia || reflexivity.
Qed.

Lemma render_boot_same frame fb1 fb2 :
  same_pixels (boot frame fb1) (boot frame fb2).
Proof.
  cbv beta delta [render_boot].
  same_px ltac:(idtac; lazymatch goal with
    | |- same_pixels (render_clear _) (render_clear _) =>
        apply render_clear_same
    | |- same_pixels (render_text _ _ _ _ _ _) (render_text _ _ _ _ _ _) =>
        apply render_text_same
    | |- same_pixels (snd (type_line _ _ _ _ _ _ _)) (snd (type_line _ _ _ _ _ _ _)) =>
        apply type_line_same
    | |- same_pixels (blink_cursor _ _ _ _) (blink_cursor _ _ _ _) =>
        apply blink_cursor_same
    | |- same_pixels (render_mascot _ _ _ _ _ _ _) (render_mascot _ _ _ _ _ _ _) =>
        apply render_mascot_same
    | |- same_pixels (render_loading_bar _ _ _) (render_loading_bar _ _ _) =>
        apply render_loading_bar_same
    end).
Qed.

(** C8.  For every frame counter in [0, 600), [render_boot] run on any
    two starting framebuffers leaves the same pixel in every cell of the
    [SCREEN_W * SCREEN_H] array: its output is a function of the frame
    counter (and of the baked glyph and sprite tables) alone. *)
Theorem render_boot_function_of_frame frame fb1 fb2 :
  0 <= frame < BOOT_FRAMES ->
  same_pixels (boot frame fb1) (boot frame fb2).
Proof. intros _. apply render_boot_same. Qed.

End BootPurity.

Lemma render_boot_function_of_frame_witness :
  same_pixels (render_boot sample_font 2 2 sample_mascot 5 (fun _ => 0))
    (render_boot sample_font 2 2 sample_mascot 5 (fun i => i)).
Proof.
  apply (render_boot_function_of_frame sample_font 2 2 sample_mascot 5).
  unfold BOOT_FRAMES. lia.
Defined.

(* ================================================================== *)
(** * The frame entry point: boot and the unloaded core *)

Lemma any_btn_from_true pad : forall n i,
  any_btn_from n i pad = true <->
  exists j, i <= j < i + Z.of_nat n /\ pad j <> 0.
Proof.
  induction n as [| n IH]; intros i; cbn [any_btn_from].
  - split; [discriminate | intros (j & Hj & _); lia].
  - destruct (Z.eqb_spec (pad i) 0) as [Hz | Hnz]; cbn [negb].
    + rewrite IH. split; intros (j & Hj & Hp).
      * exists j. split; [lia | exact Hp].
      * exists j. split; [| exact Hp].
        assert (j <> i) by congruence. lia.
    + split; [intros _ | reflexivity]. exists i. split; [lia | exact Hnz].
Qed.

Lemma any_btn_pressed_true pad :
  any_btn_pressed pad = true <->
  exists j, 0 <= j < BTN_COUNT /\ pad j <> 0.
Proof.
  unfold any_btn_pressed. rewrite any_btn_from_true.
  unfold BTN_COUNT. cbn. reflexivity.
Qed.

Section FrameEntry.

Variable font8x8_basic : Z -> Z -> Z.
Variable MASCOT_W MASCOT_H : Z.
Variable mascot_pixels : Z -> Z.
Variable WIKI_PAGE_COUNT : Z.
Variable wiki_pages : list wiki_page_t.

Local Abbreviation run :=
  (retro_run font8x8_basic MASCOT_W MASCOT_H mascot_pixels
     WIKI_PAGE_COUNT wiki_pages).

(** A boot frame leaves for the table of contents exactly when the
    incremented boot timer has reached [BOOT_FRAMES] or some button reads
    down; it then zeroes the whole counter array, and otherwise stays in
    boot. *)
Lemma boot_frame_transition pad s :
  game_loaded s = true ->
  state s = STATE_BOOT ->
  let s' := fst (run pad s) in
  boot_timer s' = boot_timer s + 1 /\
  (state s' = STATE_TOC <->
   BOOT_FRAMES <= boot_timer s + 1 \/
   exists j, 0 <= j < BTN_COUNT /\ pad j <> 0) /\
  (state s' = STATE_TOC ->
   held_frames s' = replicate (Z.to_nat BTN_COUNT) 0) /\
  (state s' <> STATE_TOC -> state s' = STATE_BOOT).
Proof.
  intros Hgl Hst. unfold retro_run. rewrite Hgl, Hst. cbn [negb fst].
  unfold run_boot. cbv zeta.
  rewrite <- any_btn_pressed_true.
  destruct s as [fb st gl bt tc ts cp ps hf]. cbn in *. subst.
  destruct (Z.leb_spec BOOT_FRAMES (bt + 1)) as [Hb | Hb];
    destruct (any_btn_pressed pad); cbn;
    repeat split; try reflexivity; try discriminate; try tauto;
    try (intros [? | ?]; (lia || discriminate)); try congruence.
Qed.

(** Once the counters are zero, a button that reads down on the first
    frame of the table of contents fires there as an initial press. *)
Lemma held_button_fires_after_boot pad s btn :
  held_frames s = replicate (Z.to_nat BTN_COUNT) 0 ->
  0 <= btn < BTN_COUNT ->
  pad btn <> 0 ->
  fires pad btn s = true.
Proof.
  intros Hh Hbtn Hpad.
  assert (Hlen : (Z.to_nat btn < length (held_frames s))%nat).
  { rewrite Hh, length_replicate. unfold BTN_COUNT in *. lia. }
  rewrite fires_eq by exact Hlen.
  apply Z.eqb_neq in Hpad. rewrite Hpad. cbn [negb andb].
  unfold held. rewrite Hh.
  rewrite lookup_total_replicate_2 by (unfold BTN_COUNT in *; lia).
  reflexivity.
Qed.

(** C10.  With no game loaded, [retro_run] returns the globals as they
    were and calls nothing on the host: no input poll, no video refresh,
    no audio batch.  No game is loaded in the initial globals, after
    [retro_init], after [retro_unload_game], and after a load that fails
    on globals without a game. *)
Theorem retro_run_without_game :
  (forall pad s, game_loaded s = false -> run pad s = (s, [])) /\
  game_loaded core_initial = false /\
  (forall s, game_loaded (retro_init s) = game_loaded s) /\
  (forall s, game_loaded (retro_unload_game s) = false) /\
  (forall info_ok fmt_ok s,
      fst (retro_load_game info_ok fmt_ok s) = false ->
      snd (retro_load_game info_ok fmt_ok s) = s).
Proof.
  repeat split.
  - intros pad s H. unfold retro_run. now rewrite H.
  - intros [] [] s; cbn; intros H; discriminate || reflexivity.
Qed.

End FrameEntry.

(** The end-to-end walk of the specification on the three-document
    catalog: boot skipped by a one-frame press at frame 5, Down twice,
    Accept, Back, every press lasting one frame. *)
Example end_to_end_session :
  let run := run_frames sample_font 2 2 sample_mascot 3 three_pages in
  let idle := pad_none in
  let s0 := snd (retro_load_game true true core_initial) in
  let s1 := run [idle; idle; idle; idle; pad_only RETRO_DEVICE_ID_JOYPAD_SELECT] s0 in
  let s2 := run [idle; pad_only RETRO_DEVICE_ID_JOYPAD_DOWN;
                 idle; pad_only RETRO_DEVICE_ID_JOYPAD_DOWN] s1 in
  let s3 := run [idle; pad_only RETRO_DEVICE_ID_JOYPAD_A] s2 in
  let s4 := run [idle; pad_only RETRO_DEVICE_ID_JOYPAD_B] s3 in
  (state s0, boot_timer s0) = (STATE_BOOT, 0) /\
  (state s1, toc_cursor s1, toc_scroll s1) = (STATE_TOC, 0, 0) /\
  toc_cursor s2 = 2 /\
  (state s3, current_page s3, page_scroll s3) = (STATE_PAGE, 2, 0) /\
  (state s4, toc_cursor s4, toc_scroll s4) = (STATE_TOC, 2, 0).
Proof. lazy. repeat split. Qed.

(** C9 on the code.  On the three-document catalog, a frame of boot in
    which A reads down leaves boot for the table of contents with every
    counter at zero; when A still reads down on the next frame, it fires
    there as an initial press and that frame opens document 0: the press
    that skipped the boot screen is taken as input by the table of
    contents. *)
Theorem boot_skip_press_fires_in_contents :
  let pad := pad_only RETRO_DEVICE_ID_JOYPAD_A in
  let run := retro_run sample_font 2 2 sample_mascot 3 three_pages in
  let s0 := snd (retro_load_game true true core_initial) in
  let s1 := fst (run pad s0) in
  let s2 := fst (run pad s1) in
  state s0 = STATE_BOOT /\
  state s1 = STATE_TOC /\
  held_frames s1 = replicate (Z.to_nat BTN_COUNT) 0 /\
  fires pad RETRO_DEVICE_ID_JOYPAD_A s1 = true /\
  state s2 = STATE_PAGE /\ current_page s2 = 0.
Proof. lazy. repeat split. Qed.

Lemma retro_run_without_game_witness :
  retro_run sample_font 2 2 sample_mascot 3 three_pages
    (pad_only RETRO_DEVICE_ID_JOYPAD_A) core_initial = (core_initial, []).
Proof.
  apply (retro_run_without_game sample_font 2 2 sample_mascot 3 three_pages).
  reflexivity.
Defined.

(* ================================================================== *)
(** * Button counters across a frame *)

Section CounterFacts.

Variable WIKI_PAGE_COUNT : Z.
Variable wiki_pages : list wiki_page_t.

Implicit Types (pad : joypad) (s t : core) (btn : Z) (f : core -> core).

Lemma held_nav_only f s btn : nav_only f -> held (f s) btn = held s btn.
Proof. intros Hf. unfold held. now rewrite nav_only_held_frames. Qed.

Lemma held_sampled_same pad btn s :
  (Z.to_nat btn < length (held_frames s))%nat ->
  held (sampled pad btn s) btn = next_count pad btn s.
Proof. intros H. rewrite sampled_eq. now apply held_set_held_same. Qed.

Lemma held_sampled_other pad btn btn' s :
  Z.to_nat btn <> Z.to_nat btn' ->
  held (sampled pad btn s) btn' = held s btn'.
Proof. intros H. rewrite sampled_eq. now apply held_set_held_other. Qed.

Lemma length_sampled pad btn s :
  length (held_frames (sampled pad btn s)) = length (held_frames s).
Proof. rewrite sampled_eq. apply length_set_held. Qed.

Lemma length_after_block pad btn f s :
  nav_only f ->
  length (held_frames (after_block pad btn f s)) = length (held_frames s).
Proof.
  intros Hf. unfold after_block. destruct (fires pad btn s).
  - rewrite nav_only_held_frames by assumption. apply length_sampled.
  - apply length_sampled.
Qed.

Lemma held_after_block_same pad btn f s :
  nav_only f ->
  (Z.to_nat btn < length (held_frames s))%nat ->
  held (after_block pad btn f s) btn = next_count pad btn s.
Proof.
  intros Hf Hlen. unfold after_block. destruct (fires pad btn s).
  - rewrite held_nav_only by assumption. now apply held_sampled_same.
  - now apply held_sampled_same.
Qed.

Lemma held_after_block_other pad btn btn' f s :
  nav_only f ->
  Z.to_nat btn <> Z.to_nat btn' ->
  held (after_block pad btn f s) btn' = held s btn'.
Proof.
  intros Hf Hne. unfold after_block. destruct (fires pad btn s).
  - rewrite held_nav_only by assumption. now apply held_sampled_other.
  - now apply held_sampled_other.
Qed.

Lemma length_after_either pad a b f s :
  nav_only f ->
  length (held_frames (after_either pad a b f s)) = length (held_frames s).
Proof.
  intros Hf. unfold after_either.
  destruct (fires pad a s); [| destruct (fires pad b _)];
    rewrite ?nav_only_held_frames by assumption;
    rewrite ?length_sampled; reflexivity.
Qed.

Lemma held_after_either_first pad a b f s :
  nav_only f ->
  Z.to_nat a <> Z.to_nat b ->
  (Z.to_nat a < length (held_frames s))%nat ->
  held (after_either pad a b f s) a = next_count pad a s.
Proof.
  intros Hf Hne Hlen. unfold after_either.
  destruct (fires pad a s); [| destruct (fires pad b _)];
    rewrite ?held_nav_only by assumption;
    rewrite ?held_sampled_other by congruence;
    now apply held_sampled_same.
Qed.

Lemma held_after_either_second pad a b f s :
  nav_only f ->
  Z.to_nat a <> Z.to_nat b ->
  (Z.to_nat b < length (held_frames s))%nat ->
  held (after_either pad a b f s) b =
  if fires pad a s then held s b else next_count pad b s.
Proof.
  intros Hf Hne Hlen. unfold after_either.
  destruct (fires pad a s); [| destruct (fires pad b _)];
    rewrite ?held_nav_only by assumption.
  - now apply held_sampled_other.
  - rewrite held_sampled_same by now rewrite length_sampled.
    unfold next_count. now rewrite held_sampled_other.
  - rewrite held_sampled_same by now rewrite length_sampled.
    unfold next_count. now rewrite held_sampled_other.
Qed.

Lemma held_after_either_other pad a b c f s :
  nav_only f ->
  Z.to_nat a <> Z.to_nat c ->
  Z.to_nat b <> Z.to_nat c ->
  held (after_either pad a b f s) c = held s c.
Proof.
  intros Hf Ha Hb. unfold after_either.
  destruct (fires pad a s); [| destruct (fires pad b _)];
    rewrite ?held_nav_only by assumption;
    rewrite ?held_sampled_other by assumption; reflexivity.
Qed.

(** The handlers as the chain of their [if]s. *)
Lemma handle_toc_input_blocks pad s :
  snd (handle_toc_input WIKI_PAGE_COUNT pad s) =
  after_block pad RETRO_DEVICE_ID_JOYPAD_LEFT toc_left_open
    (after_either pad RETRO_DEVICE_ID_JOYPAD_A RETRO_DEVICE_ID_JOYPAD_RIGHT toc_open
       (after_block pad RETRO_DEVICE_ID_JOYPAD_R
          (toc_page_down WIKI_PAGE_COUNT (CONTENT_ROWS - 3))
          (after_block pad RETRO_DEVICE_ID_JOYPAD_L (toc_page_up (CONTENT_ROWS - 3))
             (after_block pad RETRO_DEVICE_ID_JOYPAD_DOWN
                (toc_step_down WIKI_PAGE_COUNT (CONTENT_ROWS - 3))
                (after_block pad RETRO_DEVICE_ID_JOYPAD_UP toc_step_up s))))).
Proof.
  unfold handle_toc_input. cbv zeta.
  rewrite !run_block, run_either, run_last_block. reflexivity.
Qed.

Lemma handle_page_input_blocks pad s :
  snd (handle_page_input WIKI_PAGE_COUNT wiki_pages pad s) =
  after_either pad RETRO_DEVICE_ID_JOYPAD_B RETRO_DEVICE_ID_JOYPAD_START page_back
    (after_block pad RETRO_DEVICE_ID_JOYPAD_RIGHT (page_next WIKI_PAGE_COUNT)
       (after_block pad RETRO_DEVICE_ID_JOYPAD_LEFT (page_prev WIKI_PAGE_COUNT)
          (after_block pad RETRO_DEVICE_ID_JOYPAD_R
             (page_page_down (page_max_scroll wiki_pages s))
             (after_block pad RETRO_DEVICE_ID_JOYPAD_L page_page_up
                (after_block pad RETRO_DEVICE_ID_JOYPAD_DOWN
                   (page_line_down (page_max_scroll wiki_pages s))
                   (after_block pad RETRO_DEVICE_ID_JOYPAD_UP page_line_up s)))))).
Proof.
  unfold handle_page_input. cbv zeta.
  rewrite !run_block, run_last_either. reflexivity.
Qed.

End CounterFacts.

Ltac button_ids :=
  unfold RETRO_DEVICE_ID_JOYPAD_B, RETRO_DEVICE_ID_JOYPAD_Y,
    RETRO_DEVICE_ID_JOYPAD_SELECT, RETRO_DEVICE_ID_JOYPAD_START,
    RETRO_DEVICE_ID_JOYPAD_UP, RETRO_DEVICE_ID_JOYPAD_DOWN,
    RETRO_DEVICE_ID_JOYPAD_LEFT, RETRO_DEVICE_ID_JOYPAD_RIGHT,
    RETRO_DEVICE_ID_JOYPAD_A, RETRO_DEVICE_ID_JOYPAD_X,
    RETRO_DEVICE_ID_JOYPAD_L, RETRO_DEVICE_ID_JOYPAD_R, BTN_COUNT in *.

Ltac nav_only_solve :=
  first [ apply nav_only_toc_step_up | apply nav_only_toc_step_down
        | apply nav_only_toc_page_up | apply nav_only_toc_page_down
        | apply nav_only_toc_open | apply nav_only_toc_left_open
        | apply nav_only_page_line_up | apply nav_only_page_line_down
        | apply nav_only_page_page_up | apply nav_only_page_page_down
        | apply nav_only_page_prev | apply nav_only_page_next
        | apply nav_only_page_back ].

(** Side conditions of a walk along the chain of [if]s of a handler. *)
Ltac chain_side :=
  first [ nav_only_solve
        | button_ids; cbn; lia
        | button_ids; cbn in *; tauto ].

Ltac chain_lengths :=
  repeat first [ rewrite length_after_block by nav_only_solve
               | rewrite length_after_either by nav_only_solve ].

Ltac chain_others :=
  repeat first [ rewrite held_after_block_other by chain_side
               | rewrite held_after_either_other by chain_side ].

Section FrameCounters.

Variable WIKI_PAGE_COUNT : Z.
Variable wiki_pages : list wiki_page_t.

Implicit Types (pad : joypad) (s t : core) (btn : Z).

Lemma fires_chain_toc pad btn s t :
  length (held_frames t) = length (held_frames s) ->
  held t btn = held s btn ->
  fires pad btn t = fires pad btn s.
Proof. intros. now apply fires_index. Qed.

(** The counters after a frame of each handler, button by button. *)
Lemma handler_counters pad s :
  length (held_frames s) = Z.to_nat BTN_COUNT ->
  (let s' := snd (handle_toc_input WIKI_PAGE_COUNT pad s) in
   (forall b,
       In b [RETRO_DEVICE_ID_JOYPAD_UP; RETRO_DEVICE_ID_JOYPAD_DOWN;
             RETRO_DEVICE_ID_JOYPAD_L; RETRO_DEVICE_ID_JOYPAD_R;
             RETRO_DEVICE_ID_JOYPAD_A; RETRO_DEVICE_ID_JOYPAD_LEFT] ->
       held s' b = next_count pad b s) /\
   held s' RETRO_DEVICE_ID_JOYPAD_RIGHT =
     (if fires pad RETRO_DEVICE_ID_JOYPAD_A s
      then held s RETRO_DEVICE_ID_JOYPAD_RIGHT
      else next_count pad RETRO_DEVICE_ID_JOYPAD_RIGHT s) /\
   (forall b, ~ In (Z.to_nat b) (map Z.to_nat toc_buttons) ->
              held s' b = held s b) /\
   length (held_frames s') = length (held_frames s)) /\
  (let s' := snd (handle_page_input WIKI_PAGE_COUNT wiki_pages pad s) in
   (forall b,
       In b [RETRO_DEVICE_ID_JOYPAD_UP; RETRO_DEVICE_ID_JOYPAD_DOWN;
             RETRO_DEVICE_ID_JOYPAD_L; RETRO_DEVICE_ID_JOYPAD_R;
             RETRO_DEVICE_ID_JOYPAD_LEFT; RETRO_DEVICE_ID_JOYPAD_RIGHT;
             RETRO_DEVICE_ID_JOYPAD_B] ->
       held s' b = next_count pad b s) /\
   held s' RETRO_DEVICE_ID_JOYPAD_START =
     (if fires pad RETRO_DEVICE_ID_JOYPAD_B s
      then held s RETRO_DEVICE_ID_JOYPAD_START
      else next_count pad RETRO_DEVICE_ID_JOYPAD_START s) /\
   (forall b, ~ In (Z.to_nat b) (map Z.to_nat page_buttons) ->
              held s' b = held s b) /\
   length (held_frames s') = length (held_frames s)).
Proof.
  intros Hlen.
  assert (Hin : forall b, 0 <= b < BTN_COUNT ->
                          (Z.to_nat b < length (held_frames s))%nat).
  { intros b Hb. rewrite Hlen. unfold BTN_COUNT in *. lia. }
  split; cbv zeta.
  - rewrite handle_toc_input_blocks.
    split; [| split; [| split]].
    + intros b Hb. cbn [In] in Hb.
      destruct Hb as [<- | [<- | [<- | [<- | [<- | [<- | []]]]]]];
        chain_others;
        first [ rewrite held_after_block_same
                  by (first [nav_only_solve | chain_lengths; apply Hin; button_ids; lia])
              | rewrite held_after_either_first
                  by (first [nav_only_solve | chain_lengths; apply Hin; button_ids; lia
                            | button_ids; cbn; lia]) ];
        unfold next_count; chain_others; reflexivity.
    + chain_others.
      rewrite held_after_either_second
        by (first [nav_only_solve | chain_lengths; apply Hin; button_ids; lia
                  | button_ids; cbn; lia]).
      rewrite (fires_chain_toc pad RETRO_DEVICE_ID_JOYPAD_A s)
        by (chain_lengths; chain_others; reflexivity).
      unfold next_count. chain_others. reflexivity.
    + intros b Hb. chain_others. reflexivity.
    + chain_lengths. reflexivity.
  - rewrite handle_page_input_blocks.
    split; [| split; [| split]].
    + intros b Hb. cbn [In] in Hb.
      destruct Hb as [<- | [<- | [<- | [<- | [<- | [<- | [<- | []]]]]]]];
        chain_others;
        first [ rewrite held_after_block_same
                  by (first [nav_only_solve | chain_lengths; apply Hin; button_ids; lia])
              | rewrite held_after_either_first
                  by (first [nav_only_solve | chain_lengths; apply Hin; button_ids; lia
                            | button_ids; cbn; lia]) ];
        unfold next_count; chain_others; reflexivity.
    + rewrite held_after_either_second
        by (first [nav_only_solve | chain_lengths; apply Hin; button_ids; lia
                  | button_ids; cbn; lia]).
      rewrite (fires_chain_toc pad RETRO_DEVICE_ID_JOYPAD_B s)
        by (chain_lengths; chain_others; reflexivity).
      unfold next_count. chain_others. reflexivity.
    + intros b Hb. chain_others. reflexivity.
    + chain_lengths. reflexivity.
Qed.

(** X1.  Counters across one frame of a handler, with the 16-entry
    array.  In the table of contents Up, Down, L, R, A and Left are
    sampled in every frame: their counter becomes one more when the button
    reads down and zero when it reads up.  Right is sampled only when A did
    not fire, and keeps its counter otherwise.  Every other button keeps
    its counter.  In the viewer the same holds with Up, Down, L, R, Left,
    Right and B always sampled and Start sampled only when B did not
    fire. *)
Theorem frame_counters pad s :
  length (held_frames s) = Z.to_nat BTN_COUNT ->
  (let s' := snd (handle_toc_input WIKI_PAGE_COUNT pad s) in
   (forall b,
       In b [RETRO_DEVICE_ID_JOYPAD_UP; RETRO_DEVICE_ID_JOYPAD_DOWN;
             RETRO_DEVICE_ID_JOYPAD_L; RETRO_DEVICE_ID_JOYPAD_R;
             RETRO_DEVICE_ID_JOYPAD_A; RETRO_DEVICE_ID_JOYPAD_LEFT] ->
       held s' b = next_count pad b s) /\
   held s' RETRO_DEVICE_ID_JOYPAD_RIGHT =
     (if fires pad RETRO_DEVICE_ID_JOYPAD_A s
      then held s RETRO_DEVICE_ID_JOYPAD_RIGHT
      else next_count pad RETRO_DEVICE_ID_JOYPAD_RIGHT s) /\
   (forall b, ~ In (Z.to_nat b) (map Z.to_nat toc_buttons) ->
              held s' b = held s b) /\
   length (held_frames s') = length (held_frames s)) /\
  (let s' := snd (handle_page_input WIKI_PAGE_COUNT wiki_pages pad s) in
   (forall b,
       In b [RETRO_DEVICE_ID_JOYPAD_UP; RETRO_DEVICE_ID_JOYPAD_DOWN;
             RETRO_DEVICE_ID_JOYPAD_L; RETRO_DEVICE_ID_JOYPAD_R;
             RETRO_DEVICE_ID_JOYPAD_LEFT; RETRO_DEVICE_ID_JOYPAD_RIGHT;
             RETRO_DEVICE_ID_JOYPAD_B] ->
       held s' b = next_count pad b s) /\
   held s' RETRO_DEVICE_ID_JOYPAD_START =
     (if fires pad RETRO_DEVICE_ID_JOYPAD_B s
      then held s RETRO_DEVICE_ID_JOYPAD_START
      else next_count pad RETRO_DEVICE_ID_JOYPAD_START s) /\
   (forall b, ~ In (Z.to_nat b) (map Z.to_nat page_buttons) ->
              held s' b = held s b) /\
   length (held_frames s') = length (held_frames s)).
Proof. exact (handler_counters pad s). Qed.

(** Over a frame of a handler every counter is kept, zeroed or counted up
    once: no button is sampled twice. *)
Lemma handler_counter_cases pad s :
  length (held_frames s) = Z.to_nat BTN_COUNT ->
  forall s',
    s' = snd (handle_toc_input WIKI_PAGE_COUNT pad s) \/
    s' = snd (handle_page_input WIKI_PAGE_COUNT wiki_pages pad s) ->
    length (held_frames s') = length (held_frames s) /\
    forall b, 0 <= b ->
      held s' b = held s b \/ held s' b = 0 \/
      held s' b = wrap_int (held s b + 1).
Proof.
  intros Hlen s' Hs'.
  destruct (handler_counters pad s Hlen) as [Ht Hp]. cbv zeta in Ht, Hp.
  assert (Hnext : forall b, next_count pad b s = 0 \/
                            next_count pad b s = wrap_int (held s b + 1)).
  { intros b. unfold next_count. destruct (pad b =? 0); tauto. }
  destruct Hs' as [-> | ->].
  - destruct Ht as (Hsame & Hright & Hother & Hl). split; [exact Hl |].
    intros b Hb.
    destruct (in_dec Nat.eq_dec (Z.to_nat b) (map Z.to_nat toc_buttons))
      as [Hi | Hi]; [| left; now apply Hother].
    cbn [In map toc_buttons] in Hi.
    repeat match type of Hi with
           | _ \/ _ => destruct Hi as [Hi | Hi]
           end;
      try contradiction;
      apply Z2Nat.inj in Hi; try (button_ids; lia); subst b.
    all: try (rewrite Hsame by (cbn; tauto); right; apply Hnext).
    rewrite Hright.
    destruct (fires pad RETRO_DEVICE_ID_JOYPAD_A s);
      [left; reflexivity | right; apply Hnext].
  - destruct Hp as (Hsame & Hstart & Hother & Hl). split; [exact Hl |].
    intros b Hb.
    destruct (in_dec Nat.eq_dec (Z.to_nat b) (map Z.to_nat page_buttons))
      as [Hi | Hi]; [| left; now apply Hother].
    cbn [In map page_buttons] in Hi.
    repeat match type of Hi with
           | _ \/ _ => destruct Hi as [Hi | Hi]
           end;
      try contradiction;
      apply Z2Nat.inj in Hi; try (button_ids; lia); subst b.
    all: try (rewrite Hsame by (cbn; tauto); right; apply Hnext).
    rewrite Hstart.
    destruct (fires pad RETRO_DEVICE_ID_JOYPAD_B s);
      [left; reflexivity | right; apply Hnext].
Qed.

End FrameCounters.

(* ================================================================== *)
(** * Sessions: what every frame keeps *)

Ltac open_moves :=
  unfold nav_inv, cursor_visible, page_max_scroll, toc_step_up, toc_step_down,
    toc_page_up, toc_page_down, toc_open, toc_left_open, page_line_up,
    page_line_down, page_page_up, page_page_down, page_prev, page_next,
    page_back, set_state, set_toc_cursor, set_toc_scroll, set_current_page,
    set_page_scroll, CONTENT_ROWS in *;
  cbn in *.

Ltac moves_arith := open_moves; split_tests; repeat split; try reflexivity; try lia.

Lemma keeps_if (P : core -> Prop) (c : bool) (f : core -> core) s :
  (forall s, P s -> P (f s)) -> P s -> P (if c then f s else s).
Proof. intros Hf H. destruct c; auto. Qed.

Lemma fires_up pad btn s : pad btn = 0 -> fires pad btn s = false.
Proof. intros H. unfold fires, btn_pressed. now rewrite H. Qed.

Section SessionFacts.

Variable font8x8_basic : Z -> Z -> Z.
Variable MASCOT_W MASCOT_H : Z.
Variable mascot_pixels : Z -> Z.
Variable WIKI_PAGE_COUNT : Z.
Variable wiki_pages : list wiki_page_t.

Local Abbreviation inv := (nav_inv WIKI_PAGE_COUNT wiki_pages).
Local Abbreviation run :=
  (retro_run font8x8_basic MASCOT_W MASCOT_H mascot_pixels
     WIKI_PAGE_COUNT wiki_pages).
Local Abbreviation frames :=
  (run_frames font8x8_basic MASCOT_W MASCOT_H mascot_pixels
     WIKI_PAGE_COUNT wiki_pages).
Local Abbreviation reach :=
  (reachable font8x8_basic MASCOT_W MASCOT_H mascot_pixels
     WIKI_PAGE_COUNT wiki_pages).

Implicit Types (pad : joypad) (s t : core).

(** A frame as the handler of its state, up to the framebuffer. *)
Lemma retro_run_toc pad s :
  game_loaded s = true -> state s = STATE_TOC ->
  exists fb, fst (run pad s)
             = set_framebuffer fb (snd (handle_toc_input WIKI_PAGE_COUNT pad s)).
Proof.
  intros Hgl Hst. unfold retro_run. rewrite Hgl, Hst. cbn [negb fst].
  unfold run_toc. cbv zeta. eexists. reflexivity.
Qed.

Lemma retro_run_page pad s :
  game_loaded s = true -> state s = STATE_PAGE ->
  exists fb, fst (run pad s)
             = set_framebuffer fb
                 (snd (handle_page_input WIKI_PAGE_COUNT wiki_pages pad s)).
Proof.
  intros Hgl Hst. unfold retro_run. rewrite Hgl, Hst. cbn [negb fst].
  unfold run_page. cbv zeta. eexists. reflexivity.
Qed.

Lemma retro_run_boot pad s :
  game_loaded s = true -> state s = STATE_BOOT ->
  exists fb, fst (run pad s)
             = set_framebuffer fb
                 (let s1 := set_boot_timer (boot_timer s + 1) s in
                  if (BOOT_FRAMES <=? boot_timer s + 1) || any_btn_pressed pad
                  then clear_held_frames (set_state STATE_TOC s1) else s1).
Proof.
  intros Hgl Hst. unfold retro_run. rewrite Hgl, Hst. cbn [negb fst].
  unfold run_boot. cbv zeta.
  destruct s as [fb st gl bt tc ts cp ps hf]. unfold set_boot_timer at 1 2.
  cbn [boot_timer].
  destruct (_ || _); eexists; reflexivity.
Qed.

Lemma retro_run_unloaded pad s :
  game_loaded s = false -> fst (run pad s) = s.
Proof. intros H. unfold retro_run. now rewrite H. Qed.

(** ** The counter array *)

Lemma counters_upto_more k k' s :
  k <= k' -> counters_upto k s -> counters_upto k' s.
Proof.
  intros Hk [Hlen Hall]. split; [exact Hlen |].
  eapply Forall_impl; [exact Hall |]. intros c Hc. cbv beta in Hc |- *. lia.
Qed.

Lemma counters_upto_cleared s : counters_upto 0 (clear_held_frames s).
Proof.
  unfold counters_upto, clear_held_frames. cbn. split.
  - now rewrite length_replicate.
  - apply Forall_replicate. lia.
Qed.

(** Counters that a frame keeps, zeroes or counts up once stay between 0
    and one more than their bound, as long as the bound is below
    [INT_MAX]. *)
Lemma counters_upto_step k s s' :
  0 <= k < INT_MAX ->
  counters_upto k s ->
  length (held_frames s') = length (held_frames s) ->
  (forall b, 0 <= b ->
     held s' b = held s b \/ held s' b = 0 \/
     held s' b = wrap_int (held s b + 1)) ->
  counters_upto (k + 1) s'.
Proof.
  intros Hk [Hlen Hall] Hl Hcases. split; [now rewrite Hl |].
  apply Forall_lookup_2. intros i x Hix.
  assert (Hi : (i < length (held_frames s))%nat).
  { rewrite <- Hl. eapply lookup_lt_Some. exact Hix. }
  assert (Hx : x = held s' (Z.of_nat i)).
  { unfold held. rewrite Nat2Z.id. symmetry.
    now apply list_lookup_total_correct. }
  assert (Hold : 0 <= held s (Z.of_nat i) <= k).
  { unfold held. rewrite Nat2Z.id.
    destruct (lookup_lt_is_Some_2 _ _ Hi) as [c Hc].
    rewrite (list_lookup_total_correct _ _ _ Hc).
    exact (Forall_lookup_1 _ _ _ _ Hall Hc). }
  subst x. cbv beta.
  destruct (Hcases (Z.of_nat i) (Nat2Z.is_nonneg i)) as [-> | [-> | ->]];
    [lia | lia |].
  rewrite wrap_int_small; unfold INT_MIN, INT_MAX in *; lia.
Qed.

Lemma retro_run_counters_upto pad s k :
  0 <= k < INT_MAX ->
  counters_upto k s -> counters_upto (k + 1) (fst (run pad s)).
Proof.
  intros Hk H.
  assert (Hmore : counters_upto (k + 1) s)
    by (apply (counters_upto_more k); [lia | exact H]).
  destruct (game_loaded s) eqn:Hgl;
    [| now rewrite retro_run_unloaded].
  destruct (state s) eqn:Hst.
  - destruct (retro_run_boot pad s Hgl Hst) as [fb ->].
    change (counters_upto (k + 1) (set_framebuffer fb ?x))
      with (counters_upto (k + 1) x).
    cbv zeta.
    destruct (_ || _); [| exact Hmore].
    apply (counters_upto_more 0); [lia | apply counters_upto_cleared].
  - destruct (retro_run_toc pad s Hgl Hst) as [fb ->].
    change (counters_upto (k + 1) (set_framebuffer fb ?x))
      with (counters_upto (k + 1) x).
    destruct (handler_counter_cases WIKI_PAGE_COUNT wiki_pages pad s (proj1 H)
                _ (or_introl eq_refl)) as [Hl Hc].
    exact (counters_upto_step k s _ Hk H Hl Hc).
  - destruct (retro_run_page pad s Hgl Hst) as [fb ->].
    change (counters_upto (k + 1) (set_framebuffer fb ?x))
      with (counters_upto (k + 1) x).
    destruct (handler_counter_cases WIKI_PAGE_COUNT wiki_pages pad s (proj1 H)
                _ (or_intror eq_refl)) as [Hl Hc].
    exact (counters_upto_step k s _ Hk H Hl Hc).
Qed.

Lemma run_frames_counters_upto pads : forall s k,
  0 <= k ->
  k + Z.of_nat (length pads) <= INT_MAX ->
  counters_upto k s ->
  counters_upto (k + Z.of_nat (length pads)) (frames pads s).
Proof.
  induction pads as [| pad rest IH]; intros s k Hk Hn H.
  - cbn [length]. now rewrite Z.add_0_r.
  - change (frames (pad :: rest) s) with (frames rest (fst (run pad s))).
    change (length (pad :: rest)) with (S (length rest)) in Hn |- *.
    replace (k + Z.of_nat (S (length rest)))
      with (k + 1 + Z.of_nat (length rest)) by lia.
    apply IH; [lia | lia |].
    apply retro_run_counters_upto; [lia | exact H].
Qed.

(** X2.  The held-frame counters count frames: a frame takes counters
    between 0 and [k] to counters between 0 and [k + 1], for [k] below
    [INT_MAX], and keeps the [BTN_COUNT] entries of the array.  The
    counters are all 0 after [retro_init], after a successful
    [retro_load_game] and in the initial globals, and [retro_reset] and
    [retro_unload_game] keep them.  So in a session of at most [INT_MAX]
    frames from cleared counters no counter is negative and none exceeds
    the number of frames run. *)
Theorem counters_stay_well_formed :
  (forall pad s k,
      0 <= k < INT_MAX ->
      counters_upto k s -> counters_upto (k + 1) (fst (run pad s))) /\
  (forall pads s,
      Z.of_nat (length pads) <= INT_MAX ->
      counters_upto 0 s ->
      counters_upto (Z.of_nat (length pads)) (frames pads s)) /\
  (forall s, counters_upto 0 (retro_init s)) /\
  (forall s, counters_upto 0 (snd (retro_load_game true true s))) /\
  counters_upto 0 core_initial /\
  (forall k s,
      counters_upto k s ->
      counters_upto k (retro_reset s) /\
      counters_upto k (retro_unload_game s)).
Proof.
  split; [| split; [| split; [| split; [| split]]]].
  - intros pad s k. apply retro_run_counters_upto.
  - intros pads s Hn H.
    exact (run_frames_counters_upto pads s 0 (Z.le_refl 0) Hn H).
  - intros s. unfold retro_init. cbv zeta. apply counters_upto_cleared.
  - intros s. unfold counters_upto. cbn. split.
    + now rewrite length_replicate.
    + apply Forall_replicate. lia.
  - unfold counters_upto, core_initial. cbn. split.
    + now rewrite length_replicate.
    + apply Forall_replicate. lia.
  - intros k s H. split; exact H.
Qed.

End SessionFacts.

(* ================================================================== *)
(** * The cursor row stays on the screen *)

Section SessionMoves.

Variable font8x8_basic : Z -> Z -> Z.
Variable MASCOT_W MASCOT_H : Z.
Variable mascot_pixels : Z -> Z.
Variable WIKI_PAGE_COUNT : Z.
Variable wiki_pages : list wiki_page_t.

Local Abbreviation inv := (nav_inv WIKI_PAGE_COUNT wiki_pages).
Local Abbreviation op_on := (apply_op WIKI_PAGE_COUNT wiki_pages).
Local Abbreviation run :=
  (retro_run font8x8_basic MASCOT_W MASCOT_H mascot_pixels
     WIKI_PAGE_COUNT wiki_pages).
Local Abbreviation frames :=
  (run_frames font8x8_basic MASCOT_W MASCOT_H mascot_pixels
     WIKI_PAGE_COUNT wiki_pages).
Local Abbreviation reach :=
  (reachable font8x8_basic MASCOT_W MASCOT_H mascot_pixels
     WIKI_PAGE_COUNT wiki_pages).

Implicit Types (pad : joypad) (s t : core).

(** ** The cursor row stays on screen *)

Lemma apply_op_visible op s :
  inv s -> cursor_visible s -> cursor_visible (op_on op s).
Proof.
  destruct s as [fb st gl bt tc ts cp ps hf].
  intros Hi Hv; destruct op; unfold apply_op; moves_arith.
Qed.

Lemma page_back_visible s : cursor_visible (page_back s).
Proof. destruct s as [fb st gl bt tc ts cp ps hf]. moves_arith. Qed.

Lemma visible_touched bs t s' : touched bs t s' -> cursor_visible t -> cursor_visible s'.
Proof. intros ([h ->] & _) H. exact H. Qed.

Hypothesis catalog_nonempty : 1 <= WIKI_PAGE_COUNT.

Local Abbreviation both s := (inv s /\ cursor_visible s).

Lemma apply_op_both op s : both s -> both (op_on op s).
Proof.
  intros [Hi Hv]. split.
  - now apply apply_op_inv.
  - now apply apply_op_visible.
Qed.

Lemma toc_frame_both pad s : both s -> both (toc_frame WIKI_PAGE_COUNT pad s).
Proof.
  intros H. unfold toc_frame, toc_moves. cbv zeta.
  apply (keeps_if (fun s => both s)); [exact (apply_op_both TocLeftOpen) |].
  apply (keeps_if (fun s => both s)); [exact (apply_op_both TocOpen) |].
  apply (keeps_if (fun s => both s)); [exact (apply_op_both TocPageDown) |].
  apply (keeps_if (fun s => both s)); [exact (apply_op_both TocPageUp) |].
  apply (keeps_if (fun s => both s)); [exact (apply_op_both TocDown) |].
  apply (keeps_if (fun s => both s)); [exact (apply_op_both TocUp) |].
  exact H.
Qed.

Lemma page_frame_both pad s :
  both s -> both (page_frame WIKI_PAGE_COUNT wiki_pages pad s).
Proof.
  intros [Hi Hv]. unfold page_frame, page_switches. cbv zeta.
  apply (keeps_if (fun s => both s)); [exact (apply_op_both PageBack) |].
  apply (keeps_if (fun s => both s)); [exact (apply_op_both PageNext) |].
  apply (keeps_if (fun s => both s)); [exact (apply_op_both PagePrev) |].
  split; [now apply page_scrolls_inv |].
  destruct (page_scrolls_document wiki_pages pad s) as (_ & Etc & Ets & _).
  unfold cursor_visible. now rewrite Etc, Ets.
Qed.

Lemma retro_run_both pad s : both s -> both (fst (run pad s)).
Proof.
  intros H. destruct (game_loaded s) eqn:Hgl;
    [| now rewrite retro_run_unloaded].
  destruct (state s) eqn:Hst.
  - destruct (retro_run_boot font8x8_basic MASCOT_W MASCOT_H mascot_pixels WIKI_PAGE_COUNT wiki_pages pad s Hgl Hst) as [fb ->].
    cbv zeta. destruct (_ || _); exact H.
  - destruct (retro_run_toc font8x8_basic MASCOT_W MASCOT_H mascot_pixels WIKI_PAGE_COUNT wiki_pages pad s Hgl Hst) as [fb ->].
    pose proof (handle_toc_input_frame WIKI_PAGE_COUNT pad s) as Ht.
    destruct (toc_frame_both pad s H) as [Hi Hv].
    split.
    + change (inv (snd (handle_toc_input WIKI_PAGE_COUNT pad s))).
      eapply inv_touched; eassumption.
    + change (cursor_visible (snd (handle_toc_input WIKI_PAGE_COUNT pad s))).
      eapply visible_touched; eassumption.
  - destruct (retro_run_page font8x8_basic MASCOT_W MASCOT_H mascot_pixels WIKI_PAGE_COUNT wiki_pages pad s Hgl Hst) as [fb ->].
    pose proof (handle_page_input_frame WIKI_PAGE_COUNT wiki_pages pad s) as Ht.
    destruct (page_frame_both pad s H) as [Hi Hv].
    split.
    + change (inv (snd (handle_page_input WIKI_PAGE_COUNT wiki_pages pad s))).
      eapply inv_touched; eassumption.
    + change (cursor_visible
                (snd (handle_page_input WIKI_PAGE_COUNT wiki_pages pad s))).
      eapply visible_touched; eassumption.
Qed.

(** X3.  With a catalog of at least one document, the cursor row of the
    table of contents is always one of the [CONTENT_ROWS - 3] rows drawn
    from the scroll offset: [scroll <= cursor < scroll + 22] holds in every
    state reachable after a successful load, is kept by every frame and by
    every single move made within the catalog bounds, and [Back] restores
    it from any globals. *)
Theorem cursor_stays_visible :
  (forall s, reach s -> cursor_visible s) /\
  (forall pad s, inv s -> cursor_visible s -> cursor_visible (fst (run pad s))) /\
  (forall op s, inv s -> cursor_visible s -> cursor_visible (op_on op s)) /\
  (forall s, cursor_visible (page_back s)).
Proof.
  split; [| split; [| split]].
  - intros s Hr.
    assert (Hb : both s); [| apply Hb].
    induction Hr as [s s' Hload | pad s _ IH | s _ IH | s _ IH].
    + split; [eapply retro_load_game_inv; eassumption |].
      unfold retro_load_game in Hload. cbn in Hload. injection Hload as <-.
      unfold cursor_visible, CONTENT_ROWS. cbn. lia.
    + now apply retro_run_both.
    + split; [now apply retro_reset_inv |].
      unfold cursor_visible, CONTENT_ROWS. cbn. lia.
    + exact IH.
  - intros pad s Hi Hv. now apply retro_run_both.
  - intros op s. apply apply_op_visible.
  - apply page_back_visible.
Qed.

End SessionMoves.

(* ================================================================== *)
(** * The three screens as a state machine *)

Section StateMachine.

Variable font8x8_basic : Z -> Z -> Z.
Variable MASCOT_W MASCOT_H : Z.
Variable mascot_pixels : Z -> Z.
Variable WIKI_PAGE_COUNT : Z.
Variable wiki_pages : list wiki_page_t.

Local Abbreviation op_on := (apply_op WIKI_PAGE_COUNT wiki_pages).
Local Abbreviation run :=
  (retro_run font8x8_basic MASCOT_W MASCOT_H mascot_pixels
     WIKI_PAGE_COUNT wiki_pages).
Local Abbreviation frames :=
  (run_frames font8x8_basic MASCOT_W MASCOT_H mascot_pixels
     WIKI_PAGE_COUNT wiki_pages).

Implicit Types (pad : joypad) (s t : core).

(** What a move does to the screen and to the fields outside navigation. *)
Lemma apply_op_state op s :
  state (op_on op s) =
    match op with
    | TocOpen | TocLeftOpen => STATE_PAGE
    | PageBack => STATE_TOC
    | _ => state s
    end /\
  boot_timer (op_on op s) = boot_timer s /\
  game_loaded (op_on op s) = game_loaded s.
Proof.
  destruct s as [fb st gl bt tc ts cp ps hf].
  destruct op; unfold apply_op; open_moves;
    repeat match goal with
           | |- context [if ?c then _ else _] =>
               lazymatch c with
               | context [if _ then _ else _] => fail
               | _ => destruct c; cbn
               end
           end; repeat split.
Qed.

Lemma if_op_fields (c : bool) op s :
  state (if c then op_on op s else s) =
    (if c then state (op_on op s) else state s) /\
  boot_timer (if c then op_on op s else s) = boot_timer s /\
  game_loaded (if c then op_on op s else s) = game_loaded s.
Proof.
  destruct c; [| repeat split].
  destruct (apply_op_state op s) as (_ & Hb & Hg). repeat split; assumption.
Qed.

Local Abbreviation same_screen t s :=
  (state t = state s /\ boot_timer t = boot_timer s /\
   game_loaded t = game_loaded s).

Lemma op_keeps_screen op s0 t :
  match op with TocOpen | TocLeftOpen | PageBack => False | _ => True end ->
  same_screen t s0 -> same_screen (op_on op t) s0.
Proof.
  intros Hop (H1 & H2 & H3).
  destruct (apply_op_state op t) as (G1 & G2 & G3).
  rewrite G1, G2, G3. destruct op; try contradiction; repeat split; assumption.
Qed.

Lemma page_down_keeps_screen m s0 t :
  same_screen t s0 ->
  same_screen (page_line_down m t) s0 /\ same_screen (page_page_down m t) s0.
Proof.
  destruct t as [fb st gl bt tc ts cp ps hf]. intros (H1 & H2 & H3).
  unfold page_line_down, page_page_down. cbn in *.
  destruct (ps <? m), (m <? ps + CONTENT_ROWS); cbn; repeat split; assumption.
Qed.

Lemma toc_moves_screen pad s : same_screen (toc_moves WIKI_PAGE_COUNT pad s) s.
Proof.
  unfold toc_moves. cbv zeta.
  apply (keeps_if (fun t => same_screen t s)); [exact (fun t => op_keeps_screen TocPageDown s t I) |].
  apply (keeps_if (fun t => same_screen t s)); [exact (fun t => op_keeps_screen TocPageUp s t I) |].
  apply (keeps_if (fun t => same_screen t s)); [exact (fun t => op_keeps_screen TocDown s t I) |].
  apply (keeps_if (fun t => same_screen t s)); [exact (fun t => op_keeps_screen TocUp s t I) |].
  repeat split.
Qed.

Lemma page_switches_screen pad s :
  same_screen (page_switches WIKI_PAGE_COUNT wiki_pages pad s) s.
Proof.
  unfold page_switches, page_scrolls. cbv zeta.
  apply (keeps_if (fun t => same_screen t s)); [exact (fun t => op_keeps_screen PageNext s t I) |].
  apply (keeps_if (fun t => same_screen t s)); [exact (fun t => op_keeps_screen PagePrev s t I) |].
  apply (keeps_if (fun t => same_screen t s));
    [exact (fun t H => proj2 (page_down_keeps_screen _ s t H)) |].
  apply (keeps_if (fun t => same_screen t s)); [exact (fun t => op_keeps_screen PagePageUp s t I) |].
  apply (keeps_if (fun t => same_screen t s));
    [exact (fun t H => proj1 (page_down_keeps_screen _ s t H)) |].
  apply (keeps_if (fun t => same_screen t s)); [exact (fun t => op_keeps_screen PageLineUp s t I) |].
  repeat split.
Qed.

Lemma toc_frame_screen pad s :
  state (toc_frame WIKI_PAGE_COUNT pad s) =
    (if fires pad RETRO_DEVICE_ID_JOYPAD_A s
        || fires pad RETRO_DEVICE_ID_JOYPAD_RIGHT s
        || fires pad RETRO_DEVICE_ID_JOYPAD_LEFT s
     then STATE_PAGE else state s) /\
  boot_timer (toc_frame WIKI_PAGE_COUNT pad s) = boot_timer s /\
  game_loaded (toc_frame WIKI_PAGE_COUNT pad s) = game_loaded s.
Proof.
  unfold toc_frame. cbv zeta.
  destruct (toc_moves_screen pad s) as (H1 & H2 & H3).
  set (s4 := toc_moves WIKI_PAGE_COUNT pad s) in *. clearbody s4.
  destruct (apply_op_state TocOpen s4) as (A1 & A2 & A3).
  cbv beta iota delta [apply_op] in A1, A2, A3.
  destruct (fires pad RETRO_DEVICE_ID_JOYPAD_A s
            || fires pad RETRO_DEVICE_ID_JOYPAD_RIGHT s); cbn [orb].
  - destruct (apply_op_state TocLeftOpen (toc_open s4)) as (B1 & B2 & B3).
    cbv beta iota delta [apply_op] in B1, B2, B3.
    destruct (fires pad RETRO_DEVICE_ID_JOYPAD_LEFT s);
      repeat split; congruence.
  - destruct (apply_op_state TocLeftOpen s4) as (B1 & B2 & B3).
    cbv beta iota delta [apply_op] in B1, B2, B3.
    destruct (fires pad RETRO_DEVICE_ID_JOYPAD_LEFT s);
      repeat split; congruence.
Qed.

Lemma page_frame_screen pad s :
  state (page_frame WIKI_PAGE_COUNT wiki_pages pad s) =
    (if fires pad RETRO_DEVICE_ID_JOYPAD_B s
        || fires pad RETRO_DEVICE_ID_JOYPAD_START s
     then STATE_TOC else state s) /\
  boot_timer (page_frame WIKI_PAGE_COUNT wiki_pages pad s) = boot_timer s /\
  game_loaded (page_frame WIKI_PAGE_COUNT wiki_pages pad s) = game_loaded s.
Proof.
  unfold page_frame. cbv zeta.
  destruct (page_switches_screen pad s) as (H1 & H2 & H3).
  set (s6 := page_switches WIKI_PAGE_COUNT wiki_pages pad s) in *. clearbody s6.
  destruct (apply_op_state PageBack s6) as (A1 & A2 & A3).
  cbv beta iota delta [apply_op] in A1, A2, A3.
  destruct (fires pad RETRO_DEVICE_ID_JOYPAD_B s
            || fires pad RETRO_DEVICE_ID_JOYPAD_START s);
    repeat split; congruence.
Qed.

Lemma touched_screen bs t s' :
  touched bs t s' -> same_screen s' t.
Proof. intros ([h ->] & _). repeat split. Qed.

(** Boot frames count, the other frames neither count nor return to boot. *)
Lemma frame_boot_fields pad s :
  game_loaded s = true ->
  let s' := fst (run pad s) in
  game_loaded s' = true /\
  (state s = STATE_BOOT ->
   state s' = (if (BOOT_FRAMES <=? boot_timer s + 1) || any_btn_pressed pad
               then STATE_TOC else STATE_BOOT) /\
   boot_timer s' = boot_timer s + 1) /\
  (state s <> STATE_BOOT ->
   state s' <> STATE_BOOT /\ boot_timer s' = boot_timer s).
Proof.
  intros Hgl s'. subst s'.
  destruct (state s) eqn:Hst.
  - destruct (retro_run_boot font8x8_basic MASCOT_W MASCOT_H mascot_pixels
                WIKI_PAGE_COUNT wiki_pages pad s Hgl Hst) as [fb ->].
    cbv zeta. destruct (_ || _); cbn;
      repeat split; try discriminate; try congruence; try reflexivity;
      intros; congruence.
  - destruct (retro_run_toc font8x8_basic MASCOT_W MASCOT_H mascot_pixels
                WIKI_PAGE_COUNT wiki_pages pad s Hgl Hst) as [fb ->].
    destruct (touched_screen _ _ _ (handle_toc_input_frame WIKI_PAGE_COUNT pad s))
      as (T1 & T2 & T3).
    destruct (toc_frame_screen pad s) as (F1 & F2 & F3).
    change (state (set_framebuffer fb ?x)) with (state x).
    change (boot_timer (set_framebuffer fb ?x)) with (boot_timer x).
    change (game_loaded (set_framebuffer fb ?x)) with (game_loaded x).
    rewrite T1, T2, T3, F1, F2, F3, Hst.
    repeat split; try discriminate; try congruence.
    destruct (_ || _); discriminate.
  - destruct (retro_run_page font8x8_basic MASCOT_W MASCOT_H mascot_pixels
                WIKI_PAGE_COUNT wiki_pages pad s Hgl Hst) as [fb ->].
    destruct (touched_screen _ _ _
                (handle_page_input_frame WIKI_PAGE_COUNT wiki_pages pad s))
      as (T1 & T2 & T3).
    destruct (page_frame_screen pad s) as (F1 & F2 & F3).
    change (state (set_framebuffer fb ?x)) with (state x).
    change (boot_timer (set_framebuffer fb ?x)) with (boot_timer x).
    change (game_loaded (set_framebuffer fb ?x)) with (game_loaded x).
    rewrite T1, T2, T3, F1, F2, F3, Hst.
    repeat split; try discriminate; try congruence.
    destruct (_ || _); discriminate.
Qed.

(** X4.  The screens of a loaded core change along three edges only.  A
    boot frame goes to the table of contents when the incremented timer
    has reached [BOOT_FRAMES] or a button reads down, and stays in boot
    otherwise.  A frame of the table of contents goes to the viewer exactly
    when A, Right or Left fires.  A frame of the viewer goes back to the
    table of contents exactly when B or Start fires.  No frame returns to
    boot, no frame unloads the game, and the boot timer stands still
    outside boot. *)
Theorem screen_transitions pad s :
  game_loaded s = true ->
  let s' := fst (run pad s) in
  (state s = STATE_BOOT ->
   state s' = (if (BOOT_FRAMES <=? boot_timer s + 1) || any_btn_pressed pad
               then STATE_TOC else STATE_BOOT) /\
   boot_timer s' = boot_timer s + 1) /\
  (state s = STATE_TOC ->
   state s' = (if fires pad RETRO_DEVICE_ID_JOYPAD_A s
                  || fires pad RETRO_DEVICE_ID_JOYPAD_RIGHT s
                  || fires pad RETRO_DEVICE_ID_JOYPAD_LEFT s
               then STATE_PAGE else STATE_TOC)) /\
  (state s = STATE_PAGE ->
   state s' = (if fires pad RETRO_DEVICE_ID_JOYPAD_B s
                  || fires pad RETRO_DEVICE_ID_JOYPAD_START s
               then STATE_TOC else STATE_PAGE)) /\
  (state s <> STATE_BOOT ->
   state s' <> STATE_BOOT /\ boot_timer s' = boot_timer s) /\
  game_loaded s' = true.
Proof.
  intros Hgl s'. subst s'.
  destruct (state s) eqn:Hst.
  - destruct (retro_run_boot font8x8_basic MASCOT_W MASCOT_H mascot_pixels
                WIKI_PAGE_COUNT wiki_pages pad s Hgl Hst) as [fb ->].
    cbv zeta. destruct (_ || _); cbn;
      repeat split; try discriminate; try congruence; try reflexivity;
      intros; congruence.
  - destruct (retro_run_toc font8x8_basic MASCOT_W MASCOT_H mascot_pixels
                WIKI_PAGE_COUNT wiki_pages pad s Hgl Hst) as [fb ->].
    destruct (touched_screen _ _ _ (handle_toc_input_frame WIKI_PAGE_COUNT pad s))
      as (T1 & T2 & T3).
    destruct (toc_frame_screen pad s) as (F1 & F2 & F3).
    change (state (set_framebuffer fb ?x)) with (state x).
    change (boot_timer (set_framebuffer fb ?x)) with (boot_timer x).
    change (game_loaded (set_framebuffer fb ?x)) with (game_loaded x).
    rewrite T1, T2, T3, F1, F2, F3, Hst.
    repeat split; try discriminate; try congruence.
    destruct (_ || _); discriminate.
  - destruct (retro_run_page font8x8_basic MASCOT_W MASCOT_H mascot_pixels
                WIKI_PAGE_COUNT wiki_pages pad s Hgl Hst) as [fb ->].
    destruct (touched_screen _ _ _
                (handle_page_input_frame WIKI_PAGE_COUNT wiki_pages pad s))
      as (T1 & T2 & T3).
    destruct (page_frame_screen pad s) as (F1 & F2 & F3).
    change (state (set_framebuffer fb ?x)) with (state x).
    change (boot_timer (set_framebuffer fb ?x)) with (boot_timer x).
    change (game_loaded (set_framebuffer fb ?x)) with (game_loaded x).
    rewrite T1, T2, T3, F1, F2, F3, Hst.
    repeat split; try discriminate; try congruence.
    destruct (_ || _); discriminate.
Qed.

End StateMachine.

(* ================================================================== *)
(** * Runs of frames *)

Lemma any_btn_pressed_idle pad : pad_idle pad -> any_btn_pressed pad = false.
Proof.
  intros Hidle. destruct (any_btn_pressed pad) eqn:E; [| reflexivity].
  apply any_btn_pressed_true in E. destruct E as (j & Hj & Hp).
  now specialize (Hidle j Hj).
Qed.

Lemma rule_count_snoc n : forall c,
  rule_count c (S n)
  = (rule_count c n + (if press_rule (c + Z.of_nat n + 1) then 1 else 0))%nat.
Proof.
  induction n as [| n IH]; intros c.
  - cbn [rule_count]. replace (c + Z.of_nat 0 + 1) with (c + 1) by lia. lia.
  - change (rule_count c (S (S n)))
      with ((if press_rule (c + 1) then 1 else 0) + rule_count (c + 1) (S n))%nat.
    rewrite IH. cbn [rule_count].
    replace (c + 1 + Z.of_nat n + 1) with (c + Z.of_nat (S n) + 1) by lia. lia.
Qed.

Lemma rule_count_closed n : Z.of_nat (rule_count 0 n) = hold_presses (Z.of_nat n).
Proof.
  induction n as [| n IH]; [reflexivity |].
  rewrite rule_count_snoc, Nat2Z.inj_add, IH.
  unfold hold_presses, press_rule.
  replace (Z.of_nat (S n)) with (Z.of_nat n + 1) by lia.
  set (m := Z.of_nat n). assert (0 <= m) by lia. clearbody m.
  replace (0 + m + 1) with (m + 1) by lia.
  destruct (Z.leb_spec m 0), (Z.leb_spec (m + 1) 0), (Z.ltb_spec m 24),
    (Z.ltb_spec (m + 1) 24), (Z.eqb_spec (m + 1) 1), (Z.leb_spec 24 (m + 1)),
    (Z.eqb_spec ((m + 1 - 24) mod 4) 0); cbn [orb andb Z.of_nat];
    try lia; Z.div_mod_to_equations; lia.
Qed.

Section FrameRuns.

Variable font8x8_basic : Z -> Z -> Z.
Variable MASCOT_W MASCOT_H : Z.
Variable mascot_pixels : Z -> Z.
Variable WIKI_PAGE_COUNT : Z.
Variable wiki_pages : list wiki_page_t.

Local Abbreviation run :=
  (retro_run font8x8_basic MASCOT_W MASCOT_H mascot_pixels
     WIKI_PAGE_COUNT wiki_pages).
Local Abbreviation frames :=
  (run_frames font8x8_basic MASCOT_W MASCOT_H mascot_pixels
     WIKI_PAGE_COUNT wiki_pages).
Local Abbreviation frame_fields :=
  (frame_boot_fields font8x8_basic MASCOT_W MASCOT_H mascot_pixels
     WIKI_PAGE_COUNT wiki_pages).

Implicit Types (pad : joypad) (pads : list joypad) (s t : core).

Lemma run_frames_cons pad pads s :
  frames (pad :: pads) s = frames pads (fst (run pad s)).
Proof. reflexivity. Qed.

Lemma run_frames_app pads1 pads2 s :
  frames (pads1 ++ pads2) s = frames pads2 (frames pads1 s).
Proof. unfold run_frames. apply fold_left_app. Qed.

Lemma frames_loaded pads : forall s,
  game_loaded s = true -> game_loaded (frames pads s) = true.
Proof.
  induction pads as [| pad rest IH]; intros s H; [exact H |].
  rewrite run_frames_cons. apply IH. now apply frame_fields.
Qed.

Lemma boot_idle_frames pads : forall s,
  game_loaded s = true ->
  state s = STATE_BOOT ->
  Forall pad_idle pads ->
  boot_timer s + Z.of_nat (length pads) < BOOT_FRAMES ->
  state (frames pads s) = STATE_BOOT /\
  boot_timer (frames pads s) = boot_timer s + Z.of_nat (length pads).
Proof.
  induction pads as [| pad rest IH]; intros s Hgl Hst Hidle Hlt.
  - cbn. split; [exact Hst | lia].
  - inversion Hidle as [| ? ? Hpad Hrest]; subst.
    rewrite run_frames_cons. cbn [length] in Hlt |- *.
    destruct (frame_fields pad s Hgl) as (Hgl' & Hboot & _).
    destruct (Hboot Hst) as [Hs Ht].
    rewrite any_btn_pressed_idle in Hs by assumption.
    destruct (Z.leb_spec BOOT_FRAMES (boot_timer s + 1)); [lia |].
    cbn [orb] in Hs.
    destruct (IH (fst (run pad s)) Hgl' Hs Hrest) as [G1 G2]; [lia |].
    split; [exact G1 | lia].
Qed.

Lemma frames_leave_boot pads : forall s,
  game_loaded s = true ->
  state s <> STATE_BOOT ->
  state (frames pads s) <> STATE_BOOT.
Proof.
  induction pads as [| pad rest IH]; intros s Hgl Hst; [exact Hst |].
  rewrite run_frames_cons.
  destruct (frame_fields pad s Hgl) as (Hgl' & _ & Hout).
  apply IH; [exact Hgl' | apply Hout, Hst].
Qed.

Lemma frames_still_booting pads : forall s,
  game_loaded s = true ->
  0 <= boot_timer s ->
  state (frames pads s) = STATE_BOOT ->
  boot_timer s + Z.of_nat (length pads) < BOOT_FRAMES \/ pads = [].
Proof.
  induction pads as [| pad rest IH]; intros s Hgl Ht Hst; [now right |].
  left. rewrite run_frames_cons in Hst.
  destruct (frame_fields pad s Hgl) as (Hgl' & Hboot & Hout).
  destruct (state s) eqn:Es;
    try (exfalso; revert Hst; apply frames_leave_boot;
         [exact Hgl' | apply Hout; discriminate]).
  destruct (Hboot eq_refl) as [Hs Hb].
  destruct ((BOOT_FRAMES <=? boot_timer s + 1) || any_btn_pressed pad) eqn:Ec.
  - exfalso. revert Hst. apply frames_leave_boot; [exact Hgl' |].
    rewrite Hs. discriminate.
  - apply orb_false_iff in Ec. destruct Ec as [Ec _].
    apply Z.leb_gt in Ec.
    assert (H0 : 0 <= boot_timer (fst (run pad s))) by lia.
    destruct (IH (fst (run pad s)) Hgl' H0 Hst) as [Hlt | ->].
    + cbn [length]. lia.
    + cbn [length]. lia.
Qed.

(** X5.  The boot screen of a loaded core whose timer is at 0 lasts 600
    frames when no button is touched: after fewer than 600 idle frames the
    core is still booting and the timer counts them, and the 600th frame
    enters the table of contents.  Whatever the joypad reads, the core has
    left boot after 600 frames, and once left, no run of frames brings it
    back. *)
Theorem boot_lasts_at_most_600_frames pads s :
  game_loaded s = true ->
  state s = STATE_BOOT ->
  boot_timer s = 0 ->
  let s' := frames pads s in
  (Forall pad_idle pads -> Z.of_nat (length pads) < BOOT_FRAMES ->
   state s' = STATE_BOOT /\ boot_timer s' = Z.of_nat (length pads)) /\
  (Forall pad_idle pads -> Z.of_nat (length pads) = BOOT_FRAMES ->
   state s' = STATE_TOC /\ boot_timer s' = BOOT_FRAMES) /\
  (BOOT_FRAMES <= Z.of_nat (length pads) -> state s' <> STATE_BOOT) /\
  (forall more, state s' <> STATE_BOOT -> state (frames more s') <> STATE_BOOT).
Proof.
  intros Hgl Hst Ht s'. subst s'.
  split; [| split; [| split]].
  - intros Hidle Hlen.
    destruct (boot_idle_frames pads s Hgl Hst Hidle) as [G1 G2]; [lia |].
    split; [exact G1 | lia].
  - intros Hidle Hlen.
    destruct (exists_last (l := pads)) as (front & last & ->).
    { intros ->. cbn in Hlen. unfold BOOT_FRAMES in Hlen. lia. }
    rewrite length_app in Hlen. cbn [length] in Hlen.
    apply Forall_app in Hidle. destruct Hidle as [Hfront Hlast].
    inversion Hlast as [| ? ? Hl _]; subst.
    rewrite run_frames_app.
    destruct (boot_idle_frames front s Hgl Hst Hfront) as [G1 G2]; [lia |].
    change (frames [last] ?t) with (fst (run last t)).
    destruct (frame_fields last (frames front s)) as (_ & Hboot & _);
      [now apply frames_loaded |].
    destruct (Hboot G1) as [Hs Hb]. rewrite Hs, Hb, G2.
    destruct (Z.leb_spec BOOT_FRAMES (boot_timer s + Z.of_nat (length front) + 1));
      [cbn [orb]; split; [reflexivity | lia] | lia].
  - intros Hlen Hboot.
    destruct (frames_still_booting pads s Hgl) as [Hlt | ->];
      [lia | exact Hboot | lia | cbn in Hlen; unfold BOOT_FRAMES in Hlen; lia].
  - intros more Hout. apply frames_leave_boot; [| exact Hout].
    now apply frames_loaded.
Qed.

End FrameRuns.

(* ================================================================== *)
(** * Idle and held buttons *)

Section HeldButtons.

Variable font8x8_basic : Z -> Z -> Z.
Variable MASCOT_W MASCOT_H : Z.
Variable mascot_pixels : Z -> Z.
Variable WIKI_PAGE_COUNT : Z.
Variable wiki_pages : list wiki_page_t.

Local Abbreviation run :=
  (retro_run font8x8_basic MASCOT_W MASCOT_H mascot_pixels
     WIKI_PAGE_COUNT wiki_pages).
Local Abbreviation frames :=
  (run_frames font8x8_basic MASCOT_W MASCOT_H mascot_pixels
     WIKI_PAGE_COUNT wiki_pages).

Implicit Types (pad : joypad) (pads : list joypad) (s t : core).

Lemma pad_idle_button pad b : pad_idle pad -> 0 <= b < BTN_COUNT -> pad b = 0.
Proof. intros H Hb. now apply H. Qed.

Lemma toc_frame_quiet pad s :
  fires pad RETRO_DEVICE_ID_JOYPAD_UP s = false ->
  fires pad RETRO_DEVICE_ID_JOYPAD_L s = false ->
  fires pad RETRO_DEVICE_ID_JOYPAD_R s = false ->
  fires pad RETRO_DEVICE_ID_JOYPAD_A s = false ->
  fires pad RETRO_DEVICE_ID_JOYPAD_RIGHT s = false ->
  fires pad RETRO_DEVICE_ID_JOYPAD_LEFT s = false ->
  toc_frame WIKI_PAGE_COUNT pad s =
  if fires pad RETRO_DEVICE_ID_JOYPAD_DOWN s
  then toc_step_down WIKI_PAGE_COUNT (CONTENT_ROWS - 3) s else s.
Proof.
  intros Hu Hl Hr Ha Hri Hle. unfold toc_frame, toc_moves. cbv zeta.
  now rewrite Hu, Hl, Hr, Ha, Hri, Hle.
Qed.

Lemma page_frame_quiet pad s :
  pad_idle pad -> page_frame WIKI_PAGE_COUNT wiki_pages pad s = s.
Proof.
  intros Hidle. unfold page_frame, page_switches, page_scrolls. cbv zeta.
  rewrite !fires_up by (apply Hidle; button_ids; lia). reflexivity.
Qed.

(** X6.  A frame in which no button reads down changes nothing a user
    can see in the table of contents or in the viewer: the screen, both
    cursors, both scroll offsets and the boot timer are the ones of the
    frame's start. *)
Theorem idle_frame_keeps_navigation pad s :
  game_loaded s = true ->
  state s <> STATE_BOOT ->
  pad_idle pad ->
  let s' := fst (run pad s) in
  state s' = state s /\ toc_cursor s' = toc_cursor s /\
  toc_scroll s' = toc_scroll s /\ current_page s' = current_page s /\
  page_scroll s' = page_scroll s /\ boot_timer s' = boot_timer s /\
  game_loaded s' = true.
Proof.
  intros Hgl Hst Hidle s'. subst s'.
  destruct (state s) eqn:Es; [contradiction | |].
  - destruct (retro_run_toc font8x8_basic MASCOT_W MASCOT_H mascot_pixels
                WIKI_PAGE_COUNT wiki_pages pad s Hgl Es) as [fb ->].
    pose proof (handle_toc_input_frame WIKI_PAGE_COUNT pad s) as Ht.
    rewrite toc_frame_quiet in Ht
      by (apply fires_up, Hidle; button_ids; lia).
    rewrite fires_up in Ht by (apply Hidle; button_ids; lia).
    destruct Ht as ([h ->] & _). cbn. repeat split; assumption.
  - destruct (retro_run_page font8x8_basic MASCOT_W MASCOT_H mascot_pixels
                WIKI_PAGE_COUNT wiki_pages pad s Hgl Es) as [fb ->].
    pose proof (handle_page_input_frame WIKI_PAGE_COUNT wiki_pages pad s) as Ht.
    rewrite page_frame_quiet in Ht by assumption.
    destruct Ht as ([h ->] & _). cbn. repeat split; assumption.
Qed.

(** One frame of the table of contents with Down held and the other
    buttons of the screen up. *)
Lemma hold_down_frame pad s :
  game_loaded s = true ->
  state s = STATE_TOC ->
  length (held_frames s) = Z.to_nat BTN_COUNT ->
  pad RETRO_DEVICE_ID_JOYPAD_DOWN <> 0 ->
  pad RETRO_DEVICE_ID_JOYPAD_UP = 0 ->
  pad RETRO_DEVICE_ID_JOYPAD_L = 0 ->
  pad RETRO_DEVICE_ID_JOYPAD_R = 0 ->
  pad RETRO_DEVICE_ID_JOYPAD_A = 0 ->
  pad RETRO_DEVICE_ID_JOYPAD_RIGHT = 0 ->
  pad RETRO_DEVICE_ID_JOYPAD_LEFT = 0 ->
  let s' := fst (run pad s) in
  game_loaded s' = true /\ state s' = STATE_TOC /\
  length (held_frames s') = Z.to_nat BTN_COUNT /\
  held s' RETRO_DEVICE_ID_JOYPAD_DOWN
  = wrap_int (held s RETRO_DEVICE_ID_JOYPAD_DOWN + 1) /\
  toc_cursor s' =
    (if press_rule (wrap_int (held s RETRO_DEVICE_ID_JOYPAD_DOWN + 1))
     then (if toc_cursor s <? WIKI_PAGE_COUNT - 1
           then toc_cursor s + 1 else toc_cursor s)
     else toc_cursor s).
Proof.
  intros Hgl Hst Hlen Hd Hu Hl Hr Ha Hri Hle s'. subst s'.
  destruct (retro_run_toc font8x8_basic MASCOT_W MASCOT_H mascot_pixels
              WIKI_PAGE_COUNT wiki_pages pad s Hgl Hst) as [fb ->].
  change (game_loaded (set_framebuffer fb ?x)) with (game_loaded x).
  change (state (set_framebuffer fb ?x)) with (state x).
  change (held_frames (set_framebuffer fb ?x)) with (held_frames x).
  change (held (set_framebuffer fb ?x)) with (held x).
  change (toc_cursor (set_framebuffer fb ?x)) with (toc_cursor x).
  assert (Hin : (Z.to_nat RETRO_DEVICE_ID_JOYPAD_DOWN < length (held_frames s))%nat).
  { rewrite Hlen. button_ids. lia. }
  pose proof (handle_toc_input_frame WIKI_PAGE_COUNT pad s) as Ht.
  rewrite toc_frame_quiet in Ht by (now apply fires_up).
  rewrite fires_eq in Ht by exact Hin.
  apply Z.eqb_neq in Hd. rewrite Hd in Ht. cbn [negb andb] in Ht.
  destruct Ht as ([h E] & Hl2 & _).
  set (t := if press_rule (wrap_int (held s RETRO_DEVICE_ID_JOYPAD_DOWN + 1))
            then toc_step_down WIKI_PAGE_COUNT (CONTENT_ROWS - 3) s else s) in *.
  assert (Ht : game_loaded t = game_loaded s /\ state t = state s /\
               held_frames t = held_frames s /\
               toc_cursor t =
                 (if press_rule (wrap_int (held s RETRO_DEVICE_ID_JOYPAD_DOWN + 1))
                  then (if toc_cursor s <? WIKI_PAGE_COUNT - 1
                        then toc_cursor s + 1 else toc_cursor s)
                  else toc_cursor s)).
  { subst t. destruct (press_rule _); [| repeat split].
    clear. destruct s as [fb0 st gl bt tc ts cp ps hf].
    unfold toc_step_down. cbn.
    destruct (tc <? WIKI_PAGE_COUNT - 1); cbn;
      match goal with
      | |- context [if ?c then _ else _] => destruct c
      end; repeat split. }
  destruct Ht as (G1 & G2 & G3 & G4).
  split; [| split; [| split; [| split]]].
  - rewrite E. cbn. congruence.
  - rewrite E. cbn. congruence.
  - rewrite Hl2, G3. exact Hlen.
  - rewrite handle_toc_input_blocks. chain_others.
    rewrite held_after_block_same by (first [nav_only_solve | chain_lengths; exact Hin]).
    unfold next_count. rewrite Hd. chain_others. reflexivity.
  - rewrite E. cbn. exact G4.
Qed.

Lemma hold_presses_mono a b : a <= b -> hold_presses a <= hold_presses b.
Proof.
  intros H. unfold hold_presses.
  destruct (Z.leb_spec a 0), (Z.leb_spec b 0), (Z.ltb_spec a 24),
    (Z.ltb_spec b 24); try lia.
  - assert (0 <= (b - 24) / 4) by (apply Z.div_pos; lia). lia.
  - assert (0 <= (b - 24) / 4) by (apply Z.div_pos; lia). lia.
  - assert ((a - 24) / 4 <= (b - 24) / 4) by (apply Z.div_le_mono; lia). lia.
Qed.

Local Abbreviation down_only pad :=
  (pad RETRO_DEVICE_ID_JOYPAD_DOWN <> 0 /\
   pad RETRO_DEVICE_ID_JOYPAD_UP = 0 /\
   pad RETRO_DEVICE_ID_JOYPAD_L = 0 /\
   pad RETRO_DEVICE_ID_JOYPAD_R = 0 /\
   pad RETRO_DEVICE_ID_JOYPAD_A = 0 /\
   pad RETRO_DEVICE_ID_JOYPAD_RIGHT = 0 /\
   pad RETRO_DEVICE_ID_JOYPAD_LEFT = 0).

(** Down held while its counter stays an [int]: the cursor goes down by
    the number of counter values that satisfy the press rule. *)
Lemma hold_down_frames pads : forall s,
  game_loaded s = true ->
  state s = STATE_TOC ->
  length (held_frames s) = Z.to_nat BTN_COUNT ->
  INT_MIN <= held s RETRO_DEVICE_ID_JOYPAD_DOWN + 1 ->
  held s RETRO_DEVICE_ID_JOYPAD_DOWN + Z.of_nat (length pads) <= INT_MAX ->
  toc_cursor s <= WIKI_PAGE_COUNT - 1 ->
  Forall (fun pad : joypad => down_only pad) pads ->
  let s' := frames pads s in
  game_loaded s' = true /\ state s' = STATE_TOC /\
  length (held_frames s') = Z.to_nat BTN_COUNT /\
  toc_cursor s' =
    Z.min (WIKI_PAGE_COUNT - 1)
      (toc_cursor s
       + Z.of_nat (rule_count (held s RETRO_DEVICE_ID_JOYPAD_DOWN) (length pads))).
Proof.
  induction pads as [| pad rest IH]; intros s Hgl Hst Hlen Hlo Hhi Hc Hpads s';
    subst s'.
  - cbn. repeat split; try assumption. lia.
  - inversion Hpads as [| ? ? Hpad Hrest]; subst.
    destruct Hpad as (Hd & Hu & Hl & Hr & Ha & Hri & Hle).
    destruct (hold_down_frame pad s Hgl Hst Hlen Hd Hu Hl Hr Ha Hri Hle)
      as (G1 & G2 & G3 & G4 & G5).
    change (length (pad :: rest)) with (S (length rest)) in Hhi |- *.
    rewrite wrap_int_small in G4, G5 by lia.
    change (frames (pad :: rest) s) with (frames rest (fst (run pad s))).
    destruct (IH (fst (run pad s)) G1 G2 G3) as (I1 & I2 & I3 & I4);
      try assumption.
    { rewrite G4. lia. }
    { rewrite G4. lia. }
    { rewrite G5. destruct (press_rule _); [| exact Hc].
      destruct (Z.ltb_spec (toc_cursor s) (WIKI_PAGE_COUNT - 1)); lia. }
    repeat split; try assumption.
    rewrite I4, G4, G5. cbn [rule_count].
    destruct (press_rule _);
      [destruct (Z.ltb_spec (toc_cursor s) (WIKI_PAGE_COUNT - 1)) |]; lia.
Qed.

(** Down held with the cursor on the last document: the cursor stays
    there whatever the counter holds. *)
Lemma hold_down_at_end pads : forall s,
  game_loaded s = true ->
  state s = STATE_TOC ->
  length (held_frames s) = Z.to_nat BTN_COUNT ->
  toc_cursor s = WIKI_PAGE_COUNT - 1 ->
  Forall (fun pad : joypad => down_only pad) pads ->
  state (frames pads s) = STATE_TOC /\
  toc_cursor (frames pads s) = WIKI_PAGE_COUNT - 1.
Proof.
  induction pads as [| pad rest IH]; intros s Hgl Hst Hlen Hc Hpads.
  - split; assumption.
  - inversion Hpads as [| ? ? Hpad Hrest]; subst.
    destruct Hpad as (Hd & Hu & Hl & Hr & Ha & Hri & Hle).
    destruct (hold_down_frame pad s Hgl Hst Hlen Hd Hu Hl Hr Ha Hri Hle)
      as (G1 & G2 & G3 & _ & G5).
    change (frames (pad :: rest) s) with (frames rest (fst (run pad s))).
    apply IH; try assumption.
    rewrite G5. destruct (press_rule _); [| exact Hc].
    destruct (Z.ltb_spec (toc_cursor s) (WIKI_PAGE_COUNT - 1)); lia.
Qed.

(** X7.  Auto-repeat moves the cursor of the table of contents: with Down
    held from a released state and the other buttons of the screen up, a
    run of [n] frames leaves the cursor [hold_presses n] rows further down
    (one step at once, a second after 24 frames, then one every 4 frames),
    stopped at the last document, and stays in the table of contents.
    The counter is an [int]: this holds for runs of up to [INT_MAX]
    frames, and for runs of any length when the last document is at most
    [hold_presses INT_MAX] rows below the cursor, so that the cursor rests
    on it before the counter wraps. *)
Theorem held_down_moves_cursor pads s :
  game_loaded s = true ->
  state s = STATE_TOC ->
  length (held_frames s) = Z.to_nat BTN_COUNT ->
  held s RETRO_DEVICE_ID_JOYPAD_DOWN = 0 ->
  toc_cursor s <= WIKI_PAGE_COUNT - 1 ->
  Forall (fun pad : joypad =>
            pad RETRO_DEVICE_ID_JOYPAD_DOWN <> 0 /\
            pad RETRO_DEVICE_ID_JOYPAD_UP = 0 /\
            pad RETRO_DEVICE_ID_JOYPAD_L = 0 /\
            pad RETRO_DEVICE_ID_JOYPAD_R = 0 /\
            pad RETRO_DEVICE_ID_JOYPAD_A = 0 /\
            pad RETRO_DEVICE_ID_JOYPAD_RIGHT = 0 /\
            pad RETRO_DEVICE_ID_JOYPAD_LEFT = 0) pads ->
  Z.of_nat (length pads) <= INT_MAX \/
  WIKI_PAGE_COUNT - 1 <= toc_cursor s + hold_presses INT_MAX ->
  let s' := frames pads s in
  state s' = STATE_TOC /\
  toc_cursor s' =
    Z.min (WIKI_PAGE_COUNT - 1)
      (toc_cursor s + hold_presses (Z.of_nat (length pads))).
Proof.
  intros Hgl Hst Hlen Hzero Hc Hpads Hbound s'. subst s'.
  assert (Hshort : forall run_pads,
             Forall (fun pad : joypad => down_only pad) run_pads ->
             Z.of_nat (length run_pads) <= INT_MAX ->
             let s' := frames run_pads s in
             game_loaded s' = true /\ state s' = STATE_TOC /\
             length (held_frames s') = Z.to_nat BTN_COUNT /\
             toc_cursor s' =
               Z.min (WIKI_PAGE_COUNT - 1)
                 (toc_cursor s + hold_presses (Z.of_nat (length run_pads)))).
  { intros run_pads Hrun Hn. rewrite <- rule_count_closed, <- Hzero.
    apply hold_down_frames; try assumption; rewrite Hzero;
      unfold INT_MIN, INT_MAX in *; lia. }
  destruct (Z.le_gt_cases (Z.of_nat (length pads)) INT_MAX) as [Hn | Hn].
  { destruct (Hshort pads Hpads Hn) as (_ & H2 & _ & H4). now split. }
  destruct Hbound as [Hb | Hb]; [lia |].
  assert (Hm : exists m, Z.of_nat m = INT_MAX).
  { exists (Z.to_nat INT_MAX). apply Z2Nat.id. unfold INT_MAX. lia. }
  destruct Hm as [m Hm].
  assert (Hsplit : frames pads s
                   = frames (skipn m pads) (frames (firstn m pads) s)).
  { rewrite <- (firstn_skipn m pads) at 1.
    apply (run_frames_app font8x8_basic MASCOT_W MASCOT_H mascot_pixels
             WIKI_PAGE_COUNT wiki_pages). }
  rewrite Hsplit.
  assert (Hfirst : length (firstn m pads) = m).
  { rewrite length_firstn. lia. }
  destruct (Hshort (firstn m pads)) as (F1 & F2 & F3 & F4).
  { now apply Forall_take. }
  { rewrite Hfirst. lia. }
  rewrite Hfirst, Hm in F4.
  assert (Hend : toc_cursor (frames (firstn m pads) s) = WIKI_PAGE_COUNT - 1)
    by lia.
  destruct (hold_down_at_end (skipn m pads) _ F1 F2 F3 Hend) as [E1 E2].
  { now apply Forall_drop. }
  split; [exact E1 |]. rewrite E2.
  assert (hold_presses INT_MAX <= hold_presses (Z.of_nat (length pads)))
    by (apply hold_presses_mono; lia).
  lia.
Qed.

(** X8.  The press count of a held button in closed form: for a button
    id below [BTN_COUNT], the 16-entry counter array and a released button,
    [n] frames that all read it down report [hold_presses n] presses: none
    for no frame, one up to 23 frames, and [2 + (n - 24) / 4] from 24
    frames on, for every [n] up to [INT_MAX], the last frame before the
    [int] counter wraps. *)
Theorem held_button_press_count btn pads s :
  0 <= btn < BTN_COUNT ->
  length (held_frames s) = Z.to_nat BTN_COUNT ->
  held s btn = 0 ->
  Forall (fun pad : joypad => pad btn <> 0) pads ->
  Z.of_nat (length pads) <= INT_MAX ->
  Z.of_nat (press_events btn pads s) = hold_presses (Z.of_nat (length pads)).
Proof.
  intros Hbtn Hlen Hzero Hdown Hn.
  rewrite press_events_rule_count.
  - rewrite Hzero. apply rule_count_closed.
  - rewrite Hlen. unfold BTN_COUNT in *. lia.
  - exact Hdown.
  - rewrite Hzero. unfold INT_MIN. lia.
  - rewrite Hzero. lia.
Qed.

End HeldButtons.

Lemma page_prev_fields (WIKI_PAGE_COUNT : Z) s :
  current_page (page_prev WIKI_PAGE_COUNT s) =
    (if current_page s - 1 <? 0 then WIKI_PAGE_COUNT - 1 else current_page s - 1) /\
  page_scroll (page_prev WIKI_PAGE_COUNT s) = 0.
Proof.
  destruct s as [fb st gl bt tc ts cp ps hf]. unfold page_prev. cbn.
  destruct (cp - 1 <? 0); split; reflexivity.
Qed.

Lemma page_next_fields (WIKI_PAGE_COUNT : Z) s :
  current_page (page_next WIKI_PAGE_COUNT s) =
    (if WIKI_PAGE_COUNT <=? current_page s + 1 then 0 else current_page s + 1) /\
  page_scroll (page_next WIKI_PAGE_COUNT s) = 0.
Proof.
  destruct s as [fb st gl bt tc ts cp ps hf]. unfold page_next. cbn.
  destruct (WIKI_PAGE_COUNT <=? cp + 1); split; reflexivity.
Qed.

(** X9.  In the viewer, previous and next undo each other on every
    document of the catalog, the first and the last included: from a
    document index in [0, N-1], Left then Right, and Right then Left, end
    on the same document (with the scroll at 0). *)
Theorem page_prev_next_round_trip (WIKI_PAGE_COUNT : Z) s :
  0 <= current_page s <= WIKI_PAGE_COUNT - 1 ->
  let back_and_forth := page_next WIKI_PAGE_COUNT (page_prev WIKI_PAGE_COUNT s) in
  let forth_and_back := page_prev WIKI_PAGE_COUNT (page_next WIKI_PAGE_COUNT s) in
  current_page back_and_forth = current_page s /\
  current_page forth_and_back = current_page s /\
  page_scroll back_and_forth = 0 /\ page_scroll forth_and_back = 0.
Proof.
  intros H. cbv zeta.
  destruct (page_next_fields WIKI_PAGE_COUNT (page_prev WIKI_PAGE_COUNT s)) as [-> ->].
  destruct (page_prev_fields WIKI_PAGE_COUNT (page_next WIKI_PAGE_COUNT s)) as [-> ->].
  destruct (page_prev_fields WIKI_PAGE_COUNT s) as [-> _].
  destruct (page_next_fields WIKI_PAGE_COUNT s) as [-> _].
  repeat split.
  - destruct (Z.ltb_spec (current_page s - 1) 0);
      match goal with
      | |- context [?a <=? ?b] => destruct (Z.leb_spec a b)
      end; lia.
  - destruct (Z.leb_spec WIKI_PAGE_COUNT (current_page s + 1));
      match goal with
      | |- context [?a <? ?b] => destruct (Z.ltb_spec a b)
      end; lia.
Qed.

(* ================================================================== *)
(** * Reset against load *)

Section ResetFacts.

Variable font8x8_basic : Z -> Z -> Z.
Variable MASCOT_W MASCOT_H : Z.
Variable mascot_pixels : Z -> Z.
Variable WIKI_PAGE_COUNT : Z.
Variable wiki_pages : list wiki_page_t.

Local Abbreviation run :=
  (retro_run font8x8_basic MASCOT_W MASCOT_H mascot_pixels
     WIKI_PAGE_COUNT wiki_pages).
Local Abbreviation frames :=
  (run_frames font8x8_basic MASCOT_W MASCOT_H mascot_pixels
     WIKI_PAGE_COUNT wiki_pages).
Local Abbreviation alike s1 s2 :=
  (s1 = set_held_frames (held_frames s1) s2 /\
   (state s1 <> STATE_BOOT -> s1 = s2)).

Implicit Types (pad : joypad) (pads : list joypad) (s t : core).

(** Two cores that differ in the counters only, and only while booting,
    stay so over a frame and make the same host calls. *)
Lemma alike_frame pad s1 s2 :
  game_loaded s1 = true -> alike s1 s2 ->
  alike (fst (run pad s1)) (fst (run pad s2)) /\
  snd (run pad s1) = snd (run pad s2).
Proof.
  intros Hgl [Hsame Hrun].
  destruct (state s1) eqn:Hst.
  - clear Hrun.
    destruct s1 as [fb1 st1 gl1 bt1 tc1 ts1 cp1 ps1 hf1],
             s2 as [fb2 st2 gl2 bt2 tc2 ts2 cp2 ps2 hf2].
    cbn [state game_loaded held_frames set_held_frames] in *.
    injection Hsame as -> -> -> -> -> -> -> ->. subst gl2 st2.
    unfold retro_run. cbn [game_loaded state negb]. cbv iota.
    unfold run_boot. cbv zeta.
    cbn [set_boot_timer boot_timer framebuffer state game_loaded toc_cursor
         toc_scroll current_page page_scroll held_frames].
    destruct ((BOOT_FRAMES <=? bt2 + 1) || any_btn_pressed pad);
      cbn [set_state clear_held_frames set_held_frames set_framebuffer
           boot_timer framebuffer state game_loaded toc_cursor toc_scroll
           current_page page_scroll held_frames fst snd];
      repeat split; try reflexivity; intros H; now elim H.
  - assert (E : s1 = s2) by (apply Hrun; discriminate). subst s2.
    repeat split. now destruct (fst (run pad s1)).
  - assert (E : s1 = s2) by (apply Hrun; discriminate). subst s2.
    repeat split. now destruct (fst (run pad s1)).
Qed.

Lemma alike_frames pads : forall s1 s2,
  game_loaded s1 = true -> alike s1 s2 ->
  alike (frames pads s1) (frames pads s2) /\
  game_loaded (frames pads s1) = true.
Proof.
  induction pads as [| pad rest IH]; intros s1 s2 Hgl H; [now split |].
  change (frames (pad :: rest) s1) with (frames rest (fst (run pad s1))).
  change (frames (pad :: rest) s2) with (frames rest (fst (run pad s2))).
  apply IH.
  - now apply (frame_boot_fields font8x8_basic MASCOT_W MASCOT_H mascot_pixels
                 WIKI_PAGE_COUNT wiki_pages).
  - now apply alike_frame.
Qed.

(** X10.  On a loaded core [retro_reset] restarts the session as a new
    [retro_load_game] does, although it leaves the held-frame counters as
    they are: after the same run of frames the two cores agree in every
    global but the counters, they are equal as soon as the boot screen is
    left (its exit clears the counters), and the next frame hands the host
    the same calls with the same picture. *)
Theorem reset_restarts_like_load pads s :
  game_loaded s = true ->
  let a := frames pads (retro_reset s) in
  let b := frames pads (snd (retro_load_game true true s)) in
  a = set_held_frames (held_frames a) b /\
  (state a <> STATE_BOOT -> a = b) /\
  (forall pad, snd (run pad a) = snd (run pad b)).
Proof.
  intros Hgl a b.
  assert (H0 : alike (retro_reset s) (snd (retro_load_game true true s))).
  { destruct s as [fb st gl bt tc ts cp ps hf]. cbn in Hgl. subst gl.
    split; [reflexivity |]. intros H. now elim H. }
  assert (Hgl0 : game_loaded (retro_reset s) = true).
  { destruct s. exact Hgl. }
  destruct (alike_frames pads _ _ Hgl0 H0) as [[Ha Hb] Hl].
  split; [exact Ha |]. split; [exact Hb |].
  intros pad. now apply alike_frame.
Qed.

End ResetFacts.

(* ================================================================== *)
(** * The renderer stays inside the framebuffer *)

(** Loops, by an invariant that sees the index in its range. *)
Lemma for_loop_inv {St : Type} (P : St -> Prop) (cond : Z -> bool)
    (body : Z -> St -> St) : forall n i s,
  P s ->
  (forall j t, i <= j < i + Z.of_nat n -> P t -> P (body j t)) ->
  P (for_loop n i cond body s).
Proof.
  induction n as [| n IH]; intros i s Hs Hbody; cbn [for_loop]; [exact Hs |].
  destruct (cond i); [| exact Hs].
  apply IH.
  - apply Hbody; [lia | exact Hs].
  - intros j t Hj. apply Hbody. lia.
Qed.

Lemma for_range_inv {St : Type} (P : St -> Prop) (body : Z -> St -> St) lo hi s :
  P s ->
  (forall j t, lo <= j < hi -> P t -> P (body j t)) ->
  P (for_range lo hi body s).
Proof.
  intros Hs Hbody. unfold for_range. apply for_loop_inv; [exact Hs |].
  intros j t Hj. apply Hbody. lia.
Qed.

Lemma untouched_refl fb0 : untouched_outside fb0 fb0.
Proof. intros i _. reflexivity. Qed.

Lemma fb_store_outside fb0 fb i c :
  0 <= i < SCREEN_W * SCREEN_H ->
  untouched_outside fb0 fb -> untouched_outside fb0 (fb_store fb i c).
Proof.
  intros Hi H j Hj. unfold fb_store.
  destruct (Z.eqb_spec j i); [subst; contradiction | now apply H].
Qed.

(** Tests of the code as facts. *)
Ltac test_facts :=
  repeat match goal with
         | H : (_ && _) = true |- _ => apply andb_true_iff in H; destruct H
         | H : (_ || _) = false |- _ => apply orb_false_iff in H; destruct H
         | H : negb _ = true |- _ => apply negb_true_iff in H
         | H : negb _ = false |- _ => apply negb_false_iff in H
         | H : (_ <=? _) = true |- _ => apply Z.leb_le in H
         | H : (_ <=? _) = false |- _ => apply Z.leb_gt in H
         | H : (_ <? _) = true |- _ => apply Z.ltb_lt in H
         | H : (_ <? _) = false |- _ => apply Z.ltb_ge in H
         end.

Ltac screen_arith :=
  test_facts;
  unfold SCREEN_W, SCREEN_H, GLYPH_W, GLYPH_H, TEXT_COLS, BORDER_COLS,
    BORDER_ROWS, TERM_COLS, TERM_ROWS in *;
  repeat match goal with
         | H : context [if ?c then _ else _] |- _ =>
             let E := fresh "E" in destruct c eqn:E; test_facts
         | |- context [if ?c then _ else _] =>
             let E := fresh "E" in destruct c eqn:E; test_facts
         end;
  lia.

Ltac out_let_inline :=
  lazymatch goal with
  | |- untouched_outside _ (let x := ?u in @?B x) =>
      let t := eval cbv beta in (B u) in
      change (untouched_outside _ t) || fail 1
  end.

Ltac out_let :=
  lazymatch goal with
  | |- untouched_outside ?fb0 (let x := ?u in @?B x) =>
      lazymatch type of u with
      | fbuf =>
          let H := fresh "Hout" in
          assert (H : untouched_outside fb0 u);
          [ | revert H; generalize u; intros ? H;
              lazymatch goal with
              | |- untouched_outside ?a (let x := ?v in @?C x) =>
                  change (untouched_outside a (C v)); cbv beta
              end ]
      | _ => change (untouched_outside fb0 (B u)); cbv beta
      end
  end.

Ltac out_if :=
  lazymatch goal with
  | |- untouched_outside _ (if ?c then _ else _) =>
      let E := fresh "E" in destruct c eqn:E
  | |- untouched_outside _ (match ?c with _ => _ end) => destruct c
  end.

Ltac out_px prims :=
  repeat first
    [ assumption
    | out_let
    | out_if
    | lazymatch goal with
      | |- untouched_outside _ (fb_store _ _ _) =>
          apply fb_store_outside; [screen_arith |]
      | |- untouched_outside _ (for_range _ _ _ _) =>
          apply for_range_inv; [| intros ? ? ? ?]
      | |- untouched_outside _ (for_loop _ _ _ _ _) =>
          apply for_loop_inv; [| intros ? ? ? ?]
      end
    | prims ].

Section RendererBounds.

Variable font8x8_basic : Z -> Z -> Z.
Variable MASCOT_W MASCOT_H : Z.
Variable mascot_pixels : Z -> Z.
Variable WIKI_PAGE_COUNT : Z.
Variable wiki_pages : list wiki_page_t.

Lemma render_glyph_outside px py ch color fb0 fb :
  untouched_outside fb0 fb ->
  untouched_outside fb0 (render_glyph font8x8_basic px py ch color fb).
Proof. intros H. unfold render_glyph. out_px fail. Qed.

Lemma fill_rect_outside x0 y0 x1 y1 color fb0 fb :
  untouched_outside fb0 fb ->
  untouched_outside fb0 (fill_rect x0 y0 x1 y1 color fb).
Proof. intros H. unfold fill_rect. out_px fail. Qed.

Lemma render_mascot_outside cx cy alpha fb0 fb :
  untouched_outside fb0 fb ->
  untouched_outside fb0
    (render_mascot MASCOT_W MASCOT_H mascot_pixels cx cy alpha fb).
Proof. intros H. unfold render_mascot. out_px fail. Qed.

Lemma render_clear_outside fb0 fb :
  untouched_outside fb0 fb -> untouched_outside fb0 (render_clear fb).
Proof.
  intros H. unfold render_clear. cbv zeta. apply fill_rect_outside.
  out_px fail.
Qed.

Lemma text_loop_outside scol py col color fb0 str : forall i fb,
  untouched_outside fb0 fb ->
  untouched_outside fb0 (text_loop font8x8_basic i scol py col str color fb).
Proof.
  induction str as [| ch rest IH]; intros i fb H; cbn [text_loop]; [exact H |].
  destruct (col + i <? TEXT_COLS); [| exact H].
  cbv zeta. apply IH. now apply render_glyph_outside.
Qed.

Lemma render_text_outside col row str color fb0 fb :
  untouched_outside fb0 fb ->
  untouched_outside fb0 (render_text font8x8_basic col row str color fb).
Proof. intros H. unfold render_text. cbv zeta. now apply text_loop_outside. Qed.

Lemma render_text_inv_outside col row str fg bg fb0 fb :
  untouched_outside fb0 fb ->
  untouched_outside fb0 (render_text_inv font8x8_basic col row str fg bg fb).
Proof.
  intros H. unfold render_text_inv. cbv zeta.
  apply text_loop_outside. now apply fill_rect_outside.
Qed.

Lemma render_hline_outside row ch color fb0 fb :
  untouched_outside fb0 fb ->
  untouched_outside fb0 (render_hline font8x8_basic row ch color fb).
Proof.
  intros H. unfold render_hline. cbv zeta.
  apply for_range_inv; [exact H |]. intros j t _ Ht.
  now apply render_glyph_outside.
Qed.

Lemma type_line_outside str col row avail color fb0 fb :
  untouched_outside fb0 fb ->
  untouched_outside fb0 (snd (type_line font8x8_basic str col row avail color fb)).
Proof.
  intros H. unfold type_line. cbv zeta. cbn [snd].
  destruct (0 <? avail); [| exact H]. now apply render_text_outside.
Qed.

Lemma blink_cursor_outside col row frame fb0 fb :
  untouched_outside fb0 fb ->
  untouched_outside fb0 (blink_cursor col row frame fb).
Proof.
  intros H. unfold blink_cursor. cbv zeta.
  destruct (_ =? 0); [| exact H]. now apply fill_rect_outside.
Qed.

Lemma render_loading_bar_outside cy progress fb0 fb :
  untouched_outside fb0 fb ->
  untouched_outside fb0 (render_loading_bar cy progress fb).
Proof.
  intros H. unfold render_loading_bar. cbv zeta.
  apply for_loop_inv.
  - now do 2 apply fill_rect_outside.
  - intros j t _ Ht. destruct (_ <? _); [| exact Ht].
    now apply fill_rect_outside.
Qed.

Ltac screen_prims_outside :=
  idtac;
  lazymatch goal with
  | |- untouched_outside _ (render_clear _) => apply render_clear_outside
  | |- untouched_outside _ (render_text _ _ _ _ _ _) => apply render_text_outside
  | |- untouched_outside _ (render_text_inv _ _ _ _ _ _ _) =>
      apply render_text_inv_outside
  | |- untouched_outside _ (render_hline _ _ _ _ _) => apply render_hline_outside
  | |- untouched_outside _ (snd (type_line _ _ _ _ _ _ _)) =>
      apply type_line_outside
  | |- untouched_outside _ (blink_cursor _ _ _ _) => apply blink_cursor_outside
  | |- untouched_outside _ (render_mascot _ _ _ _ _ _ _) =>
      apply render_mascot_outside
  | |- untouched_outside _ (render_loading_bar _ _ _) =>
      apply render_loading_bar_outside
  end.

Lemma render_boot_outside frame fb :
  untouched_outside fb
    (render_boot font8x8_basic MASCOT_W MASCOT_H mascot_pixels frame fb).
Proof.
  pose proof (untouched_refl fb) as H. revert H. generalize fb at 1 3.
  intros fb0 H. cbv beta delta [render_boot].
  out_px screen_prims_outside.
Qed.

Lemma render_toc_outside cursor scroll fb :
  untouched_outside fb
    (render_toc font8x8_basic WIKI_PAGE_COUNT wiki_pages cursor scroll fb).
Proof.
  pose proof (untouched_refl fb) as H. revert H. generalize fb at 1 3.
  intros fb0 H. cbv beta delta [render_toc].
  out_px screen_prims_outside.
Qed.

Lemma render_page_outside page_idx scroll fb :
  untouched_outside fb
    (render_page font8x8_basic WIKI_PAGE_COUNT wiki_pages page_idx scroll fb).
Proof.
  pose proof (untouched_refl fb) as H. revert H. generalize fb at 1 3.
  intros fb0 H. cbv beta delta [render_page].
  out_px screen_prims_outside.
Qed.

End RendererBounds.

(* ================================================================== *)
(** * The screens are drawn from scratch *)

Section ScreenPurity.

Variable font8x8_basic : Z -> Z -> Z.
Variable MASCOT_W MASCOT_H : Z.
Variable mascot_pixels : Z -> Z.
Variable WIKI_PAGE_COUNT : Z.
Variable wiki_pages : list wiki_page_t.

Local Abbreviation run :=
  (retro_run font8x8_basic MASCOT_W MASCOT_H mascot_pixels
     WIKI_PAGE_COUNT wiki_pages).

Implicit Types (pad : joypad) (s t : core) (f : core -> core).

(** The handlers leave the framebuffer to the renderer. *)
Lemma framebuffer_sampled pad btn s :
  framebuffer (sampled pad btn s) = framebuffer s.
Proof. rewrite sampled_eq. reflexivity. Qed.

Lemma framebuffer_after_block pad btn f s :
  (forall t, framebuffer (f t) = framebuffer t) ->
  framebuffer (after_block pad btn f s) = framebuffer s.
Proof.
  intros Hf. unfold after_block. destruct (fires pad btn s);
    rewrite ?Hf; apply framebuffer_sampled.
Qed.

Lemma framebuffer_after_either pad a b f s :
  (forall t, framebuffer (f t) = framebuffer t) ->
  framebuffer (after_either pad a b f s) = framebuffer s.
Proof.
  intros Hf. unfold after_either.
  destruct (fires pad a s); [| destruct (fires pad b _)];
    rewrite ?Hf, ?framebuffer_sampled; reflexivity.
Qed.

Ltac move_keeps_framebuffer :=
  intros [fb st gl bt tc ts cp ps hf];
  unfold toc_step_up, toc_step_down, toc_page_up, toc_page_down, toc_open,
    toc_left_open, page_line_up, page_line_down, page_page_up,
    page_page_down, page_prev, page_next, page_back;
  cbn;
  repeat match goal with
         | |- context [if ?c then _ else _] =>
             lazymatch c with
             | context [if _ then _ else _] => fail
             | _ => destruct c; cbn
             end
         end; reflexivity.

Lemma handle_toc_input_framebuffer pad s :
  framebuffer (snd (handle_toc_input WIKI_PAGE_COUNT pad s)) = framebuffer s.
Proof.
  rewrite handle_toc_input_blocks.
  repeat first [ rewrite framebuffer_after_block by move_keeps_framebuffer
               | rewrite framebuffer_after_either by move_keeps_framebuffer ].
  reflexivity.
Qed.

Lemma handle_page_input_framebuffer pad s :
  framebuffer (snd (handle_page_input WIKI_PAGE_COUNT wiki_pages pad s))
  = framebuffer s.
Proof.
  rewrite handle_page_input_blocks.
  repeat first [ rewrite framebuffer_after_block by move_keeps_framebuffer
               | rewrite framebuffer_after_either by move_keeps_framebuffer ].
  reflexivity.
Qed.

(** X11.  No screen renderer writes outside the framebuffer array: on
    every index that is not in [0, SCREEN_W * SCREEN_H) the store after
    [render_boot], [render_toc] and [render_page] holds what it held
    before, whatever the frame counter, the cursor, the scroll offset, the
    document index (also one outside the catalog) and the baked tables;
    so does the store after any frame. *)
Theorem renderers_stay_inside_the_array fb i :
  ~ (0 <= i < SCREEN_W * SCREEN_H) ->
  (forall frame,
      render_boot font8x8_basic MASCOT_W MASCOT_H mascot_pixels frame fb i = fb i) /\
  (forall cursor scroll,
      render_toc font8x8_basic WIKI_PAGE_COUNT wiki_pages cursor scroll fb i
      = fb i) /\
  (forall page_idx scroll,
      render_page font8x8_basic WIKI_PAGE_COUNT wiki_pages page_idx scroll fb i
      = fb i) /\
  (forall pad s, framebuffer s = fb -> framebuffer (fst (run pad s)) i = fb i).
Proof.
  intros Hi. split; [| split; [| split]].
  - intros frame. now apply render_boot_outside.
  - intros cursor scroll. now apply render_toc_outside.
  - intros page_idx scroll. now apply render_page_outside.
  - intros pad s <-. unfold retro_run.
    destruct (game_loaded s); cbn [negb fst]; [| reflexivity].
    destruct (state s).
    + unfold run_boot. cbv zeta. cbn [framebuffer set_framebuffer].
      destruct (_ || _); now apply render_boot_outside.
    + unfold run_toc. cbv zeta. cbn [framebuffer set_framebuffer].
      rewrite render_toc_outside by exact Hi.
      now rewrite handle_toc_input_framebuffer.
    + unfold run_page. cbv zeta. cbn [framebuffer set_framebuffer].
      rewrite render_page_outside by exact Hi.
      now rewrite handle_page_input_framebuffer.
Qed.

Lemma render_text_inv_same col row str fg bg fb1 fb2 :
  same_pixels fb1 fb2 ->
  same_pixels (render_text_inv font8x8_basic col row str fg bg fb1)
    (render_text_inv font8x8_basic col row str fg bg fb2).
Proof.
  intros H. unfold render_text_inv. cbv zeta.
  apply text_loop_same. now apply fill_rect_same.
Qed.

Lemma render_hline_same row ch color fb1 fb2 :
  same_pixels fb1 fb2 ->
  same_pixels (render_hline font8x8_basic row ch color fb1)
    (render_hline font8x8_basic row ch color fb2).
Proof.
  intros H. unfold render_hline. cbv zeta.
  apply for_range_same; [| exact H]. intros j a b Hab.
  now apply render_glyph_same.
Qed.

Ltac screen_prims_same :=
  idtac;
  lazymatch goal with
  | |- same_pixels (render_clear _) (render_clear _) => apply render_clear_same
  | |- same_pixels (render_text _ _ _ _ _ _) (render_text _ _ _ _ _ _) =>
      apply render_text_same
  | |- same_pixels (render_text_inv _ _ _ _ _ _ _) (render_text_inv _ _ _ _ _ _ _) =>
      apply render_text_inv_same
  | |- same_pixels (render_hline _ _ _ _ _) (render_hline _ _ _ _ _) =>
      apply render_hline_same
  end.

(** X12.  The table of contents and the viewer are drawn from scratch
    like the boot screen: [render_toc] and [render_page] run on any two
    starting framebuffers leave the same pixel in every cell of the array,
    so what they show is a function of the cursor and scroll offset,
    respectively of the document index and scroll offset, and of the
    catalog alone. *)
Theorem toc_and_page_drawn_from_scratch fb1 fb2 :
  (forall cursor scroll,
      same_pixels
        (render_toc font8x8_basic WIKI_PAGE_COUNT wiki_pages cursor scroll fb1)
        (render_toc font8x8_basic WIKI_PAGE_COUNT wiki_pages cursor scroll fb2)) /\
  (forall page_idx scroll,
      same_pixels
        (render_page font8x8_basic WIKI_PAGE_COUNT wiki_pages page_idx scroll fb1)
        (render_page font8x8_basic WIKI_PAGE_COUNT wiki_pages page_idx scroll fb2)).
Proof.
  split.
  - intros cursor scroll. cbv beta delta [render_toc].
    same_px screen_prims_same.
  - intros page_idx scroll. cbv beta delta [render_page].
    same_px screen_prims_same.
Qed.

End ScreenPurity.

(* ================================================================== *)
(** * What the primitives paint *)

Lemma for_loop_all_true {St : Type} (body : Z -> St -> St) n : forall i s,
  for_loop (S n) i (fun _ => true) body s
  = for_loop n (i + 1) (fun _ => true) body (body i s).
Proof. reflexivity. Qed.

(** A row of stores [fb[base + x] = c] for [x] from [i0]. *)
Lemma row_loop_pixel base c : forall n i0 (fb : fbuf) p,
  for_loop n i0 (fun _ => true) (fun x fb => fb_store fb (base + x) c) fb p
  = if (base + i0 <=? p) && (p <? base + i0 + Z.of_nat n) then c else fb p.
Proof.
  induction n as [| n IH]; intros i0 fb p; cbn [for_loop].
  - destruct (Z.leb_spec (base + i0) p), (Z.ltb_spec p (base + i0 + Z.of_nat 0));
      cbn; lia || reflexivity.
  - rewrite IH. unfold fb_store.
    destruct (Z.leb_spec (base + (i0 + 1)) p),
      (Z.ltb_spec p (base + (i0 + 1) + Z.of_nat n)),
      (Z.leb_spec (base + i0) p), (Z.ltb_spec p (base + i0 + Z.of_nat (S n))),
      (Z.eqb_spec p (base + i0)); cbn; lia || reflexivity.
Qed.

Lemma row_range_pixel base c lo hi (fb : fbuf) p :
  for_range lo hi (fun x fb => fb_store fb (base + x) c) fb p
  = if (base + lo <=? p) && (p <? base + hi) then c else fb p.
Proof.
  unfold for_range. rewrite row_loop_pixel.
  destruct (Z.leb_spec (base + lo) p),
    (Z.ltb_spec p (base + lo + Z.of_nat (Z.to_nat (hi - lo)))),
    (Z.ltb_spec p (base + hi)); cbn; lia || reflexivity.
Qed.

(** Rows [j0 .. j0 + n) of a rectangle whose columns lie on the screen. *)
Lemma rows_loop_pixel c xa xb x y :
  0 <= xa -> xb <= SCREEN_W -> 0 <= x < SCREEN_W ->
  forall n j0 (fb : fbuf),
    for_loop n j0 (fun _ => true)
      (fun yy fb =>
         for_range xa xb (fun xx fb => fb_store fb (yy * SCREEN_W + xx) c) fb)
      fb (y * SCREEN_W + x)
    = if (j0 <=? y) && (y <? j0 + Z.of_nat n) && (xa <=? x) && (x <? xb)
      then c else fb (y * SCREEN_W + x).
Proof.
  intros Ha Hb Hx. induction n as [| n IH]; intros j0 fb; cbn [for_loop].
  - destruct (Z.leb_spec j0 y), (Z.ltb_spec y (j0 + Z.of_nat 0));
      cbn; lia || reflexivity.
  - rewrite IH, row_range_pixel. unfold SCREEN_W in *.
    destruct (Z.leb_spec (j0 + 1) y), (Z.ltb_spec y (j0 + 1 + Z.of_nat n)),
      (Z.leb_spec j0 y), (Z.ltb_spec y (j0 + Z.of_nat (S n))),
      (Z.leb_spec xa x), (Z.ltb_spec x xb),
      (Z.leb_spec (j0 * 640 + xa) (y * 640 + x)),
      (Z.ltb_spec (y * 640 + x) (j0 * 640 + xb)); cbn; lia || reflexivity.
Qed.

Lemma fill_rect_paints x0 y0 x1 y1 color (fb : fbuf) x y :
  0 <= x < SCREEN_W -> 0 <= y < SCREEN_H ->
  fill_rect x0 y0 x1 y1 color fb (y * SCREEN_W + x)
  = if (x0 <=? x) && (x <? x1) && (y0 <=? y) && (y <? y1)
    then color else fb (y * SCREEN_W + x).
Proof.
  intros Hx Hy. unfold fill_rect. unfold for_range at 1.
  rewrite rows_loop_pixel.
  - unfold SCREEN_W, SCREEN_H in *.
    repeat match goal with
           | |- context [if ?a <? ?b then _ else _] =>
               lazymatch a with context [if _ then _ else _] => fail | _ =>
               lazymatch b with context [if _ then _ else _] => fail | _ =>
               destruct (Z.ltb_spec a b) end end
           end;
    repeat match goal with
           | |- context [?a <=? ?b] => destruct (Z.leb_spec a b)
           | |- context [?a <? ?b] => destruct (Z.ltb_spec a b)
           end; cbn; lia || reflexivity.
  - destruct (x0 <? 0) eqn:E; [lia | now apply Z.ltb_ge in E].
  - destruct (SCREEN_W <? x1) eqn:E; [lia | now apply Z.ltb_ge in E].
  - exact Hx.
Qed.

(** X13.  [fill_rect] paints exactly the part of the rectangle
    [x0 <= x < x1], [y0 <= y < y1] that lies on the screen: a pixel of the
    screen inside it gets the colour, every other pixel of the screen
    keeps its own, whatever the corners (negative, past the screen, or
    crossed), and no index outside the array is written. *)
Theorem fill_rect_pixel x0 y0 x1 y1 color (fb : fbuf) :
  (forall x y,
      0 <= x < SCREEN_W -> 0 <= y < SCREEN_H ->
      fill_rect x0 y0 x1 y1 color fb (y * SCREEN_W + x)
      = if (x0 <=? x) && (x <? x1) && (y0 <=? y) && (y <? y1)
        then color else fb (y * SCREEN_W + x)) /\
  (forall i, ~ (0 <= i < SCREEN_W * SCREEN_H) ->
             fill_rect x0 y0 x1 y1 color fb i = fb i).
Proof.
  split.
  - intros x y Hx Hy. now apply fill_rect_paints.
  - intros i Hi.
    exact (fill_rect_outside x0 y0 x1 y1 color fb fb (untouched_refl fb) i Hi).
Qed.

(** X14.  After [render_clear] every pixel of the screen is either
    background or border, whatever was there: background inside the text
    area, which starts [BORDER_COLS] glyph columns and [BORDER_ROWS] glyph
    rows in from each edge, and border colour around it. *)
Theorem render_clear_picture (fb : fbuf) x y :
  0 <= x < SCREEN_W -> 0 <= y < SCREEN_H ->
  render_clear fb (y * SCREEN_W + x)
  = if (BORDER_COLS * GLYPH_W <=? x)
       && (x <? (TERM_COLS - BORDER_COLS) * GLYPH_W)
       && (BORDER_ROWS * GLYPH_H <=? y)
       && (y <? (TERM_ROWS - BORDER_ROWS) * GLYPH_H)
    then COL_BG else COL_BORDER.
Proof.
  intros Hx Hy. unfold render_clear. cbv zeta.
  rewrite fill_rect_paints by assumption.
  destruct (_ && _); [reflexivity |].
  unfold for_range. rewrite clear_loop_pixel.
  rewrite Z2Nat.id by (unfold SCREEN_W, SCREEN_H; lia).
  unfold SCREEN_W, SCREEN_H in *.
  destruct (Z.leb_spec 0 (y * 640 + x)),
    (Z.ltb_spec (y * 640 + x) (0 + (640 * 480 - 0))); cbn; lia || reflexivity.
Qed.

Section TextClipping.

Variable font8x8_basic : Z -> Z -> Z.

Lemma text_loop_clips scol py col color s2 : forall s1 i fb,
  TEXT_COLS <= col + i + strlen s1 ->
  text_loop font8x8_basic i scol py col (String.append s1 s2) color fb
  = text_loop font8x8_basic i scol py col s1 color fb.
Proof.
  induction s1 as [| ch rest IH]; intros i fb H.
  - cbn [String.append text_loop]. unfold strlen in H. cbn in H.
    destruct s2 as [| ch2 rest2]; [reflexivity |]. cbn [text_loop].
    destruct (Z.ltb_spec (col + i) TEXT_COLS); [lia | reflexivity].
  - cbn [String.append text_loop].
    destruct (col + i <? TEXT_COLS); [| reflexivity].
    cbv zeta. apply IH. unfold strlen in *. cbn [String.length] in H. lia.
Qed.

(** X15.  [render_text] clips at the right edge of the text area and
    never wraps: characters that would start at text column [TEXT_COLS] or
    beyond are not drawn, so a string drawn from column [col] shows at most
    its first [TEXT_COLS - col] characters, and nothing at all when [col]
    is already [TEXT_COLS] or more. *)
Theorem render_text_clips col row s1 s2 color fb :
  TEXT_COLS <= col + strlen s1 ->
  render_text font8x8_basic col row (String.append s1 s2) color fb
  = render_text font8x8_basic col row s1 color fb.
Proof.
  intros H. unfold render_text. cbv zeta. apply text_loop_clips. lia.
Qed.

End TextClipping.

(* ================================================================== *)
(** * What a glyph paints *)

Lemma for_range_steps {St : Type} (P : Z -> St -> Prop) (body : Z -> St -> St) lo hi s :
  lo <= hi ->
  P lo s ->
  (forall j t, lo <= j < hi -> P j t -> P (j + 1) (body j t)) ->
  P hi (for_range lo hi body s).
Proof.
  intros Hle Hs Hstep. unfold for_range.
  assert (G : forall n i t, i + Z.of_nat n = hi -> lo <= i -> P i t ->
                            P hi (for_loop n i (fun _ => true) body t)).
  { induction n as [| n IH]; intros i t Hi Hlo Ht; cbn [for_loop].
    - replace hi with i by lia. exact Ht.
    - apply IH; [lia | lia |]. apply Hstep; [lia | exact Ht]. }
  apply G; [lia | lia | exact Hs].
Qed.

Section GlyphPixels.

Variable font8x8_basic : Z -> Z -> Z.

(** The two screen rows of one glyph row, column by column. *)
Lemma glyph_row_pixel (bit : Z -> bool) px sy color x y :
  0 <= x < SCREEN_W -> 0 <= y < SCREEN_H ->
  forall t : fbuf,
    for_range 0 8
      (fun (col : Z) (fb1 : fbuf) =>
         if bit col
         then
           if (0 <=? px + col) && (px + col <? SCREEN_W)
           then
             if (0 <=? sy + 1) && (sy + 1 <? SCREEN_H)
             then
               fb_store
                 (if (0 <=? sy) && (sy <? SCREEN_H)
                  then fb_store fb1 (sy * SCREEN_W + (px + col)) color
                  else fb1)
                 ((sy + 1) * SCREEN_W + (px + col)) color
             else
               if (0 <=? sy) && (sy <? SCREEN_H)
               then fb_store fb1 (sy * SCREEN_W + (px + col)) color
               else fb1
           else fb1
         else fb1) t (y * SCREEN_W + x)
    = if ((y =? sy) || (y =? sy + 1)) && (px <=? x) && (x <? px + 8)
         && bit (x - px)
      then color else t (y * SCREEN_W + x).
Proof.
  intros Hx Hy t.
  apply (for_range_steps
           (fun c (t' : fbuf) =>
              t' (y * SCREEN_W + x)
              = if ((y =? sy) || (y =? sy + 1)) && (px <=? x) && (x <? px + c)
                   && bit (x - px)
                then color else t (y * SCREEN_W + x))).
  - lia.
  - destruct ((y =? sy) || (y =? sy + 1)), (Z.leb_spec px x),
      (Z.ltb_spec x (px + 0)); cbn; lia || reflexivity.
  - intros c t' Hc Ht'. cbv beta.
    destruct (Z.eq_dec x (px + c)) as [-> | Hne].
    + replace (px + c - px) with c in * by lia.
      destruct (bit c).
      * unfold fb_store, SCREEN_W, SCREEN_H in *.
        repeat match goal with
               | |- context [?a <=? ?b] => destruct (Z.leb_spec a b)
               | |- context [?a <? ?b] => destruct (Z.ltb_spec a b)
               | |- context [?a =? ?b] => destruct (Z.eqb_spec a b)
               end; cbn; try lia; try reflexivity;
          rewrite Ht';
          repeat match goal with
                 | |- context [?a <=? ?b] => destruct (Z.leb_spec a b)
                 | |- context [?a <? ?b] => destruct (Z.ltb_spec a b)
                 | |- context [?a =? ?b] => destruct (Z.eqb_spec a b)
                 end; cbn; lia || reflexivity.
      * rewrite Ht'. rewrite !andb_false_r. reflexivity.
    + assert (Hcond : (x <? px + (c + 1)) = (x <? px + c)).
      { destruct (Z.ltb_spec x (px + (c + 1))), (Z.ltb_spec x (px + c)); lia || reflexivity. }
      rewrite Hcond, <- Ht'.
      destruct (bit c); [| reflexivity].
      destruct ((0 <=? px + c) && (px + c <? SCREEN_W)) eqn:G; [| reflexivity].
      apply andb_true_iff in G. destruct G as [G1 G2].
      apply Z.leb_le in G1. apply Z.ltb_lt in G2.
      assert (Hsame : forall (u : fbuf) sy',
                 fb_store u (sy' * SCREEN_W + (px + c)) color (y * SCREEN_W + x)
                 = u (y * SCREEN_W + x)).
      { intros u sy'. unfold fb_store, SCREEN_W in *.
        destruct (Z.eqb_spec (y * 640 + x) (sy' * 640 + (px + c))); [lia | reflexivity]. }
      repeat match goal with
             | |- context [if ?b then _ else _] =>
                 lazymatch b with
                 | context [if _ then _ else _] => fail
                 | _ => destruct b
                 end
             end; rewrite ?Hsame; reflexivity.
Qed.

Lemma render_glyph_paints px py ch color (fb : fbuf) x y :
  0 <= x < SCREEN_W -> 0 <= y < SCREEN_H ->
  render_glyph font8x8_basic px py ch color fb (y * SCREEN_W + x)
  = if (px <=? x) && (x <? px + GLYPH_W) && (py <=? y) && (y <? py + GLYPH_H)
       && glyph_bit font8x8_basic ch ((y - py) / 2) (x - px)
    then color else fb (y * SCREEN_W + x).
Proof.
  intros Hx Hy. unfold render_glyph.
  change (py + GLYPH_H) with (py + 8 * 2). change GLYPH_W with 8.
  apply (for_range_steps
           (fun r (t : fbuf) =>
              t (y * SCREEN_W + x)
              = if (px <=? x) && (x <? px + 8) && (py <=? y) && (y <? py + r * 2)
                   && glyph_bit font8x8_basic ch ((y - py) / 2) (x - px)
                then color else fb (y * SCREEN_W + x))).
  - lia.
  - destruct (Z.leb_spec px x), (Z.ltb_spec x (px + 8)), (Z.leb_spec py y),
      (Z.ltb_spec y (py + 0 * 2)); cbn; lia || reflexivity.
  - intros r t Hr Ht. cbv beta.
    pose proof (glyph_row_pixel
                  (fun col =>
                     negb (Z.land
                             (font8x8_basic
                                (if 128 <=? ch then char_code "?" else ch) r
                              mod 256) (Z.shiftl 1 col) =? 0))
                  px (py + r * 2) color x y Hx Hy t) as E.
    cbv beta in E. rewrite E. clear E.
    destruct ((y =? py + r * 2) || (y =? py + r * 2 + 1)) eqn:Erow.
    + assert (Hy2 : y = py + r * 2 \/ y = py + r * 2 + 1).
      { apply orb_true_iff in Erow. destruct Erow as [H | H];
          apply Z.eqb_eq in H; lia. }
      assert (Hdiv : (y - py) / 2 = r)
        by (Z.div_mod_to_equations; lia).
      rewrite Ht, Hdiv. unfold glyph_bit. cbv zeta.
      destruct (negb _);
        destruct (Z.leb_spec px x), (Z.ltb_spec x (px + 8)), (Z.leb_spec py y),
          (Z.ltb_spec y (py + r * 2)), (Z.ltb_spec y (py + (r + 1) * 2));
        cbn; lia || reflexivity.
    + apply orb_false_iff in Erow. destruct Erow as [H1 H2].
      apply Z.eqb_neq in H1. apply Z.eqb_neq in H2.
      cbn [andb]. rewrite Ht.
      replace (y <? py + (r + 1) * 2) with (y <? py + r * 2); [reflexivity |].
      destruct (Z.ltb_spec y (py + r * 2)), (Z.ltb_spec y (py + (r + 1) * 2));
        lia || reflexivity.
Qed.

(** X16.  [render_glyph] paints the 8x8 bitmap of a character into the
    8x16 cell at its origin, each bitmap row on two screen rows, and
    nothing else: a pixel of the screen takes the colour exactly when it
    lies in the cell and the bit of its column is set in the bitmap row of
    its screen row; the part of a cell that is off the screen is dropped,
    and no index outside the array is written. *)
Theorem render_glyph_pixel px py ch color (fb : fbuf) :
  (forall x y,
      0 <= x < SCREEN_W -> 0 <= y < SCREEN_H ->
      render_glyph font8x8_basic px py ch color fb (y * SCREEN_W + x)
      = if (px <=? x) && (x <? px + GLYPH_W) && (py <=? y)
           && (y <? py + GLYPH_H)
           && glyph_bit font8x8_basic ch ((y - py) / 2) (x - px)
        then color else fb (y * SCREEN_W + x)) /\
  (forall i, ~ (0 <= i < SCREEN_W * SCREEN_H) ->
             render_glyph font8x8_basic px py ch color fb i = fb i).
Proof.
  split.
  - intros x y Hx Hy. now apply render_glyph_paints.
  - intros i Hi.
    exact (render_glyph_outside font8x8_basic px py ch color fb fb
             (untouched_refl fb) i Hi).
Qed.

End GlyphPixels.

(* ================================================================== *)
(** * Rules as text *)

Section RuleRows.

Variable font8x8_basic : Z -> Z -> Z.

Lemma for_loop_succ {St : Type} n i cond (body : Z -> St -> St) s :
  for_loop (S n) i cond body s
  = if cond i then for_loop n (i + 1) cond body (body i s) else s.
Proof. reflexivity. Qed.

Lemma text_loop_cons i scol py col ch rest color fb :
  text_loop font8x8_basic i scol py col (String ch rest) color fb
  = if col + i <? TEXT_COLS
    then text_loop font8x8_basic (i + 1) scol py col rest color
           (render_glyph font8x8_basic ((scol + i) * GLYPH_W) py
              (char_code ch) color fb)
    else fb.
Proof. reflexivity. Qed.

Lemma rule_loop_text py ch color n : forall i fb,
  i + Z.of_nat n <= TEXT_COLS ->
  for_loop n i (fun _ => true)
    (fun i fb =>
       render_glyph font8x8_basic ((BORDER_COLS + i) * GLYPH_W) py
         (char_code ch) color fb) fb
  = text_loop font8x8_basic i BORDER_COLS py 0
      (string_of_list_ascii (repeat ch n)) color fb.
Proof.
  induction n as [| n IH]; intros i fb Hi; [reflexivity |].
  rewrite for_loop_succ.
  change (string_of_list_ascii (repeat ch (S n)))
    with (String ch (string_of_list_ascii (repeat ch n))).
  rewrite text_loop_cons.
  destruct (Z.ltb_spec (0 + i) TEXT_COLS); [| lia].
  apply IH. lia.
Qed.

(** X17.  A rule is a row of text: [render_hline] draws what
    [render_text] draws from text column 0 for the string of [TEXT_COLS]
    copies of the character, so a rule fills the width of the text area
    and stays inside it. *)
Theorem render_hline_is_text_row row ch color fb :
  render_hline font8x8_basic row ch color fb
  = render_text font8x8_basic 0 row
      (string_of_list_ascii (repeat ch (Z.to_nat TEXT_COLS))) color fb.
Proof.
  unfold render_hline, render_text, for_range. cbv zeta.
  change (0 + BORDER_COLS) with BORDER_COLS.
  change (Z.to_nat (TEXT_COLS - 0)) with (Z.to_nat TEXT_COLS).
  apply rule_loop_text. unfold TEXT_COLS. lia.
Qed.

End RuleRows.

(* ================================================================== *)
(** * The boot animation *)

Section BootAnimation.

Variable font8x8_basic : Z -> Z -> Z.
Variable MASCOT_W MASCOT_H : Z.
Variable mascot_pixels : Z -> Z.

(** X18.  The boot screen is at rest from frame 540 on: once the sprite
    is opaque and the bar is full, [render_boot] draws the frame it draws
    at 560, for every later frame counter. *)
Theorem boot_screen_at_rest frame fb :
  540 <= frame ->
  render_boot font8x8_basic MASCOT_W MASCOT_H mascot_pixels frame fb
  = render_boot font8x8_basic MASCOT_W MASCOT_H mascot_pixels 560 fb.
Proof.
  intros H. cbv beta delta [render_boot].
  change (560 <? 360) with false. change (560 <? 560) with false.
  destruct (Z.ltb_spec frame 360) as [? | _]; [lia |].
  lazy beta iota zeta.
  destruct (Z.ltb_spec frame 560) as [Hlt | _]; [| reflexivity].
  assert (Hfade : Z.quot ((frame - 360) * 255) 60 >= 256).
  { rewrite Z.quot_div_nonneg by lia. Z.div_mod_to_equations. lia. }
  assert (Hprog : Z.quot ((frame - 360 - 30) * 256) 150 >= 256).
  { rewrite Z.quot_div_nonneg by lia. Z.div_mod_to_equations. lia. }
  destruct (Z.ltb_spec 255 (Z.quot ((frame - 360) * 255) 60)); [| lia].
  destruct (Z.ltb_spec (Z.quot ((frame - 360 - 30) * 256) 150) 0); [lia |].
  destruct (Z.ltb_spec 20 (frame - 360)); [| lia].
  destruct (Z.ltb_spec 256 (Z.quot ((frame - 360 - 30) * 256) 150)).
  - reflexivity.
  - replace (Z.quot ((frame - 360 - 30) * 256) 150) with 256 by lia.
    reflexivity.
Qed.

End BootAnimation.

(** X19.  The caret of the boot screen blinks on a 60-frame cycle: for a
    frame counter that is not negative, [blink_cursor] draws the block
    exactly in the first 30 frames of each 60, and a frame and the frame
    60 later draw the same. *)
Theorem blink_cursor_cycle col row frame fb :
  0 <= frame ->
  blink_cursor col row frame fb
  = (if frame mod 60 <? 30
     then fill_rect ((col + BORDER_COLS) * GLYPH_W) ((row + BORDER_ROWS) * GLYPH_H)
            ((col + BORDER_COLS) * GLYPH_W + GLYPH_W)
            ((row + BORDER_ROWS) * GLYPH_H + GLYPH_H) COL_FG fb
     else fb) /\
  blink_cursor col row (frame + 60) fb = blink_cursor col row frame fb.
Proof.
  intros H.
  assert (Hphase : forall f, 0 <= f ->
             (Z.rem (Z.quot f 30) 2 =? 0) = (f mod 60 <? 30)).
  { intros f Hf. rewrite Z.quot_div_nonneg by lia.
    rewrite Z.rem_mod_nonneg by (try apply Z.div_pos; lia).
    destruct (Z.eqb_spec ((f / 30) mod 2) 0), (Z.ltb_spec (f mod 60) 30);
      try reflexivity; Z.div_mod_to_equations; lia. }
  unfold blink_cursor. cbv zeta. rewrite !Hphase by lia.
  split; [reflexivity |].
  replace ((frame + 60) mod 60) with (frame mod 60); [reflexivity |].
  Z.div_mod_to_equations. lia.
Qed.

(* ================================================================== *)
(** * The fade of the sprite *)

Section MascotFade.

Variable MASCOT_W MASCOT_H : Z.
Variable mascot_pixels : Z -> Z.

Local Abbreviation mascot := (render_mascot MASCOT_W MASCOT_H mascot_pixels).

(** X20.  The two ends of the fade of [render_mascot].  At alpha 0 the
    sprite is invisible on the cleared screen: every pixel it writes is
    the background colour.  At alpha 255 or more nothing is blended: every
    pixel it writes is a sprite pixel that is not fully transparent, with
    the alpha byte forced to [0xFF]. *)
Theorem render_mascot_fade_ends cx cy fb p :
  (mascot cx cy 0 fb p = fb p \/ mascot cx cy 0 fb p = COL_BG) /\
  (forall alpha,
      255 <= alpha ->
      mascot cx cy alpha fb p = fb p \/
      exists k, 0 <= k < MASCOT_W * MASCOT_H /\
                Z.shiftr (mascot_pixels k) 24 <> 0 /\
                mascot cx cy alpha fb p = Z.lor (mascot_pixels k) 0xFF000000).
Proof.
  split.
  - unfold render_mascot. cbv zeta.
    apply (for_range_inv (fun t : fbuf => t p = fb p \/ t p = COL_BG));
      [now left |].
    intros y t _ Ht.
    destruct ((cy - Z.quot MASCOT_H 2 + y <? 0)
              || (SCREEN_H <=? cy - Z.quot MASCOT_H 2 + y)); [exact Ht |].
    apply (for_range_inv (fun t : fbuf => t p = fb p \/ t p = COL_BG));
      [exact Ht |].
    intros x u _ Hu.
    destruct ((cx - Z.quot MASCOT_W 2 + x <? 0)
              || (SCREEN_W <=? cx - Z.quot MASCOT_W 2 + x)); [exact Hu |].
    destruct (Z.shiftr (mascot_pixels (y * MASCOT_W + x)) 24 =? 0);
      [exact Hu |].
    change (255 <=? 0) with false. cbv iota.
    unfold fb_store. destruct (p =? _); [| exact Hu].
    right. rewrite !Z.mul_0_r. reflexivity.
  - intros alpha Ha. unfold render_mascot. cbv zeta.
    set (P := fun t : fbuf =>
                t p = fb p \/
                exists k, 0 <= k < MASCOT_W * MASCOT_H /\
                          Z.shiftr (mascot_pixels k) 24 <> 0 /\
                          t p = Z.lor (mascot_pixels k) 0xFF000000).
    apply (for_range_inv P); [now left |].
    intros y t Hy Ht.
    destruct ((cy - Z.quot MASCOT_H 2 + y <? 0)
              || (SCREEN_H <=? cy - Z.quot MASCOT_H 2 + y)); [exact Ht |].
    apply (for_range_inv P); [exact Ht |].
    intros x u Hx Hu.
    destruct ((cx - Z.quot MASCOT_W 2 + x <? 0)
              || (SCREEN_W <=? cx - Z.quot MASCOT_W 2 + x)); [exact Hu |].
    destruct (Z.eqb_spec (Z.shiftr (mascot_pixels (y * MASCOT_W + x)) 24) 0)
      as [| Hopaque]; [exact Hu |].
    destruct (Z.leb_spec 255 alpha); [| lia].
    unfold P, fb_store. destruct (p =? _); [| exact Hu].
    right. exists (y * MASCOT_W + x). repeat split; try assumption; nia.
Qed.

End MascotFade.

(* ================================================================== *)
(** * The further properties on sample data *)

Lemma frame_counters_witness :
  held (snd (handle_toc_input 3 (pad_only RETRO_DEVICE_ID_JOYPAD_DOWN) (toc_at 0 0)))
    RETRO_DEVICE_ID_JOYPAD_DOWN = 1 /\
  held (snd (handle_toc_input 3 (pad_only RETRO_DEVICE_ID_JOYPAD_A) (toc_at 0 0)))
    RETRO_DEVICE_ID_JOYPAD_RIGHT = 0 /\
  held (snd (handle_page_input 3 three_pages (pad_only RETRO_DEVICE_ID_JOYPAD_B)
               (page_at 1 0 1 0)))
    RETRO_DEVICE_ID_JOYPAD_B = 1.
Proof.
  pose proof (frame_counters 3 three_pages (pad_only RETRO_DEVICE_ID_JOYPAD_DOWN)
                (toc_at 0 0) eq_refl) as H1.
  pose proof (frame_counters 3 three_pages (pad_only RETRO_DEVICE_ID_JOYPAD_A)
                (toc_at 0 0) eq_refl) as H2.
  pose proof (frame_counters 3 three_pages (pad_only RETRO_DEVICE_ID_JOYPAD_B)
                (page_at 1 0 1 0) eq_refl) as H3.
  cbv zeta in H1, H2, H3.
  destruct H1 as [(H1 & _) _], H2 as [(_ & H2 & _) _], H3 as [_ (H3 & _)].
  split; [| split].
  - exact (H1 RETRO_DEVICE_ID_JOYPAD_DOWN (or_intror (or_introl eq_refl))).
  - exact H2.
  - apply (H3 RETRO_DEVICE_ID_JOYPAD_B). cbn. tauto.
Defined.

Lemma counters_stay_well_formed_witness :
  counters_upto (0 + 1)
    (fst (retro_run sample_font 2 2 sample_mascot 3 three_pages
            (pad_only RETRO_DEVICE_ID_JOYPAD_A) (toc_at 0 0))).
Proof.
  assert (Hk : 0 <= 0 < INT_MAX) by (unfold INT_MAX; lia).
  assert (H : counters_upto 0 (toc_at 0 0)).
  { split; [reflexivity |]. cbn. repeat constructor; lia. }
  exact (proj1 (counters_stay_well_formed sample_font 2 2 sample_mascot 3
                  three_pages)
           (pad_only RETRO_DEVICE_ID_JOYPAD_A) (toc_at 0 0) 0 Hk H).
Defined.

Lemma cursor_stays_visible_witness :
  1 <= 3 /\
  cursor_visible
    (fst (retro_run sample_font 2 2 sample_mascot 3 three_pages
            (pad_only RETRO_DEVICE_ID_JOYPAD_DOWN) (toc_at 2 0))).
Proof.
  assert (Hn : 1 <= 3) by lia.
  split; [exact Hn |].
  assert (Hinv : nav_inv 3 three_pages (toc_at 2 0)).
  { unfold nav_inv, CONTENT_ROWS. cbn. lia. }
  assert (Hvis : cursor_visible (toc_at 2 0)).
  { unfold cursor_visible, CONTENT_ROWS. cbn. lia. }
  exact (proj1 (proj2 (cursor_stays_visible sample_font 2 2 sample_mascot 3
                         three_pages Hn))
           (pad_only RETRO_DEVICE_ID_JOYPAD_DOWN) (toc_at 2 0) Hinv Hvis).
Defined.

Lemma screen_transitions_witness :
  state (fst (retro_run sample_font 2 2 sample_mascot 3 three_pages
                (pad_only RETRO_DEVICE_ID_JOYPAD_A) (toc_at 0 0))) = STATE_PAGE /\
  state (fst (retro_run sample_font 2 2 sample_mascot 3 three_pages
                (pad_only RETRO_DEVICE_ID_JOYPAD_START) (page_at 1 0 0 0))) = STATE_TOC.
Proof.
  pose proof (screen_transitions sample_font 2 2 sample_mascot 3 three_pages
                (pad_only RETRO_DEVICE_ID_JOYPAD_A) (toc_at 0 0) eq_refl) as H1.
  pose proof (screen_transitions sample_font 2 2 sample_mascot 3 three_pages
                (pad_only RETRO_DEVICE_ID_JOYPAD_START) (page_at 1 0 0 0) eq_refl)
    as H2.
  cbv zeta in H1, H2.
  destruct H1 as (_ & H1 & _), H2 as (_ & _ & H2 & _).
  split; [exact (H1 eq_refl) | exact (H2 eq_refl)].
Defined.

Lemma boot_lasts_at_most_600_frames_witness :
  state (run_frames sample_font 2 2 sample_mascot 3 three_pages
           [pad_none; pad_none] (snd (retro_load_game true true core_initial)))
  = STATE_BOOT /\
  boot_timer (run_frames sample_font 2 2 sample_mascot 3 three_pages
                [pad_none; pad_none] (snd (retro_load_game true true core_initial)))
  = 2.
Proof.
  pose proof (boot_lasts_at_most_600_frames sample_font 2 2 sample_mascot 3
                three_pages [pad_none; pad_none]
                (snd (retro_load_game true true core_initial))
                eq_refl eq_refl eq_refl) as H.
  cbv zeta in H. destruct H as (H & _).
  apply H.
  - repeat constructor; intros i _; reflexivity.
  - cbn. unfold BOOT_FRAMES. lia.
Defined.

Lemma idle_frame_keeps_navigation_witness :
  state (fst (retro_run sample_font 2 2 sample_mascot 3 three_pages pad_none
                (page_at 1 5 1 0))) = STATE_PAGE /\
  page_scroll (fst (retro_run sample_font 2 2 sample_mascot 3 three_pages pad_none
                      (page_at 1 5 1 0))) = 5.
Proof.
  assert (Hboot : state (page_at 1 5 1 0) <> STATE_BOOT) by discriminate.
  assert (Hidle : pad_idle pad_none) by (intros i _; reflexivity).
  pose proof (idle_frame_keeps_navigation sample_font 2 2 sample_mascot 3
                three_pages pad_none (page_at 1 5 1 0) eq_refl Hboot Hidle) as H.
  cbv zeta in H. destruct H as (H1 & _ & _ & _ & H5 & _).
  split; [exact H1 | exact H5].
Defined.

Lemma held_down_moves_cursor_witness :
  toc_cursor (run_frames sample_font 2 2 sample_mascot 30 thirty_pages
                (repeat (pad_only RETRO_DEVICE_ID_JOYPAD_DOWN) 28) (toc_at 0 0))
  = 3.
Proof.
  assert (Hc : toc_cursor (toc_at 0 0) <= 30 - 1) by (cbn; lia).
  assert (Hpads : Forall (fun pad : joypad =>
                            pad RETRO_DEVICE_ID_JOYPAD_DOWN <> 0 /\
                            pad RETRO_DEVICE_ID_JOYPAD_UP = 0 /\
                            pad RETRO_DEVICE_ID_JOYPAD_L = 0 /\
                            pad RETRO_DEVICE_ID_JOYPAD_R = 0 /\
                            pad RETRO_DEVICE_ID_JOYPAD_A = 0 /\
                            pad RETRO_DEVICE_ID_JOYPAD_RIGHT = 0 /\
                            pad RETRO_DEVICE_ID_JOYPAD_LEFT = 0)
                   (repeat (pad_only RETRO_DEVICE_ID_JOYPAD_DOWN) 28)).
  { apply Stdlib.Lists.List.Forall_forall. intros pad Hin. apply repeat_spec in Hin. subst pad.
    repeat split; try reflexivity. discriminate. }
  assert (Hn : Z.of_nat (length (repeat (pad_only RETRO_DEVICE_ID_JOYPAD_DOWN) 28))
               <= INT_MAX) by (vm_compute; discriminate).
  pose proof (held_down_moves_cursor sample_font 2 2 sample_mascot 30
                thirty_pages (repeat (pad_only RETRO_DEVICE_ID_JOYPAD_DOWN) 28)
                (toc_at 0 0) eq_refl eq_refl eq_refl eq_refl Hc Hpads
                (or_introl Hn)) as H.
  cbv zeta in H. exact (proj2 H).
Defined.

Lemma held_button_press_count_witness :
  Z.of_nat (press_events RETRO_DEVICE_ID_JOYPAD_A
              (repeat (pad_only RETRO_DEVICE_ID_JOYPAD_A) 28) (toc_at 0 0)) = 3.
Proof.
  assert (Hb : 0 <= RETRO_DEVICE_ID_JOYPAD_A < BTN_COUNT)
    by (unfold RETRO_DEVICE_ID_JOYPAD_A, BTN_COUNT; lia).
  assert (Hpads : Forall (fun pad : joypad => pad RETRO_DEVICE_ID_JOYPAD_A <> 0)
                    (repeat (pad_only RETRO_DEVICE_ID_JOYPAD_A) 28)).
  { apply Stdlib.Lists.List.Forall_forall. intros pad Hin. apply repeat_spec in Hin. subst pad.
    discriminate. }
  assert (Hn : Z.of_nat (length (repeat (pad_only RETRO_DEVICE_ID_JOYPAD_A) 28))
               <= INT_MAX) by (vm_compute; discriminate).
  exact (held_button_press_count RETRO_DEVICE_ID_JOYPAD_A
           (repeat (pad_only RETRO_DEVICE_ID_JOYPAD_A) 28) (toc_at 0 0)
           Hb eq_refl eq_refl Hpads Hn).
Defined.

Lemma page_prev_next_round_trip_witness :
  current_page (page_next 3 (page_prev 3 (page_at 0 5 0 0))) = 0 /\
  current_page (page_prev 3 (page_next 3 (page_at 2 5 0 0))) = 2.
Proof.
  assert (H0 : 0 <= current_page (page_at 0 5 0 0) <= 3 - 1) by (cbn; lia).
  assert (H2 : 0 <= current_page (page_at 2 5 0 0) <= 3 - 1) by (cbn; lia).
  pose proof (page_prev_next_round_trip 3 (page_at 0 5 0 0) H0) as Ha.
  pose proof (page_prev_next_round_trip 3 (page_at 2 5 0 0) H2) as Hb.
  cbv zeta in Ha, Hb.
  split; [exact (proj1 Ha) | exact (proj1 (proj2 Hb))].
Defined.

Lemma renderers_stay_inside_the_array_witness :
  render_toc sample_font 3 three_pages 0 0 (fun _ => 7) (-1) = 7 /\
  render_page sample_font 3 three_pages 1 0 (fun _ => 7) (SCREEN_W * SCREEN_H) = 7.
Proof.
  assert (Hlow : ~ (0 <= -1 < SCREEN_W * SCREEN_H)) by lia.
  assert (Hhigh : ~ (0 <= SCREEN_W * SCREEN_H < SCREEN_W * SCREEN_H)) by lia.
  pose proof (renderers_stay_inside_the_array sample_font 2 2 sample_mascot 3
                three_pages (fun _ => 7) (-1) Hlow) as H1.
  pose proof (renderers_stay_inside_the_array sample_font 2 2 sample_mascot 3
                three_pages (fun _ => 7) (SCREEN_W * SCREEN_H) Hhigh) as H2.
  destruct H1 as (_ & H1 & _), H2 as (_ & _ & H2 & _).
  split; [exact (H1 0 0) | exact (H2 1 0)].
Defined.

Lemma fill_rect_pixel_witness :
  fill_rect 10 10 20 20 5 (fun _ => 0) (15 * SCREEN_W + 15) = 5 /\
  fill_rect 10 10 20 20 5 (fun _ => 0) (5 * SCREEN_W + 15) = 0.
Proof.
  assert (Hx : 0 <= 15 < SCREEN_W) by (unfold SCREEN_W; lia).
  assert (Hy : 0 <= 15 < SCREEN_H) by (unfold SCREEN_H; lia).
  assert (Hy' : 0 <= 5 < SCREEN_H) by (unfold SCREEN_H; lia).
  pose proof (proj1 (fill_rect_pixel 10 10 20 20 5 (fun _ => 0))) as H.
  split; [exact (H 15 15 Hx Hy) | exact (H 15 5 Hx Hy')].
Defined.

Lemma render_clear_picture_witness :
  render_clear (fun _ => 0) (0 * SCREEN_W + 0) = COL_BORDER /\
  render_clear (fun _ => 0) (240 * SCREEN_W + 320) = COL_BG.
Proof.
  assert (H0 : 0 <= 0 < SCREEN_W) by (unfold SCREEN_W; lia).
  assert (H0' : 0 <= 0 < SCREEN_H) by (unfold SCREEN_H; lia).
  assert (Hx : 0 <= 320 < SCREEN_W) by (unfold SCREEN_W; lia).
  assert (Hy : 0 <= 240 < SCREEN_H) by (unfold SCREEN_H; lia).
  split.
  - exact (render_clear_picture (fun _ => 0) 0 0 H0 H0').
  - exact (render_clear_picture (fun _ => 0) 320 240 Hx Hy).
Defined.

Lemma render_text_clips_witness :
  render_text sample_font 74 0 (String.append "ab" "cd") 1 (fun _ => 0)
  = render_text sample_font 74 0 "ab" 1 (fun _ => 0).
Proof.
  assert (H : TEXT_COLS <= 74 + strlen "ab") by (vm_compute; discriminate).
  exact (render_text_clips sample_font 74 0 "ab" "cd" 1 (fun _ => 0) H).
Defined.

Lemma render_glyph_pixel_witness :
  render_glyph sample_font 0 0 65 9 (fun _ => 0) (0 * SCREEN_W + 3) = 9 /\
  render_glyph sample_font 0 0 65 9 (fun _ => 0) (2 * SCREEN_W + 3) = 0.
Proof.
  assert (Hx : 0 <= 3 < SCREEN_W) by (unfold SCREEN_W; lia).
  assert (Hy : 0 <= 0 < SCREEN_H) by (unfold SCREEN_H; lia).
  assert (Hy' : 0 <= 2 < SCREEN_H) by (unfold SCREEN_H; lia).
  pose proof (proj1 (render_glyph_pixel sample_font 0 0 65 9 (fun _ => 0))) as H.
  split; [exact (H 3 0 Hx Hy) | exact (H 3 2 Hx Hy')].
Defined.

Lemma boot_screen_at_rest_witness :
  render_boot sample_font 2 2 sample_mascot 599 (fun _ => 0)
  = render_boot sample_font 2 2 sample_mascot 560 (fun _ => 0).
Proof.
  assert (H : 540 <= 599) by lia.
  exact (boot_screen_at_rest sample_font 2 2 sample_mascot 599 (fun _ => 0) H).
Defined.

Lemma blink_cursor_cycle_witness :
  blink_cursor 3 5 (45 + 60) (fun _ => 0) = blink_cursor 3 5 45 (fun _ => 0).
Proof.
  assert (H : 0 <= 45) by lia.
  exact (proj2 (blink_cursor_cycle 3 5 45 (fun _ => 0) H)).
Defined.

Lemma render_mascot_fade_ends_witness :
  render_mascot 2 2 sample_mascot 320 240 255 (fun _ => 0) (240 * SCREEN_W + 320) = 0 \/
  exists k, 0 <= k < 2 * 2 /\
            Z.shiftr (sample_mascot k) 24 <> 0 /\
            render_mascot 2 2 sample_mascot 320 240 255 (fun _ => 0)
              (240 * SCREEN_W + 320)
            = Z.lor (sample_mascot k) 0xFF000000.
Proof.
  assert (H : 255 <= 255) by lia.
  exact (proj2 (render_mascot_fade_ends 2 2 sample_mascot 320 240 (fun _ => 0)
                  (240 * SCREEN_W + 320)) 255 H).
Defined.

Lemma reset_restarts_like_load_witness :
  snd (retro_run sample_font 2 2 sample_mascot 3 three_pages pad_none
         (run_frames sample_font 2 2 sample_mascot 3 three_pages
            [pad_only RETRO_DEVICE_ID_JOYPAD_A] (retro_reset (page_at 1 5 1 0))))
  = snd (retro_run sample_font 2 2 sample_mascot 3 three_pages pad_none
           (run_frames sample_font 2 2 sample_mascot 3 three_pages
              [pad_only RETRO_DEVICE_ID_JOYPAD_A]
              (snd (retro_load_game true true (page_at 1 5 1 0))))).
Proof.
  pose proof (reset_restarts_like_load sample_font 2 2 sample_mascot 3 three_pages
                [pad_only RETRO_DEVICE_ID_JOYPAD_A] (page_at 1 5 1 0) eq_refl) as H.
  cbv zeta in H. exact (proj2 (proj2 H) pad_none).
Defined.
